(** * Debt-recovery agent: conversation lifecycle, compliance gate,
      identity verification, response validation and payment plans.

    A shallow embedding of the Python services under [app/services] and of
    the models under [app/models], followed by the properties of the
    specification that are settled against it.

    Conventions of the embedding.
    - A Python [float] is an IEEE-754 binary64 value, written as a
      [spec_float] with precision 53 and maximal exponent 1024; NaN and the
      infinities are values of the type. The values that the code can hold
      are the canonical ones; what is proved for every [float] holds for
      them.
    - A Python [int] is a [Z].
    - A [str] is a [string]; the text is taken to be ASCII, so [str.lower]
      changes the letters A-Z only.
    - A [dict] with string keys is a [gmap string _].
    - A function that can raise returns a [res]: [Ok v] or [Raise e].
    - The SQLAlchemy session is a pair of stores: the rows as the open
      transaction sees them and the rows that are durable; [commit] and
      [rollback] copy one onto the other.
    - The Python builtins that the code calls on strings it does not build
      itself ([float(s)], [datetime.fromisoformat], [time.fromisoformat],
      the format conversions) are the fields of the class [Python]; the
      properties hold for every such runtime, and [RefPython.ref_python] is
      a small concrete one used in the examples.
    - Each clock ([datetime.utcnow()], [datetime.now()], the database's
      [now()]) is read once per call.
    - Logging has no effect on what is modelled and is left out. *)

From Stdlib Require Import ZArith Lia Bool List Ascii String.
From Stdlib Require Import Floats.SpecFloat.
From stdpp Require Import base option list gmap strings pretty.

Open Scope string_scope.
Open Scope list_scope.
Open Scope Z_scope.

(** ** Exceptions and results *)

Inductive exn : Type :=
| ValueError (msg : string)
| TypeError
| OverflowError
| ZeroDivisionError
| AttributeError
| IntegrityError.

Inductive res (A : Type) : Type :=
| Ok (a : A)
| Raise (e : exn).
Arguments Ok {A} a.
Arguments Raise {A} e.

Definition bind {A B : Type} (m : res A) (k : A -> res B) : res B :=
  match m with
  | Ok a => k a
  | Raise e => Raise e
  end.

#[global] Instance res_ret : MRet res := fun A a => Ok a.
#[global] Instance res_bind : MBind res := fun A B k m => bind m k.

(** ** Python floats (binary64) *)

Definition float : Type := spec_float.

Module PyFloat.

Definition prec : Z := 53.
Definition emax : Z := 1024.

(** [float(z)] for an [int] that fits: rounded to nearest even. *)
Definition of_Z (z : Z) : float := binary_normalize prec emax z 0 false.

Definition zero : float := S754_zero false.

Definition lt (x y : float) : bool := SFltb x y.
Definition le (x y : float) : bool := SFleb x y.
Definition gt (x y : float) : bool := SFltb y x.
Definition ge (x y : float) : bool := SFleb y x.
Definition eqb (x y : float) : bool := SFeqb x y.

Definition sub (x y : float) : float := SFsub prec emax x y.
Definition mul (x y : float) : float := SFmul prec emax x y.
Definition abs (x : float) : float := SFabs x.

Definition is_inf (x : float) : bool :=
  match x with S754_infinity _ => true | _ => false end.

Definition is_zero (x : float) : bool :=
  match x with S754_zero _ => true | _ => false end.

(** [bool(x)]: every float but the two zeros is truthy, NaN included. *)
Definition truthy (x : float) : bool := negb (is_zero x).

(** [x / y] on floats; Python raises on a zero divisor, where IEEE-754
    would give an infinity or NaN. *)
Definition div (x y : float) : res float :=
  if is_zero y then Raise ZeroDivisionError
  else Ok (SFdiv prec emax x y).

(** The literals of the source, as the nearest binary64 values. *)
(* 0.70 = 0x1.6666666666666p-1 *)
Definition f0_70 : float := S754_finite false 6305039478318694 (-53).
(* 0.01 = 0x1.47ae147ae147bp-7 *)
Definition f0_01 : float := S754_finite false 5764607523034235 (-59).

End PyFloat.

(** ** Dynamically typed values ([Any]) *)

Inductive Any : Type :=
| PyNone
| PyBool (b : bool)
| PyInt (z : Z)
| PyFloat (f : float)
| PyStr (s : string)
| PyObj.  (* a list, a dict or any other object *)

Module PyAny.

(** [v == s] for a string literal [s]. *)
Definition eq_str (v : Any) (s : string) : bool :=
  match v with
  | PyStr t => bool_decide (t = s)
  | _ => false
  end.

(** The numeric view of a value: [bool] is a subtype of [int]. *)
Inductive num : Type :=
| NInt (z : Z)
| NFloat (f : float).

Definition as_num (v : Any) : option num :=
  match v with
  | PyBool b => Some (NInt (if b then 1 else 0))
  | PyInt z => Some (NInt z)
  | PyFloat f => Some (NFloat f)
  | _ => None
  end.

(** Exact comparison of an integer with a float, as CPython does it:
    no rounding of the integer. [None] when the float is NaN. *)
Definition Z_compare_float (z : Z) (f : float) : option comparison :=
  match f with
  | S754_nan => None
  | S754_zero _ => Some (z ?= 0)
  | S754_infinity s => Some (if s then Gt else Lt)
  | S754_finite s m e =>
      let v := if s then Z.neg m else Z.pos m in
      Some (if 0 <=? e then z ?= v * 2 ^ e else z * 2 ^ (- e) ?= v)
  end.

Definition num_lt (a b : num) : bool :=
  match a, b with
  | NInt x, NInt y => x <? y
  | NFloat x, NFloat y => PyFloat.lt x y
  | NInt x, NFloat y =>
      match Z_compare_float x y with Some Lt => true | _ => false end
  | NFloat x, NInt y =>
      match Z_compare_float y x with Some Gt => true | _ => false end
  end.

(** [a < n] and [a > n] for a number [n]; ordering a value that is not
    a number against a number raises [TypeError]. *)
Definition lt_num (a : Any) (n : num) : res bool :=
  match as_num a with
  | Some x => Ok (num_lt x n)
  | None => Raise TypeError
  end.

Definition gt_num (a : Any) (n : num) : res bool :=
  match as_num a with
  | Some x => Ok (num_lt n x)
  | None => Raise TypeError
  end.

(** [float(z)] of an [int] operand of a float operation. *)
Definition float_of_int (z : Z) : res float :=
  let f := PyFloat.of_Z z in
  if PyFloat.is_inf f then Raise OverflowError else Ok f.

(** [a / b] with a float divisor. *)
Definition truediv_float (a : Any) (b : float) : res float :=
  match as_num a with
  | Some (NInt z) => x ← float_of_int z; PyFloat.div x b
  | Some (NFloat x) => PyFloat.div x b
  | None => Raise TypeError
  end.

End PyAny.

(** ** Strings *)

Module PyStr.

Definition lower_ascii (c : ascii) : ascii :=
  let n := N_of_ascii c in
  if ((65 <=? n) && (n <=? 90))%N then ascii_of_N (n + 32) else c.

(** [s.lower()] *)
Fixpoint lower (s : string) : string :=
  match s with
  | EmptyString => EmptyString
  | String c s' => String (lower_ascii c) (lower s')
  end.

(** [sub in s] *)
Fixpoint contains (sub s : string) : bool :=
  match s with
  | EmptyString => String.prefix sub EmptyString
  | String _ s' => String.prefix sub s || contains sub s'
  end.

(** [bool(s)] *)
Definition truthy (s : string) : bool :=
  match s with EmptyString => false | _ => true end.

End PyStr.

(** ** Dates and times (the [datetime] module) *)

Module PyDatetime.

Definition MAXYEAR : Z := 9999.
Definition MAXORDINAL : Z := 3652059.

Definition is_leap (y : Z) : bool :=
  (y mod 4 =? 0) && (negb (y mod 100 =? 0) || (y mod 400 =? 0)).

Definition DAYS_IN_MONTH (m : Z) : Z :=
  match m with
  | 1 => 31 | 2 => 28 | 3 => 31 | 4 => 30 | 5 => 31 | 6 => 30
  | 7 => 31 | 8 => 31 | 9 => 30 | 10 => 31 | 11 => 30 | 12 => 31
  | _ => -1
  end.

Definition DAYS_BEFORE_MONTH (m : Z) : Z :=
  match m with
  | 1 => 0 | 2 => 31 | 3 => 59 | 4 => 90 | 5 => 120 | 6 => 151
  | 7 => 181 | 8 => 212 | 9 => 243 | 10 => 273 | 11 => 304 | 12 => 334
  | _ => -1
  end.

Definition days_before_year (y : Z) : Z :=
  let y := y - 1 in y * 365 + y / 4 - y / 100 + y / 400.

Definition days_in_month (y m : Z) : Z :=
  if (m =? 2) && is_leap y then 29 else DAYS_IN_MONTH m.

Definition days_before_month (y m : Z) : Z :=
  DAYS_BEFORE_MONTH m + (if (2 <? m) && is_leap y then 1 else 0).

Definition ymd2ord (y m d : Z) : Z :=
  days_before_year y + days_before_month y m + d.

Definition DI400Y : Z := 146097.
Definition DI100Y : Z := 36524.
Definition DI4Y : Z := 1461.

Definition ord2ymd (n : Z) : Z * Z * Z :=
  let n := n - 1 in
  let n400 := n / DI400Y in
  let n := n mod DI400Y in
  let year := n400 * 400 + 1 in
  let n100 := n / DI100Y in
  let n := n mod DI100Y in
  let n4 := n / DI4Y in
  let n := n mod DI4Y in
  let n1 := n / 365 in
  let n := n mod 365 in
  let year := year + n100 * 100 + n4 * 4 + n1 in
  if (n1 =? 4) || (n100 =? 4) then (year - 1, 12, 31)
  else
    let leapyear := (n1 =? 3) && (negb (n4 =? 24) || (n100 =? 3)) in
    let month := Z.shiftr (n + 50) 5 in
    let preceding :=
      DAYS_BEFORE_MONTH month + (if (2 <? month) && leapyear then 1 else 0) in
    if n <? preceding then
      let month := month - 1 in
      let preceding :=
        preceding
        - (DAYS_IN_MONTH month + (if (month =? 2) && leapyear then 1 else 0)) in
      (year, month, n - preceding + 1)
    else (year, month, n - preceding + 1).

(** A naive [datetime]. *)
Record datetime : Type := mk_datetime {
  year : Z; month : Z; day : Z;
  hour : Z; minute : Z; second : Z; microsecond : Z
}.

(** A [time]; [tzinfo] is the UTC offset in microseconds of an aware
    time and [None] for a naive one. *)
Record time : Type := mk_time {
  t_hour : Z; t_minute : Z; t_second : Z; t_microsecond : Z;
  tzinfo : option Z
}.

Definition toordinal (d : datetime) : Z := ymd2ord (year d) (month d) (day d).

(** [d.weekday()]: Monday is 0, Sunday is 6. *)
Definition weekday (d : datetime) : Z := (toordinal d + 6) mod 7.

(** [d.time()] *)
Definition time_of (d : datetime) : time :=
  mk_time (hour d) (minute d) (second d) (microsecond d) None.

(** [datetime.combine(d.date(), time.min)] and [..., time.max)] *)
Definition day_start (d : datetime) : datetime :=
  mk_datetime (year d) (month d) (day d) 0 0 0 0.
Definition day_end (d : datetime) : datetime :=
  mk_datetime (year d) (month d) (day d) 23 59 59 999999.

(** Lexicographic order on tuples of integers. *)
Fixpoint lex_compare (a b : list Z) : comparison :=
  match a, b with
  | x :: a', y :: b' =>
      match x ?= y with Eq => lex_compare a' b' | c => c end
  | [], [] => Eq
  | [], _ :: _ => Lt
  | _ :: _, [] => Gt
  end.

Definition is_le (c : comparison) : bool :=
  match c with Gt => false | _ => true end.

Definition dt_fields (d : datetime) : list Z :=
  [year d; month d; day d; hour d; minute d; second d; microsecond d].

(** [a <= b] on naive datetimes. *)
Definition dt_le (a b : datetime) : bool :=
  is_le (lex_compare (dt_fields a) (dt_fields b)).

(** [time._cmp]: equal offsets (or two naive times) compare field by
    field; a naive and an aware time do not compare; otherwise the
    offsets, in whole minutes, are subtracted first. *)
Definition time_cmp (a b : time) : res comparison :=
  let base :=
    lex_compare [t_hour a; t_minute a; t_second a; t_microsecond a]
                [t_hour b; t_minute b; t_second b; t_microsecond b] in
  match tzinfo a, tzinfo b with
  | None, None => Ok base
  | Some oa, Some ob =>
      if oa =? ob then Ok base
      else
        Ok (lex_compare
              [t_hour a * 60 + t_minute a - oa / 60000000;
               t_second a; t_microsecond a]
              [t_hour b * 60 + t_minute b - ob / 60000000;
               t_second b; t_microsecond b])
  | _, _ => Raise TypeError
  end.

(** [a <= b] on times. *)
Definition time_le (a b : time) : res bool :=
  c ← time_cmp a b; mret (is_le c).

(** [d + timedelta(days=k)] *)
Definition add_days (d : datetime) (k : Z) : res datetime :=
  let n := toordinal d + k in
  if (0 <? n) && (n <=? MAXORDINAL) then
    let '(y, m, dd) := ord2ymd n in
    Ok (mk_datetime y m dd (hour d) (minute d) (second d) (microsecond d))
  else Raise OverflowError.

(** The check of the date fields that every constructor runs. *)
Definition check_date_fields (y m d : Z) : bool :=
  (1 <=? y) && (y <=? MAXYEAR) && (1 <=? m) && (m <=? 12)
  && (1 <=? d) && (d <=? days_in_month y m).

(** [d.replace(year=y, month=m)]: the new value goes through the check
    of the date fields, year first, then month, then day. *)
Definition replace_year_month (d : datetime) (y m : Z) : res datetime :=
  if negb ((1 <=? y) && (y <=? MAXYEAR)) then
    Raise (ValueError ("year " +:+ pretty y +:+ " is out of range"))
  else if negb ((1 <=? m) && (m <=? 12)) then
    Raise (ValueError "month must be in 1..12")
  else if negb ((1 <=? day d) && (day d <=? days_in_month y m)) then
    Raise (ValueError "day is out of range for month")
  else
    Ok (mk_datetime y m (day d) (hour d) (minute d) (second d) (microsecond d)).

End PyDatetime.

Export PyDatetime (datetime, mk_datetime, time, mk_time).

(** ** Tables of the calendar, used to check [ord2ymd] against [ymd2ord] *)

Module CalendarTables.
Import PyDatetime.

(** The month and the day of the [n]-th day of a year, counted from 0:
    the end of [ord2ymd]. *)
Definition month_day (leapyear : bool) (n : Z) : Z * Z :=
  let month := Z.shiftr (n + 50) 5 in
  let preceding :=
    DAYS_BEFORE_MONTH month + (if (2 <? month) && leapyear then 1 else 0) in
  if n <? preceding then
    let month := month - 1 in
    let preceding :=
      preceding
      - (DAYS_IN_MONTH month + (if (month =? 2) && leapyear then 1 else 0)) in
    (month, n - preceding + 1)
  else (month, n - preceding + 1).

(** [check] holds on the [n] integers from [start] on. *)
Fixpoint all_from (check : Z -> bool) (start : Z) (n : nat) : bool :=
  match n with
  | O => true
  | S n' => check start && all_from check (start + 1) n'
  end.

Definition month_day_ok (n : Z) : bool :=
  forallb (fun leapyear : bool =>
             let '(m, d) := month_day leapyear n in
             DAYS_BEFORE_MONTH m + (if (2 <? m) && leapyear then 1 else 0) + d
             =? n + 1)
          [false; true].

(** The year that starts [n100] centuries, [n4] four-year blocks and
    [n1] years into a cycle: the days before it and its leap flag. *)
Definition year_ok (n100 n4 n1 : Z) : bool :=
  let year := 1 + n100 * 100 + n4 * 4 + n1 in
  (days_before_year year =? n100 * DI100Y + n4 * DI4Y + n1 * 365)
  && Bool.eqb (is_leap year) ((n1 =? 3) && (negb (n4 =? 24) || (n100 =? 3))).

End CalendarTables.

(** ** The builtins applied to strings that the code does not build *)

Class Python : Type := {
  (** [float(s)]; [None] is [ValueError]. *)
  float_of_str : string -> option float;
  (** [datetime.fromisoformat(s)] on a date-only string; [None] is
      [ValueError]. *)
  datetime_fromisoformat : string -> option datetime;
  (** [time.fromisoformat(s)]; [None] is [ValueError]. *)
  time_fromisoformat : string -> option time;
  (** [str(d)] *)
  str_of_datetime : datetime -> string;
  (** [format(x, '.1%')] *)
  format_pct1 : float -> string;
  (** [str(v)] inside an f-string. *)
  str_of_any : Any -> string
}.

(** ** The models of [app/models/pydantic_models.py] *)

Module ConversationChannel.
Inductive t : Type := CHAT | SMS | EMAIL | VOICE.
Definition value (c : t) : string :=
  match c with
  | CHAT => "chat" | SMS => "sms" | EMAIL => "email" | VOICE => "voice"
  end.
End ConversationChannel.

Module ActionType.
Inductive t : Type :=
| INFORM | COLLECT_PAYMENT | PROPOSE_PLAN | ACKNOWLEDGE
| REQUEST_INFO | ESCALATE | CLOSE | VERIFY_IDENTITY.
#[global] Instance eq_dec : EqDecision t.
Proof. solve_decision. Defined.
Definition value (a : t) : string :=
  match a with
  | INFORM => "inform" | COLLECT_PAYMENT => "collect_payment"
  | PROPOSE_PLAN => "propose_plan" | ACKNOWLEDGE => "acknowledge"
  | REQUEST_INFO => "request_info" | ESCALATE => "escalate"
  | CLOSE => "close" | VERIFY_IDENTITY => "verify_identity"
  end.
End ActionType.

Module PlanType.
Inductive t : Type := INSTALLMENT | SETTLEMENT | ONE_TIME.
#[global] Instance eq_dec : EqDecision t.
Proof. solve_decision. Defined.
Definition value (p : t) : string :=
  match p with
  | INSTALLMENT => "installment" | SETTLEMENT => "settlement"
  | ONE_TIME => "one_time"
  end.
End PlanType.

Module StructuredPlan.
Record t : Type := mk {
  type : PlanType.t;
  amount : float;
  installments : option Z;
  first_due_date : option string;
  frequency : option string
}.
End StructuredPlan.

Module AssistantResponse.
Record t : Type := mk {
  action : ActionType.t;
  message_to_user : string;
  structured_plan : option StructuredPlan.t;
  confidence : float;
  escalation : bool;
  compliance_checks : list string;
  metadata : option (gmap string string)
}.
End AssistantResponse.

Module ConversationResponse.
Record t : Type := mk {
  ok : bool;
  conversation_id : string;
  assistant : AssistantResponse.t;
  session_data : option (gmap string Any);
  requires_action : bool;
  next_steps : option (list string)
}.
End ConversationResponse.

Module ComplianceCheck.
Record t : Type := mk {
  check_name : string;
  passed : bool;
  details : option string;
  severity : string
}.
(** The default of the [severity] field. *)
Definition default_severity : string := "info".
End ComplianceCheck.

(** ** The tables of [app/models/schemas.py]

    Each row type keeps the columns that the services read or write. *)

Module ConversationState.
Inductive t : Type :=
| INITIATED | IDENTITY_VERIFICATION | ACTIVE_NEGOTIATION
| PAYMENT_PROCESSING | ESCALATED | CLOSED | OPTED_OUT.
#[global] Instance eq_dec : EqDecision t.
Proof. solve_decision. Defined.
Definition value (s : t) : string :=
  match s with
  | INITIATED => "initiated"
  | IDENTITY_VERIFICATION => "identity_verification"
  | ACTIVE_NEGOTIATION => "active_negotiation"
  | PAYMENT_PROCESSING => "payment_processing"
  | ESCALATED => "escalated" | CLOSED => "closed" | OPTED_OUT => "opted_out"
  end.
End ConversationState.

Module MessageType.
Inductive t : Type := USER | ASSISTANT | SYSTEM.
Definition value (m : t) : string :=
  match m with
  | USER => "user" | ASSISTANT => "assistant" | SYSTEM => "system"
  end.
End MessageType.

Module PaymentPlanType.
Inductive t : Type := FULL_PAYMENT | INSTALLMENT | SETTLEMENT.
End PaymentPlanType.

Module Borrower.
Record t : Type := mk {
  id : Z;
  ssn_last_four : option string;
  opt_out_date : option datetime
}.
End Borrower.

Module Loan.
Record t : Type := mk {
  id : Z;
  borrower_id : Z;
  current_balance : float;
  last_payment_amount : option float
}.
End Loan.

Module Conversation.
Record t : Type := mk {
  id : Z;
  conversation_id : string;
  borrower_id : Z;
  loan_id : Z;
  state : ConversationState.t;
  channel : string;
  session_data : option (gmap string Any);
  identity_verified : bool;
  verification_attempts : Z;
  last_activity : datetime;
  escalation_reason : option string;
  escalation_date : option datetime;
  created_at : datetime
}.

Definition set_last_activity (d : datetime) (c : t) : t :=
  mk (id c) (conversation_id c) (borrower_id c) (loan_id c) (state c)
     (channel c) (session_data c) (identity_verified c)
     (verification_attempts c) d (escalation_reason c) (escalation_date c)
     (created_at c).

Definition set_state (s : ConversationState.t) (c : t) : t :=
  mk (id c) (conversation_id c) (borrower_id c) (loan_id c) s
     (channel c) (session_data c) (identity_verified c)
     (verification_attempts c) (last_activity c) (escalation_reason c)
     (escalation_date c) (created_at c).

Definition set_escalation (reason : string) (d : datetime) (c : t) : t :=
  mk (id c) (conversation_id c) (borrower_id c) (loan_id c) (state c)
     (channel c) (session_data c) (identity_verified c)
     (verification_attempts c) (last_activity c) (Some reason) (Some d)
     (created_at c).

Definition set_identity_verified (b : bool) (c : t) : t :=
  mk (id c) (conversation_id c) (borrower_id c) (loan_id c) (state c)
     (channel c) (session_data c) b
     (verification_attempts c) (last_activity c) (escalation_reason c)
     (escalation_date c) (created_at c).

Definition set_verification_attempts (n : Z) (c : t) : t :=
  mk (id c) (conversation_id c) (borrower_id c) (loan_id c) (state c)
     (channel c) (session_data c) (identity_verified c)
     n (last_activity c) (escalation_reason c)
     (escalation_date c) (created_at c).
End Conversation.

Module Message.
Record t : Type := mk {
  id : Z;
  conversation_id : Z;
  message_type : MessageType.t;
  content : string;
  confidence_score : option float;
  compliance_flags : option (list string);
  created_at : datetime
}.
End Message.

Module PaymentPlan.
Record t : Type := mk {
  id : Z;
  loan_id : Z;
  conversation_id : Z;
  plan_type : PaymentPlanType.t;
  total_amount : float;
  installment_amount : float;
  number_of_installments : Z;
  first_payment_date : datetime;
  payment_frequency : string;
  status : string
}.
End PaymentPlan.

Module ScheduledPayment.
Record t : Type := mk {
  id : Z;
  payment_plan_id : Z;
  installment_number : Z;
  due_date : datetime;
  amount : float;
  status : string
}.
End ScheduledPayment.

(** ** The database session

    [rows] is what the queries of the open transaction see, flushed
    changes included; [durable] is what has been committed. A mapped
    object is the row at an index of its table, so an attribute
    assignment is a list update at that index. *)

Record Store : Type := mk_store {
  borrowers : list Borrower.t;
  loans : list Loan.t;
  conversations : list Conversation.t;
  messages : list Message.t;
  payment_plans : list PaymentPlan.t;
  scheduled_payments : list ScheduledPayment.t
}.

Record Session : Type := mk_session {
  rows : Store;
  durable : Store
}.

Definition commit (db : Session) : Session := mk_session (rows db) (rows db).
Definition rollback (db : Session) : Session := mk_session (durable db) (durable db).

Definition with_rows (db : Session) (st : Store) : Session :=
  mk_session st (durable db).

Definition set_conversations (cs : list Conversation.t) (st : Store) : Store :=
  mk_store (borrowers st) (loans st) cs (messages st) (payment_plans st)
           (scheduled_payments st).

Definition set_messages (ms : list Message.t) (st : Store) : Store :=
  mk_store (borrowers st) (loans st) (conversations st) ms (payment_plans st)
           (scheduled_payments st).

Definition set_payment_plans (ps : list PaymentPlan.t) (st : Store) : Store :=
  mk_store (borrowers st) (loans st) (conversations st) (messages st) ps
           (scheduled_payments st).

Definition set_scheduled_payments (sp : list ScheduledPayment.t) (st : Store) : Store :=
  mk_store (borrowers st) (loans st) (conversations st) (messages st)
           (payment_plans st) sp.

(** The assignment [obj.attr = v] on the conversation at index [i]. *)
Definition store_conversation (i : nat) (c : Conversation.t) (db : Session) : Session :=
  with_rows db (set_conversations (<[i := c]> (conversations (rows db))) (rows db)).

(** The next value of an autoincrement primary key. *)
Definition fresh_id (ids : list Z) : Z := 1 + foldr Z.max 0 ids.

(** [query.filter(P).first()], with the index of the row. *)
Definition first {A : Type} (P : A -> bool) (l : list A) : option (nat * A) :=
  list_find (fun a => P a = true) l.

(** [query.filter(P).count()] *)
Definition count {A : Type} (P : A -> bool) (l : list A) : Z :=
  Z.of_nat (length (filter (fun a => P a = true) l)).

(** ** The environment variables read by the services, already converted
       by [float(...)] and [int(...)] *)

Record Env : Type := mk_env {
  MAX_SETTLEMENT_PERCENTAGE : float;
  MAX_INSTALLMENT_MONTHS : Z;
  CONTACT_HOURS_START : string;
  CONTACT_HOURS_END : string
}.

(** The defaults given to [os.getenv]. *)
Definition default_env : Env :=
  mk_env PyFloat.f0_70 12 "08:00" "21:00".

(** The context dictionary built for the generator; its keys are fixed, so
    it is a record. *)
Module ConversationContext.
Record t : Type := mk {
  conversation_id : string;
  state : string;
  identity_verified : bool;
  verification_attempts : Z;
  session_data : gmap string Any;
  recent_messages : list (string * string);
  channel : string;
  last_activity : datetime
}.
End ConversationContext.

(** ** [app/services/llm_service.py] *)

Module LLMService.
Import StructuredPlan AssistantResponse.

(** The text that replaces the message of a rejected proposal. *)
Definition handoff_message : string :=
  "I need to connect you with a specialist who can better "
  +:+ "assist with your request. They will contact you shortly.".

Definition _validate_payment_plan (env : Env) (plan : StructuredPlan.t) : list string :=
  let errors : list string := [] in
  (* Check settlement percentage *)
  let errors :=
    if bool_decide (type plan = PlanType.SETTLEMENT) then
      let max_settlement := MAX_SETTLEMENT_PERCENTAGE env in
      (* the balance is not at hand here: only the sign is checked *)
      if PyFloat.le (amount plan) PyFloat.zero
      then errors ++ ["Settlement amount must be positive"]
      else errors
    else errors in
  (* Check installment limits *)
  let errors :=
    if bool_decide (type plan = PlanType.INSTALLMENT) then
      let max_months := MAX_INSTALLMENT_MONTHS env in
      let errors :=
        match installments plan with
        | Some n =>
            if negb (n =? 0) && (max_months <? n)
            then errors ++ ["Installment plan exceeds maximum "
                            +:+ pretty max_months +:+ " months"]
            else errors
        | None => errors
        end in
      if PyFloat.lt (amount plan) (PyFloat.of_Z 25)
      then errors ++ ["Minimum payment amount is $25"]
      else errors
    else errors in
  errors.

Definition prohibited_words : list string :=
  ["threaten"; "sue"; "arrest"; "jail"; "garnish"; "seize"].

Definition _check_compliance (response : AssistantResponse.t)
    (conversation_context : ConversationContext.t) : list string :=
  let errors : list string := [] in
  (* Check if identity verification is required *)
  let errors :=
    if negb (ConversationContext.identity_verified conversation_context) then
      if bool_decide (action response ∈
           [ActionType.INFORM; ActionType.COLLECT_PAYMENT; ActionType.PROPOSE_PLAN])
      then
        if PyStr.contains "balance" (PyStr.lower (message_to_user response))
           || PyStr.contains "$" (message_to_user response)
        then errors ++ ["Cannot share account details without identity verification"]
        else errors
      else errors
    else errors in
  (* Check for prohibited language *)
  let message_lower := PyStr.lower (message_to_user response) in
  errors ++
    omap (fun word =>
            if PyStr.contains word message_lower
            then Some ("Prohibited language detected: " +:+ word)
            else None)
         prohibited_words.

(** The list [validation_errors] that [_validate_response] collects. *)
Definition validation_errors (env : Env) (response : AssistantResponse.t)
    (conversation_context : ConversationContext.t) : list string :=
  let validation_errors : list string := [] in
  (* Validate structured plan if present *)
  let validation_errors :=
    match structured_plan response with
    | Some plan => validation_errors ++ _validate_payment_plan env plan
    | None => validation_errors
    end in
  (* Check compliance requirements *)
  validation_errors ++ _check_compliance response conversation_context.

Definition _validate_response (env : Env) (response : AssistantResponse.t)
    (conversation_context : ConversationContext.t) : AssistantResponse.t :=
  let validation_errors := validation_errors env response conversation_context in
  (* If validation fails and not already escalating, force escalation *)
  if negb (bool_decide (validation_errors = [])) && negb (escalation response) then
    AssistantResponse.mk
      ActionType.ESCALATE
      handoff_message
      None
      (confidence response)
      true
      (compliance_checks response ++ ["validation_failed"])
      (metadata response)
  else response.

Definition _get_fallback_response : AssistantResponse.t :=
  AssistantResponse.mk
    ActionType.ESCALATE
    ("I'm experiencing technical difficulties and want to ensure "
     +:+ "you receive the best service. Let me connect you with a "
     +:+ "specialist who can assist you immediately.")
    None
    (PyFloat.of_Z 1)
    true
    ["technical_failure_escalation"]
    (Some {["fallback_reason" := "llm_processing_error"]}).

(** [process_conversation]: [generated] is what retrieval, prompting,
    the model call and the parsing of its answer produce, a parsed
    proposal or an exception; every exception is answered by the
    fallback. *)
Definition process_conversation (env : Env)
    (generated : res AssistantResponse.t)
    (conversation_context : ConversationContext.t) : AssistantResponse.t :=
  match generated with
  | Ok parsed_response => _validate_response env parsed_response conversation_context
  | Raise _ => _get_fallback_response
  end.

End LLMService.

(** ** [app/services/compliance_service.py]

    [now] is the reading of [datetime.now()] for the call. *)

Module ContactCompliance.
(** The dictionary returned by the gate. *)
Record t : Type := mk {
  allowed : bool;
  reason : option string;
  checks : option (list ComplianceCheck.t)
}.
End ContactCompliance.

Module ComplianceService.
Import ComplianceCheck.

Record t : Type := mk {
  max_settlement_percentage : float;
  max_installment_months : Z;
  contact_hours_start : string;
  contact_hours_end : string;
  max_daily_contact_attempts : Z;
  max_weekly_contact_attempts : Z;
  (* 0=Monday, 6=Sunday *)
  prohibited_days : list Z
}.

Definition __init__ (env : Env) : t :=
  mk (MAX_SETTLEMENT_PERCENTAGE env) (MAX_INSTALLMENT_MONTHS env)
     (CONTACT_HOURS_START env) (CONTACT_HOURS_END env) 3 7 [6].

(** The global instance, under the default environment. *)
Definition compliance_service : t := __init__ default_env.

Section WithPython.
Context `{py : Python}.

Definition _check_opt_out_status (borrower : Borrower.t) : ComplianceCheck.t :=
  match Borrower.opt_out_date borrower with
  | Some d =>
      ComplianceCheck.mk "opt_out_status" false
        (Some ("Borrower opted out on " +:+ str_of_datetime d)) "critical"
  | None =>
      ComplianceCheck.mk "opt_out_status" true
        (Some "Borrower has not opted out") default_severity
  end.

Definition contact_time_passed : ComplianceCheck.t :=
  ComplianceCheck.mk "contact_time" true
    (Some "Contact time is within allowed hours") default_severity.

Definition _check_contact_time (self : t) (now : datetime)
    (borrower : Borrower.t) : res ComplianceCheck.t :=
  (* Check if today is a prohibited day *)
  if bool_decide (PyDatetime.weekday now ∈ prohibited_days self) then
    Ok (ComplianceCheck.mk "contact_time" false
          (Some "Contact not allowed on Sundays") "warning")
  else
    (* Parse contact hours; a ValueError falls through to the end *)
    match time_fromisoformat (contact_hours_start self) with
    | None => Ok contact_time_passed
    | Some start_time =>
        match time_fromisoformat (contact_hours_end self) with
        | None => Ok contact_time_passed
        | Some end_time =>
            let current_time := PyDatetime.time_of now in
            (* start_time <= current_time <= end_time *)
            b1 ← PyDatetime.time_le start_time current_time;
            within ← (if b1 : bool
                      then PyDatetime.time_le current_time end_time
                      else mret false);
            if negb within then
              Ok (ComplianceCheck.mk "contact_time" false
                    (Some ("Contact only allowed between "
                           +:+ contact_hours_start self +:+ " and "
                           +:+ contact_hours_end self))
                    "warning")
            else Ok contact_time_passed
        end
    end.

Definition _check_daily_contact_frequency (self : t) (now : datetime)
    (borrower : Borrower.t) (db : Session) : ComplianceCheck.t :=
  let today_start := PyDatetime.day_start now in
  let today_end := PyDatetime.day_end now in
  (* Count conversations started today *)
  let daily_conversations :=
    count (fun c : Conversation.t =>
             (Conversation.borrower_id c =? Borrower.id borrower)
             && PyDatetime.dt_le today_start (Conversation.created_at c)
             && PyDatetime.dt_le (Conversation.created_at c) today_end)
          (conversations (rows db)) in
  if max_daily_contact_attempts self <=? daily_conversations then
    ComplianceCheck.mk "daily_contact_frequency" false
      (Some ("Maximum daily contact attempts ("
             +:+ pretty (max_daily_contact_attempts self) +:+ ") exceeded"))
      "warning"
  else
    ComplianceCheck.mk "daily_contact_frequency" true
      (Some ("Daily contact attempts: " +:+ pretty daily_conversations
             +:+ "/" +:+ pretty (max_daily_contact_attempts self)))
      default_severity.

Definition _check_weekly_contact_frequency (self : t) (now : datetime)
    (borrower : Borrower.t) (db : Session) : res ComplianceCheck.t :=
  week_start ← PyDatetime.add_days now (-7);
  (* Count conversations in the last 7 days *)
  let weekly_conversations :=
    count (fun c : Conversation.t =>
             (Conversation.borrower_id c =? Borrower.id borrower)
             && PyDatetime.dt_le week_start (Conversation.created_at c))
          (conversations (rows db)) in
  if max_weekly_contact_attempts self <=? weekly_conversations then
    Ok (ComplianceCheck.mk "weekly_contact_frequency" false
          (Some ("Maximum weekly contact attempts ("
                 +:+ pretty (max_weekly_contact_attempts self) +:+ ") exceeded"))
          "warning")
  else
    Ok (ComplianceCheck.mk "weekly_contact_frequency" true
          (Some ("Weekly contact attempts: " +:+ pretty weekly_conversations
                 +:+ "/" +:+ pretty (max_weekly_contact_attempts self)))
          default_severity).

Definition blocked (reason : option string) : ContactCompliance.t :=
  ContactCompliance.mk false reason None.

Definition check_contact_compliance (self : t) (now : datetime)
    (borrower : Borrower.t) (conversation : Conversation.t) (db : Session)
    : res ContactCompliance.t :=
  let checks : list ComplianceCheck.t := [] in
  (* Check opt-out status *)
  let opt_out_check := _check_opt_out_status borrower in
  let checks := checks ++ [opt_out_check] in
  if negb (passed opt_out_check) then
    Ok (blocked (Some "Borrower has opted out of communications"))
  else
    (* Check contact time restrictions *)
    time_check ← _check_contact_time self now borrower;
    let checks := checks ++ [time_check] in
    if negb (passed time_check) then Ok (blocked (details time_check))
    else
      (* Check daily contact frequency *)
      let daily_check := _check_daily_contact_frequency self now borrower db in
      let checks := checks ++ [daily_check] in
      if negb (passed daily_check) then Ok (blocked (details daily_check))
      else
        (* Check weekly contact frequency *)
        weekly_check ← _check_weekly_contact_frequency self now borrower db;
        let checks := checks ++ [weekly_check] in
        if negb (passed weekly_check) then Ok (blocked (details weekly_check))
        else Ok (ContactCompliance.mk true None (Some checks)).

(** [format(v, '.1%')] of the settlement ratio, a float or the int 0. *)
Definition pct (v : Any) : string :=
  match PyAny.as_num v with
  | Some (PyAny.NFloat f) => format_pct1 f
  | Some (PyAny.NInt z) => format_pct1 (PyFloat.of_Z z)
  | None => ""
  end.

Definition get (plan_data : gmap string Any) (key : string) (default : Any) : Any :=
  match plan_data !! key with
  | Some v => v
  | None => default
  end.

Definition type_is (plan_data : gmap string Any) (s : string) : bool :=
  match plan_data !! "type" with
  | Some v => PyAny.eq_str v s
  | None => false
  end.

Definition validate_payment_plan (self : t) (plan_data : gmap string Any)
    (loan_balance : float) : res (list ComplianceCheck.t) :=
  let checks : list ComplianceCheck.t := [] in
  (* Check settlement percentage *)
  checks ←
    (if type_is plan_data "settlement" then
       let settlement_amount := get plan_data "amount" (PyInt 0) in
       settlement_percentage ←
         (if PyFloat.gt loan_balance PyFloat.zero
          then f ← PyAny.truediv_float settlement_amount loan_balance;
               mret (PyFloat f)
          else mret (PyInt 0));
       exceeds ← PyAny.gt_num settlement_percentage
                    (PyAny.NFloat (max_settlement_percentage self));
       if exceeds : bool then
         mret (checks ++ [ComplianceCheck.mk "settlement_percentage" false
                 (Some ("Settlement percentage " +:+ pct settlement_percentage
                        +:+ " exceeds maximum "
                        +:+ format_pct1 (max_settlement_percentage self)))
                 "error"])
       else
         mret (checks ++ [ComplianceCheck.mk "settlement_percentage" true
                 (Some ("Settlement percentage " +:+ pct settlement_percentage
                        +:+ " is within limits"))
                 default_severity])
     else mret checks);
  (* Check installment plan duration *)
  if type_is plan_data "installment" then
    let installments := get plan_data "installments" (PyInt 0) in
    too_long ← PyAny.gt_num installments
                  (PyAny.NInt (max_installment_months self));
    let checks :=
      if too_long : bool then
        checks ++ [ComplianceCheck.mk "installment_duration" false
          (Some ("Installment plan duration " +:+ str_of_any installments
                 +:+ " months exceeds maximum "
                 +:+ pretty (max_installment_months self) +:+ " months"))
          "error"]
      else
        checks ++ [ComplianceCheck.mk "installment_duration" true
          (Some ("Installment plan duration " +:+ str_of_any installments
                 +:+ " months is within limits"))
          default_severity] in
    (* Check minimum payment amount *)
    let payment_amount := get plan_data "amount" (PyInt 0) in
    too_small ← PyAny.lt_num payment_amount (PyAny.NInt 25);
    if too_small : bool then
      mret (checks ++ [ComplianceCheck.mk "minimum_payment" false
              (Some ("Payment amount $" +:+ str_of_any payment_amount
                     +:+ " is below minimum $25"))
              "error"])
    else
      mret (checks ++ [ComplianceCheck.mk "minimum_payment" true
              (Some ("Payment amount $" +:+ str_of_any payment_amount
                     +:+ " meets minimum requirements"))
              default_severity])
  else mret checks.

End WithPython.

End ComplianceService.

(** ** [app/services/conversation_service.py] *)

(** The clocks read during one call: [datetime.utcnow()],
    [datetime.now()] and the database's [now()] that fills the
    server-side defaults. *)
Record Clock : Type := mk_clock {
  utcnow : datetime;
  now : datetime;
  db_now : datetime
}.

Module VerificationResult.
(** The dictionary returned by [verify_identity]. *)
Record t : Type := mk {
  verified : bool;
  message : string;
  attempts_remaining : Z
}.
End VerificationResult.

Module ConversationService.
Import Conversation.

Record t : Type := mk {
  max_verification_attempts : Z;
  session_timeout_minutes : Z
}.

Definition __init__ : t := mk 3 30.

(** The global instance. *)
Definition conversation_service : t := __init__.

Section WithServices.
Context `{py : Python}.
(** The environment read by the LLM service and the global compliance
    service. *)
Variable env : Env.
Variable compliance_service : ComplianceService.t.

Definition _get_or_create_conversation (clock : Clock) (uuid4 : string)
    (loan_id : Z) (session_id : string) (channel : ConversationChannel.t)
    (db : Session) : res (Session * (nat * Conversation.t)) :=
  (* Try to find existing active conversation *)
  match first (fun c : Conversation.t =>
                 (Conversation.loan_id c =? loan_id)
                 && bool_decide (conversation_id c = session_id)
                 && negb (bool_decide (state c ∈
                      [ConversationState.CLOSED; ConversationState.OPTED_OUT])))
              (conversations (rows db)) with
  | Some (i, conversation) =>
      (* Update last activity *)
      let conversation := set_last_activity (utcnow clock) conversation in
      Ok (store_conversation i conversation db, (i, conversation))
  | None =>
      (* Create new conversation *)
      match first (fun l : Loan.t => Loan.id l =? loan_id) (loans (rows db)) with
      | None => Raise (ValueError ("Loan " +:+ pretty loan_id +:+ " not found"))
      | Some (_, loan) =>
          let conversation :=
            Conversation.mk
              (fresh_id (Conversation.id <$> conversations (rows db)))
              (if PyStr.truthy session_id then session_id else uuid4)
              (Loan.borrower_id loan)
              loan_id
              ConversationState.INITIATED
              (ConversationChannel.value channel)
              (Some ∅)
              false
              0
              (db_now clock)
              None None
              (db_now clock) in
          (* db.add, db.flush: [conversation_id] is a unique column *)
          if existsb (fun c : Conversation.t =>
                        bool_decide (conversation_id c = conversation_id conversation))
                     (conversations (rows db))
          then Raise IntegrityError
          else
            Ok (with_rows db
                  (set_conversations (conversations (rows db) ++ [conversation])
                                     (rows db)),
                (length (conversations (rows db)), conversation))
      end
  end.

(** The last [n] elements of a list. *)
Definition last_n {A : Type} (n : nat) (l : list A) : list A :=
  drop (length l - n)%nat l.

Definition _build_conversation_context (conversation : Conversation.t)
    (db : Session) : ConversationContext.t :=
  (* the ten most recent messages, in chronological order *)
  let recent_messages :=
    last_n 10 (filter (fun m : Message.t =>
                         Message.conversation_id m = Conversation.id conversation)
                      (messages (rows db))) in
  let message_history :=
    (fun msg : Message.t =>
       (MessageType.value (Message.message_type msg), Message.content msg))
    <$> recent_messages in
  ConversationContext.mk
    (conversation_id conversation)
    (ConversationState.value (state conversation))
    (identity_verified conversation)
    (verification_attempts conversation)
    (default ∅ (session_data conversation))
    message_history
    (channel conversation)
    (last_activity conversation).

Definition _escalate_conversation (clock : Clock) (reason : string)
    (conversation : Conversation.t) : Conversation.t :=
  set_escalation reason (utcnow clock)
    (set_state ConversationState.ESCALATED conversation).

Definition next_due_date (payment_frequency : string) (current_date : datetime)
    : res datetime :=
  if bool_decide (payment_frequency = "weekly") then
    PyDatetime.add_days current_date 7
  else if bool_decide (payment_frequency = "bi-weekly") then
    PyDatetime.add_days current_date 14
  else (* monthly *)
    if PyDatetime.month current_date =? 12 then
      PyDatetime.replace_year_month current_date
        (PyDatetime.year current_date + 1) 1
    else
      PyDatetime.replace_year_month current_date
        (PyDatetime.year current_date) (PyDatetime.month current_date + 1).

(** The body of the loop of [_create_scheduled_payments], from
    iteration [i] on, for [n] more iterations; [next_id] is the next
    primary key. *)
Fixpoint scheduled_payments_from (payment_plan : PaymentPlan.t)
    (next_id : Z) (i : Z) (n : nat) (current_date : datetime)
    : res (list ScheduledPayment.t) :=
  match n with
  | O => Ok []
  | S n' =>
      let scheduled_payment :=
        ScheduledPayment.mk next_id (PaymentPlan.id payment_plan) (i + 1)
          current_date (PaymentPlan.installment_amount payment_plan)
          "pending" in
      (* Calculate next payment date based on frequency *)
      current_date ← next_due_date (PaymentPlan.payment_frequency payment_plan)
                                   current_date;
      rest ← scheduled_payments_from payment_plan (next_id + 1) (i + 1) n'
                                      current_date;
      mret (scheduled_payment :: rest)
  end.

(** The rows that [_create_scheduled_payments] adds:
    [for i in range(number_of_installments)]. *)
Definition new_scheduled_payments (payment_plan : PaymentPlan.t) (db : Session)
    : res (list ScheduledPayment.t) :=
  scheduled_payments_from payment_plan
    (fresh_id (ScheduledPayment.id <$> scheduled_payments (rows db)))
    0
    (Z.to_nat (PaymentPlan.number_of_installments payment_plan))
    (PaymentPlan.first_payment_date payment_plan).

Definition _create_scheduled_payments (payment_plan : PaymentPlan.t)
    (db : Session) : res Session :=
  new ← new_scheduled_payments payment_plan db;
  mret (with_rows db
          (set_scheduled_payments (scheduled_payments (rows db) ++ new)
                                  (rows db))).

Definition plan_type_map (p : PlanType.t) : PaymentPlanType.t :=
  match p with
  | PlanType.INSTALLMENT => PaymentPlanType.INSTALLMENT
  | PlanType.SETTLEMENT => PaymentPlanType.SETTLEMENT
  | PlanType.ONE_TIME => PaymentPlanType.FULL_PAYMENT
  end.

(** [x or 1] on an optional [int]. *)
Definition or_1 (x : option Z) : Z :=
  match x with
  | Some n => if n =? 0 then 1 else n
  | None => 1
  end.

(** [bool(x)] on an optional [int]. *)
Definition truthy_int (x : option Z) : bool :=
  match x with
  | Some n => negb (n =? 0)
  | None => false
  end.

(** The [PaymentPlan] row that [_create_payment_plan] builds. *)
Definition new_payment_plan (clock : Clock) (loan : Loan.t)
    (conversation : Conversation.t) (structured_plan : StructuredPlan.t)
    (db : Session) : res PaymentPlan.t :=
  first_payment_date ←
    match StructuredPlan.first_due_date structured_plan with
    | Some s =>
        if PyStr.truthy s then
          match datetime_fromisoformat s with
          | Some d => Ok d
          | None => Raise (ValueError "Invalid isoformat string")
          end
        else PyDatetime.add_days (utcnow clock) 7
    | None => PyDatetime.add_days (utcnow clock) 7
    end;
  mret (PaymentPlan.mk
          (fresh_id (PaymentPlan.id <$> payment_plans (rows db)))
          (Loan.id loan)
          (Conversation.id conversation)
          (plan_type_map (StructuredPlan.type structured_plan))
          (StructuredPlan.amount structured_plan)
          (if bool_decide (StructuredPlan.type structured_plan = PlanType.ONE_TIME)
           then StructuredPlan.amount structured_plan
           else StructuredPlan.amount structured_plan)
          (or_1 (StructuredPlan.installments structured_plan))
          first_payment_date
          (match StructuredPlan.frequency structured_plan with
           | Some f => if PyStr.truthy f then f else "monthly"
           | None => "monthly"
           end)
          "proposed").

Definition _create_payment_plan (clock : Clock) (loan : Loan.t)
    (conversation : Conversation.t) (structured_plan : StructuredPlan.t)
    (db : Session) : res (Session * Z) :=
  payment_plan ← new_payment_plan clock loan conversation structured_plan db;
  (* db.add, db.flush *)
  let db := with_rows db
              (set_payment_plans (payment_plans (rows db) ++ [payment_plan])
                                 (rows db)) in
  (* Create scheduled payments for installment plans *)
  db ← (if bool_decide (StructuredPlan.type structured_plan = PlanType.INSTALLMENT)
           && truthy_int (StructuredPlan.installments structured_plan)
        then _create_scheduled_payments payment_plan db
        else mret db);
  mret (db, PaymentPlan.id payment_plan).

Definition _handle_assistant_action (clock : Clock)
    (assistant_response : AssistantResponse.t) (i : nat)
    (conversation : Conversation.t) (loan : Loan.t) (borrower : Borrower.t)
    (db : Session) : res (Session * Conversation.t * ConversationResponse.t) :=
  let requires_action := false in
  let next_steps : list string := [] in
  (* Handle escalation *)
  '(db, conversation, next_steps) ←
    (if AssistantResponse.escalation assistant_response then
       match AssistantResponse.metadata assistant_response with
       | None => Raise AttributeError
       | Some metadata =>
           let conversation :=
             _escalate_conversation clock
               (default "LLM requested escalation" (metadata !! "escalation_reason"))
               conversation in
           mret (store_conversation i conversation db, conversation,
                 next_steps ++ ["Conversation escalated to human agent"])
       end
     else mret (db, conversation, next_steps));
  (* Handle payment plan proposal *)
  '(db, requires_action, next_steps) ←
    match AssistantResponse.structured_plan assistant_response with
    | Some structured_plan =>
        '(db, plan_id) ← _create_payment_plan clock loan conversation
                            structured_plan db;
        mret (db, true,
              next_steps ++ ["Payment plan created with ID: " +:+ pretty plan_id])
    | None => mret (db, requires_action, next_steps)
    end;
  (* Handle identity verification request *)
  let '(requires_action, next_steps) :=
    if bool_decide (AssistantResponse.action assistant_response
                    = ActionType.VERIFY_IDENTITY)
    then (true, next_steps ++ ["Identity verification required"])
    else (requires_action, next_steps) in
  (* Handle payment collection *)
  let '(requires_action, next_steps) :=
    if bool_decide (AssistantResponse.action assistant_response
                    = ActionType.COLLECT_PAYMENT)
    then (true, next_steps ++ ["Payment processing required"])
    else (requires_action, next_steps) in
  mret (db, conversation,
        ConversationResponse.mk true (conversation_id conversation)
          assistant_response (session_data conversation)
          requires_action (Some next_steps)).

Definition _update_conversation_state (clock : Clock)
    (assistant_response : AssistantResponse.t) (conversation : Conversation.t)
    : Conversation.t :=
  let action := AssistantResponse.action assistant_response in
  let conversation :=
    if AssistantResponse.escalation assistant_response then
      set_state ConversationState.ESCALATED conversation
    else if bool_decide (action = ActionType.VERIFY_IDENTITY) then
      set_state ConversationState.IDENTITY_VERIFICATION conversation
    else if bool_decide (action ∈ [ActionType.PROPOSE_PLAN;
                                   ActionType.COLLECT_PAYMENT]) then
      set_state ConversationState.ACTIVE_NEGOTIATION conversation
    else if bool_decide (action = ActionType.CLOSE) then
      set_state ConversationState.CLOSED conversation
    else conversation in
  set_last_activity (utcnow clock) conversation.

Definition _create_opted_out_response (conversation_id : string)
    : ConversationResponse.t :=
  ConversationResponse.mk false conversation_id
    (AssistantResponse.mk ActionType.CLOSE
       "This contact has opted out of communications. No further messages will be sent."
       None (PyFloat.of_Z 1) false ["opt_out_respected"] None)
    None false None.

Definition _create_compliance_blocked_response (conversation_id : string)
    (reason : string) : ConversationResponse.t :=
  ConversationResponse.mk false conversation_id
    (AssistantResponse.mk ActionType.CLOSE
       ("Contact not allowed at this time: " +:+ reason)
       None (PyFloat.of_Z 1) false ["contact_time_restriction"] None)
    None false None.

(** [db.add(Message(...))]; the key and the creation time are filled in
    when the row is flushed. *)
Definition add_message (clock : Clock) (conversation : Conversation.t)
    (message_type : MessageType.t) (content : string)
    (confidence_score : option float) (compliance_flags : option (list string))
    (db : Session) : Session :=
  with_rows db
    (set_messages
       (messages (rows db) ++
        [Message.mk (fresh_id (Message.id <$> messages (rows db)))
           (Conversation.id conversation) message_type content
           confidence_score compliance_flags (db_now clock)])
       (rows db)).

(** The [try] block of [process_message]. [generator] stands for
    retrieval, prompting, the model call and the parsing of its
    answer, given the user message and the context. *)
Definition process_message_try (self : t) (clock : Clock) (uuid4 : string)
    (generator : string -> ConversationContext.t -> res AssistantResponse.t)
    (user_message : string) (loan_id : Z) (session_id : string)
    (channel : ConversationChannel.t) (db : Session)
    : res (Session * ConversationResponse.t) :=
  (* Get or create conversation *)
  '(db, (i, conversation)) ←
    _get_or_create_conversation clock uuid4 loan_id session_id channel db;
  (* Check if conversation is in valid state *)
  if bool_decide (state conversation = ConversationState.OPTED_OUT) then
    mret (db, _create_opted_out_response (conversation_id conversation))
  else
    (* Get borrower and loan information *)
    match first (fun l : Loan.t => Loan.id l =? loan_id) (loans (rows db)) with
    | None => Raise (ValueError ("Loan " +:+ pretty loan_id +:+ " not found"))
    | Some (_, loan) =>
        match first (fun b : Borrower.t => Borrower.id b =? Loan.borrower_id loan)
                    (borrowers (rows db)) with
        | None =>
            Raise (ValueError ("Borrower for loan " +:+ pretty loan_id
                               +:+ " not found"))
        | Some (_, borrower) =>
            (* Check compliance before processing *)
            compliance_check ←
              ComplianceService.check_contact_compliance compliance_service
                (now clock) borrower conversation db;
            if negb (ContactCompliance.allowed compliance_check) then
              mret (db,
                    _create_compliance_blocked_response
                      (conversation_id conversation)
                      (default "None" (ContactCompliance.reason compliance_check)))
            else
              (* Save user message *)
              let db := add_message clock conversation MessageType.USER
                          user_message None None db in
              (* Build conversation context *)
              let conversation_context :=
                _build_conversation_context conversation db in
              (* Process with LLM *)
              let assistant_response :=
                LLMService.process_conversation env
                  (generator user_message conversation_context)
                  conversation_context in
              (* Handle specific actions *)
              '(db, conversation, response) ←
                _handle_assistant_action clock assistant_response i
                  conversation loan borrower db;
              (* Save assistant message *)
              let db := add_message clock conversation MessageType.ASSISTANT
                          (AssistantResponse.message_to_user assistant_response)
                          (Some (AssistantResponse.confidence assistant_response))
                          (Some (AssistantResponse.compliance_checks assistant_response))
                          db in
              (* Update conversation state *)
              let conversation :=
                _update_conversation_state clock assistant_response conversation in
              let db := store_conversation i conversation db in
              mret (commit db, response)
        end
    end.

(** [process_message]: an exception rolls the session back and is
    raised again. *)
Definition process_message (self : t) (clock : Clock) (uuid4 : string)
    (generator : string -> ConversationContext.t -> res AssistantResponse.t)
    (user_message : string) (loan_id : Z) (session_id : string)
    (channel : ConversationChannel.t) (db : Session)
    : Session * res ConversationResponse.t :=
  match process_message_try self clock uuid4 generator user_message loan_id
          session_id channel db with
  | Ok (db', response) => (db', Ok response)
  | Raise e => (rollback db, Raise e)
  end.

(** [x or 0] on the optional float column. *)
Definition or_0 (x : option float) : float :=
  match x with
  | Some f => if PyFloat.truthy f then f else PyFloat.zero
  | None => PyFloat.zero
  end.

(** The checks of the claimed facts in [verify_identity]; an attribute
    of a row that was not found raises [AttributeError]. *)
Definition verification_passed (verification_data : gmap string string)
    (loan : option Loan.t) (borrower : option Borrower.t) : res bool :=
  let verification_passed := true in
  (* Check last 4 digits of SSN *)
  verification_passed ←
    match verification_data !! "last_four_ssn" with
    | Some claimed =>
        match borrower with
        | None => Raise AttributeError
        | Some borrower =>
            if negb (bool_decide (Some claimed = Borrower.ssn_last_four borrower))
            then mret false else mret verification_passed
        end
    | None => mret verification_passed
    end;
  (* Check last payment amount *)
  match verification_data !! "last_payment_amount" with
  | Some claimed =>
      match float_of_str claimed with
      | None => mret false  (* ValueError *)
      | Some provided_amount =>
          match loan with
          | None => Raise AttributeError
          | Some loan =>
              if PyFloat.gt
                   (PyFloat.abs
                      (PyFloat.sub provided_amount
                         (or_0 (Loan.last_payment_amount loan))))
                   PyFloat.f0_01
              then mret false else mret verification_passed
          end
      end
  | None => mret verification_passed
  end.

Definition verify_identity (self : t) (clock : Clock) (conversation_id : string)
    (verification_data : gmap string string) (db : Session)
    : Session * res VerificationResult.t :=
  match first (fun c : Conversation.t =>
                 bool_decide (Conversation.conversation_id c = conversation_id))
              (conversations (rows db)) with
  | None => (db, Raise (ValueError "Conversation not found"))
  | Some (i, conversation) =>
      let loan :=
        snd <$> first (fun l : Loan.t => Loan.id l =? loan_id conversation)
                      (loans (rows db)) in
      let borrower :=
        snd <$> first (fun b : Borrower.t => Borrower.id b =? borrower_id conversation)
                      (borrowers (rows db)) in
      (* Check verification attempts *)
      if max_verification_attempts self <=? verification_attempts conversation then
        let conversation :=
          _escalate_conversation clock "Maximum verification attempts exceeded"
            conversation in
        let db := store_conversation i conversation db in
        (commit db,
         Ok (VerificationResult.mk false
               "Maximum verification attempts exceeded. Escalating to human agent."
               0))
      else
        (* Verify identity *)
        match verification_passed verification_data loan borrower with
        | Raise e => (db, Raise e)
        | Ok passed =>
            let conversation :=
              set_verification_attempts (verification_attempts conversation + 1)
                conversation in
            let db := store_conversation i conversation db in
            if passed then
              let conversation :=
                set_state ConversationState.ACTIVE_NEGOTIATION
                  (set_identity_verified true conversation) in
              let db := store_conversation i conversation db in
              (* the event log reads borrower.id and loan.id *)
              match borrower, loan with
              | Some _, Some _ =>
                  (commit db,
                   Ok (VerificationResult.mk true
                         "Identity verified successfully."
                         (max_verification_attempts self
                          - verification_attempts conversation)))
              | _, _ => (db, Raise AttributeError)
              end
            else
              let attempts_remaining :=
                max_verification_attempts self - verification_attempts conversation in
              match borrower, loan with
              | Some _, Some _ =>
                  (commit db,
                   Ok (VerificationResult.mk false
                         ("Identity verification failed. "
                          +:+ pretty attempts_remaining +:+ " attempts remaining.")
                         attempts_remaining))
              | _, _ => (db, Raise AttributeError)
              end
        end
  end.

End WithServices.

End ConversationService.

(** ** A reference runtime for the examples

    [ref_python] agrees with CPython on the inputs named at each field;
    the examples stay inside these domains. *)

Module RefPython.

Definition digit (c : ascii) : option Z :=
  let n := Z.of_N (N_of_ascii c) in
  if (48 <=? n) && (n <=? 57) then Some (n - 48) else None.

Fixpoint digits_from (s : string) (acc : Z) : option Z :=
  match s with
  | EmptyString => Some acc
  | String c s' => d ← digit c; digits_from s' (10 * acc + d)
  end.

(** A non-empty string of decimal digits. *)
Definition digits (s : string) : option Z :=
  match s with
  | EmptyString => None
  | _ => digits_from s 0
  end.

(** The text before the first [c] and, when [c] occurs, the text after. *)
Fixpoint split_at (c : ascii) (s : string) : string * option string :=
  match s with
  | EmptyString => (EmptyString, None)
  | String a s' =>
      if Ascii.eqb a c then (EmptyString, Some s')
      else let '(p, r) := split_at c s' in (String a p, r)
  end.

Definition unsigned_decimal (s : string) : option float :=
  let '(ip, fp) := split_at "." s in
  let fp := default EmptyString fp in
  if (15 <? String.length (ip +:+ fp))%nat then None
  else
    _ ← digits ip;
    n ← digits (ip +:+ fp);
    Some (SFdiv PyFloat.prec PyFloat.emax (PyFloat.of_Z n)
            (PyFloat.of_Z (10 ^ Z.of_nat (String.length fp)))).

(** [float(s)] for a decimal numeral: an optional sign, digits, and an
    optional point followed by digits, with 15 digits at most. *)
Definition float_of_decimal (s : string) : option float :=
  match s with
  | String "-" s' => SFopp <$> unsigned_decimal s'
  | String "+" s' => unsigned_decimal s'
  | _ => unsigned_decimal s
  end.

(** [datetime.fromisoformat(s)] for [YYYY-MM-DD]. *)
Definition datetime_of_iso (s : string) : option datetime :=
  if negb (String.length s =? 10)%nat then None
  else
    y ← digits (String.substring 0 4 s);
    m ← digits (String.substring 5 2 s);
    d ← digits (String.substring 8 2 s);
    if bool_decide (String.substring 4 1 s = "-")
       && bool_decide (String.substring 7 1 s = "-")
       && PyDatetime.check_date_fields y m d
    then Some (mk_datetime y m d 0 0 0 0) else None.

Definition clock_of_iso (s : string) : option (Z * Z * Z) :=
  let n := String.length s in
  if negb ((n =? 5)%nat || (n =? 8)%nat) then None
  else
    h ← digits (String.substring 0 2 s);
    m ← digits (String.substring 3 2 s);
    sec ← (if (n =? 8)%nat then digits (String.substring 6 2 s) else Some 0);
    if bool_decide (String.substring 2 1 s = ":")
       && ((n =? 5)%nat || bool_decide (String.substring 5 1 s = ":"))
       && (h <? 24) && (m <? 60) && (sec <? 60)
    then Some (h, m, sec) else None.

(** The offset [HH:MM] after the sign, in microseconds. *)
Definition offset_of_iso (s : string) : option Z :=
  if negb (String.length s =? 5)%nat then None
  else
    '(h, m, _) ← clock_of_iso s;
    Some ((h * 3600 + m * 60) * 1000000).

(** [time.fromisoformat(s)] for [HH:MM] and [HH:MM:SS], with an
    optional offset [+HH:MM] or [-HH:MM]. *)
Definition time_of_iso (s : string) : option time :=
  let '(body, plus) := split_at "+" s in
  let '(body, minus) := match plus with
                        | Some _ => (body, None)
                        | None => split_at "-" s
                        end in
  '(h, m, sec) ← clock_of_iso body;
  match plus, minus with
  | Some o, _ => off ← offset_of_iso o; Some (mk_time h m sec 0 (Some off))
  | None, Some o => off ← offset_of_iso o; Some (mk_time h m sec 0 (Some (- off)))
  | None, None => Some (mk_time h m sec 0 None)
  end.

(** [n] in decimal, padded with zeros to [width] digits. *)
Definition padded (width : nat) (n : Z) : string :=
  let s := pretty n in
  String.concat "" (replicate (width - String.length s) "0") +:+ s.

(** [str(d)] *)
Definition datetime_to_str (d : datetime) : string :=
  padded 4 (PyDatetime.year d) +:+ "-" +:+ padded 2 (PyDatetime.month d)
  +:+ "-" +:+ padded 2 (PyDatetime.day d) +:+ " "
  +:+ padded 2 (PyDatetime.hour d) +:+ ":" +:+ padded 2 (PyDatetime.minute d)
  +:+ ":" +:+ padded 2 (PyDatetime.second d)
  +:+ (if PyDatetime.microsecond d =? 0 then ""
       else "." +:+ padded 6 (PyDatetime.microsecond d)).

(** The integer nearest to [m * 2^e * 10], ties to even. *)
Definition round_tenths (m : positive) (e : Z) : Z :=
  if 0 <=? e then Z.pos m * 2 ^ e * 10
  else
    let d := 2 ^ (- e) in
    let q := (Z.pos m * 10) / d in
    let r := (Z.pos m * 10) mod d in
    match 2 * r ?= d with
    | Lt => q
    | Gt => q + 1
    | Eq => if Z.even q then q else q + 1
    end.

(** [format(x, '.1%')]: the float product by 100, then one decimal. *)
Definition pct1 (x : float) : string :=
  match PyFloat.mul x (PyFloat.of_Z 100) with
  | S754_nan => "nan%"
  | S754_infinity s => (if s then "-inf%" else "inf%")
  | S754_zero s => (if s then "-0.0%" else "0.0%")
  | S754_finite s m e =>
      let t := round_tenths m e in
      (if s then "-" else "") +:+ pretty (t / 10) +:+ "." +:+ pretty (t mod 10)
      +:+ "%"
  end.

(** [str(v)]; for a float, only one with an integral value below
    [10^16], a zero, an infinity or NaN. *)
Definition any_to_str (v : Any) : string :=
  match v with
  | PyNone => "None"
  | PyBool b => if b then "True" else "False"
  | PyInt z => pretty z
  | PyStr s => s
  | PyObj => "<object>"
  | PyFloat S754_nan => "nan"
  | PyFloat (S754_infinity s) => if s then "-inf" else "inf"
  | PyFloat (S754_zero s) => if s then "-0.0" else "0.0"
  | PyFloat (S754_finite s m e) =>
      if (0 <=? e) && (Z.pos m * 2 ^ e <? 10 ^ 16) then
        (if s then "-" else "") +:+ pretty (Z.pos m * 2 ^ e) +:+ ".0"
      else if (e <? 0) && (Z.pos m mod 2 ^ (- e) =? 0) then
        (if s then "-" else "") +:+ pretty (Z.pos m / 2 ^ (- e)) +:+ ".0"
      else "<float>"
  end.

Definition ref_python : Python :=
  {| float_of_str := float_of_decimal;
     datetime_fromisoformat := datetime_of_iso;
     time_fromisoformat := time_of_iso;
     str_of_datetime := datetime_to_str;
     format_pct1 := pct1;
     str_of_any := any_to_str |}.

End RefPython.

(** ** Concrete inputs used in the examples *)

Module Examples.

Definition at_date (y m d : Z) : datetime := mk_datetime y m d 0 0 0 0.

(** Tuesday 2025-11-04, 10:00. *)
Definition tuesday_morning : datetime := mk_datetime 2025 11 4 10 0 0 0.
(** Tuesday 2025-11-04, 21:00 sharp. *)
Definition tuesday_21h : datetime := mk_datetime 2025 11 4 21 0 0 0.
(** Tuesday 2025-11-04, 07:59. *)
Definition tuesday_early : datetime := mk_datetime 2025 11 4 7 59 0 0.
(** Sunday 2025-11-09, 10:00. *)
Definition sunday_morning : datetime := mk_datetime 2025 11 9 10 0 0 0.

Definition clock_at (d : datetime) : Clock := mk_clock d d d.

Definition borrower : Borrower.t := Borrower.mk 1 (Some "1234") None.
Definition opted_out_borrower : Borrower.t :=
  Borrower.mk 1 (Some "1234") (Some (at_date 2025 10 1)).

Definition loan : Loan.t :=
  Loan.mk 1 1 (PyFloat.of_Z 1200) (Some (PyFloat.of_Z 300)).

Definition conversation : Conversation.t :=
  Conversation.mk 1 "s1" 1 1 ConversationState.INITIATED "chat" (Some ∅)
    false 0 (at_date 2025 11 3) None None (at_date 2025 11 3).

Definition store : Store := mk_store [borrower] [loan] [conversation] [] [] [].
Definition db : Session := mk_session store store.

Definition opted_out_store : Store :=
  mk_store [opted_out_borrower] [loan] [conversation] [] [] [].
Definition opted_out_db : Session := mk_session opted_out_store opted_out_store.

(** The same store before the first message of session [s1]. *)
Definition empty_store : Store := mk_store [borrower] [loan] [] [] [] [].
Definition empty_db : Session := mk_session empty_store empty_store.

Definition verified_context : ConversationContext.t :=
  ConversationContext.mk "s1" "active_negotiation" true 1 ∅ [] "chat"
    (at_date 2025 11 3).

(** A settlement of 1400 offered on a balance of 1200. *)
Definition settlement_1400 : StructuredPlan.t :=
  StructuredPlan.mk PlanType.SETTLEMENT (PyFloat.of_Z 1400) None
    (Some "2025-11-05") (Some "monthly").

Definition settlement_proposal : AssistantResponse.t :=
  AssistantResponse.mk ActionType.PROPOSE_PLAN
    "Thank you. I can accept this as a full settlement of the account."
    (Some settlement_1400) (PyFloat.of_Z 1) false ["settlement_within_policy"]
    (Some ∅).

(** A settlement with amount 0. *)
Definition settlement_0 : StructuredPlan.t :=
  StructuredPlan.mk PlanType.SETTLEMENT PyFloat.zero None
    (Some "2025-11-05") (Some "monthly").

Definition settlement_0_proposal : AssistantResponse.t :=
  AssistantResponse.mk ActionType.PROPOSE_PLAN "Thank you."
    (Some settlement_0) (PyFloat.of_Z 1) false [] (Some ∅).

Definition threatening_proposal : AssistantResponse.t :=
  AssistantResponse.mk ActionType.INFORM "Pay today or we will sue you."
    None (PyFloat.of_Z 1) false ["tone_checked"] (Some ∅).

(** Six monthly installments of 200 from 2025-11-10. *)
Definition installment_6x200 : StructuredPlan.t :=
  StructuredPlan.mk PlanType.INSTALLMENT (PyFloat.of_Z 200) (Some 6)
    (Some "2025-11-10") (Some "monthly").

Definition wrong_ssn : gmap string string := {["last_four_ssn" := "0000"]}.

(** A conversation that is not verified. *)
Definition unverified_context : ConversationContext.t :=
  ConversationContext.mk "s1" "initiated" false 0 ∅ [] "chat"
    (at_date 2025 11 3).

(** Fifty monthly installments of 10 from 2025-11-10. *)
Definition installment_50x10 : StructuredPlan.t :=
  StructuredPlan.mk PlanType.INSTALLMENT (PyFloat.of_Z 10) (Some 50)
    (Some "2025-11-10") (Some "monthly").

(** A proposal that asks for escalation itself, with a prohibited word,
    the balance named to a caller who is not verified, and a plan beyond
    both limits. *)
Definition flagged_proposal : AssistantResponse.t :=
  AssistantResponse.mk ActionType.PROPOSE_PLAN
    "Pay your balance in fifty parts or we will sue you."
    (Some installment_50x10) (PyFloat.of_Z 1) true ["tone_checked"] (Some ∅).

(** A settlement of 600 that declares three installments. *)
Definition settlement_in_3 : StructuredPlan.t :=
  StructuredPlan.mk PlanType.SETTLEMENT (PyFloat.of_Z 600) (Some 3)
    (Some "2025-11-05") (Some "monthly").

End Examples.

(** ** The vocabulary of the properties

    Runs of calls, the predicates that the properties are stated with,
    and the wording of the specification where the code is compared with
    it. *)

Module Spec.
(** The ceiling on settlements as the specification words it: whatever the
    balance, a proposal whose settlement amount divided by the balance
    exceeds 0.70 comes out of the validator with action Escalate. *)
Definition settlement_ceiling_enforced : Prop :=
  forall (response : AssistantResponse.t) (ctx : ConversationContext.t)
         (plan : StructuredPlan.t) (balance ratio : float),
    AssistantResponse.structured_plan response = Some plan ->
    StructuredPlan.type plan = PlanType.SETTLEMENT ->
    PyFloat.div (StructuredPlan.amount plan) balance = Ok ratio ->
    PyFloat.gt ratio PyFloat.f0_70 = true ->
    AssistantResponse.action (LLMService._validate_response default_env response ctx)
    = ActionType.ESCALATE.

(** [a <= b] on two naive times of day. *)
Definition naive_le (a b : time) : bool :=
  PyDatetime.is_le
    (PyDatetime.lex_compare
       [PyDatetime.t_hour a; PyDatetime.t_minute a; PyDatetime.t_second a;
        PyDatetime.t_microsecond a]
       [PyDatetime.t_hour b; PyDatetime.t_minute b; PyDatetime.t_second b;
        PyDatetime.t_microsecond b]).

(** [t] lies in the half-open window from [s] to [e], [e] excluded. *)
Definition in_half_open_window (s e t : time) : bool :=
  naive_le s t && negb (naive_le e t).

(** [t] lies in the closed window from [s] to [e], both included. *)
Definition in_closed_window (s e t : time) : bool :=
  naive_le s t && naive_le t e.

(** The contact window as the specification words it: with hours that
    parse, the check blocks exactly on a prohibited weekday or outside
    the half-open window; with hours that do not parse, it passes. *)
Definition contact_window_half_open : Prop :=
  (forall (py : Python) (self : ComplianceService.t) (now : datetime)
          (borrower : Borrower.t) (s e : time) (c : ComplianceCheck.t),
      time_fromisoformat (ComplianceService.contact_hours_start self) = Some s ->
      time_fromisoformat (ComplianceService.contact_hours_end self) = Some e ->
      PyDatetime.tzinfo s = None ->
      PyDatetime.tzinfo e = None ->
      ComplianceService._check_contact_time self now borrower = Ok c ->
      (ComplianceCheck.passed c = false <->
       PyDatetime.weekday now ∈ ComplianceService.prohibited_days self
       \/ in_half_open_window s e (PyDatetime.time_of now) = false))
  /\ (forall (py : Python) (self : ComplianceService.t) (now : datetime)
             (borrower : Borrower.t),
        time_fromisoformat (ComplianceService.contact_hours_start self) = None
        \/ time_fromisoformat (ComplianceService.contact_hours_end self) = None ->
        exists c, ComplianceService._check_contact_time self now borrower = Ok c
                  /\ ComplianceCheck.passed c = true).

(** Two datetimes carry the same time of day. *)
Definition same_time_of_day (d d' : datetime) : Prop :=
  PyDatetime.hour d' = PyDatetime.hour d
  /\ PyDatetime.minute d' = PyDatetime.minute d
  /\ PyDatetime.second d' = PyDatetime.second d
  /\ PyDatetime.microsecond d' = PyDatetime.microsecond d.


(** The number of schedule rows that the specification declares for a
    plan: the installment count for an installment plan, 1 for the other
    kinds. *)
Definition declared_rows (plan : StructuredPlan.t) : nat :=
  if bool_decide (StructuredPlan.type plan = PlanType.INSTALLMENT)
  then Z.to_nat (ConversationService.or_1 (StructuredPlan.installments plan))
  else 1%nat.

(** Every plan that is built adds as many schedule rows as declared. *)
Definition schedule_has_declared_rows : Prop :=
  forall (py : Python) (clock : Clock) (loan : Loan.t)
         (conversation : Conversation.t) (plan : StructuredPlan.t)
         (db db' : Session) (plan_id : Z),
    ConversationService._create_payment_plan clock loan conversation plan db
    = Ok (db', plan_id) ->
    length (scheduled_payments (rows db'))
    = (length (scheduled_payments (rows db)) + declared_rows plan)%nat.

(** One call of [verify_identity]. *)
Record VerifyCall : Type := mk_call {
  call_clock : Clock;
  call_conversation_id : string;
  call_data : gmap string string
}.

(** The calls one after the other, each on the session the previous one
    left, with the result of each. *)
Fixpoint verify_each `{py : Python} (self : ConversationService.t)
    (calls : list VerifyCall) (db : Session)
    : Session * list (res VerificationResult.t) :=
  match calls with
  | [] => (db, [])
  | call :: rest =>
      let '(db1, r) :=
        ConversationService.verify_identity self (call_clock call)
          (call_conversation_id call) (call_data call) db in
      let '(db2, rs) := verify_each self rest db1 in
      (db2, r :: rs)
  end.

(** Calls on one conversation. *)
Definition calls_on (conversation_id : string)
    (calls : list (Clock * gmap string string)) : list VerifyCall :=
  (fun cd => mk_call (fst cd) conversation_id (snd cd)) <$> calls.

(** The filter of the query of [verify_identity]. *)
Definition has_id (conversation_id : string) (c : Conversation.t) : bool :=
  bool_decide (Conversation.conversation_id c = conversation_id).

(** The conversation that [verify_identity] finds for an identifier. *)
Definition conversation_of (conversation_id : string) (st : Store)
    : option Conversation.t :=
  snd <$> first (has_id conversation_id) (conversations st).

(** A call that returns without verifying. *)
Definition is_failure (r : res VerificationResult.t) : Prop :=
  exists v, r = Ok v /\ VerificationResult.verified v = false.

(** The result of a call on a locked conversation. *)
Definition locked_result : VerificationResult.t :=
  VerificationResult.mk false
    "Maximum verification attempts exceeded. Escalating to human agent." 0.

(** No conversation of the store has more attempts than the maximum. *)
Definition attempts_bounded (self : ConversationService.t) (st : Store) : Prop :=
  Forall (fun c : Conversation.t =>
            Conversation.verification_attempts c
            <= ConversationService.max_verification_attempts self)
         (conversations st).

(** A turn reaches the gate, on the session [db1] that holds the
    conversation [conversation] of the turn, and the gate answers
    Blocked with [reason]. *)
Definition gate_blocks `{py : Python} (compliance_service : ComplianceService.t)
    (clock : Clock) (uuid4 : string) (loan_id : Z) (session_id : string)
    (channel : ConversationChannel.t) (db db1 : Session)
    (conversation : Conversation.t) (reason : option string) : Prop :=
  exists (i j k : nat) (loan : Loan.t) (borrower : Borrower.t),
    ConversationService._get_or_create_conversation clock uuid4 loan_id
      session_id channel db = Ok (db1, (i, conversation))
    /\ first (fun l : Loan.t => Loan.id l =? loan_id) (loans (rows db1))
       = Some (j, loan)
    /\ first (fun b : Borrower.t => Borrower.id b =? Loan.borrower_id loan)
             (borrowers (rows db1)) = Some (k, borrower)
    /\ ComplianceService.check_contact_compliance compliance_service (now clock)
         borrower conversation db1
       = Ok (ContactCompliance.mk false reason None).

(** A blocked turn as the specification words it: the session comes back
    as it was, no field of any row changed and no row added. *)
Definition blocked_turn_changes_nothing : Prop :=
  forall (py : Python) (env : Env) (compliance_service : ComplianceService.t)
         (self : ConversationService.t) (clock : Clock) (uuid4 : string)
         (generator : string -> ConversationContext.t -> res AssistantResponse.t)
         (user_message : string) (loan_id : Z) (session_id : string)
         (channel : ConversationChannel.t) (db db1 : Session)
         (conversation : Conversation.t) (reason : option string),
    gate_blocks compliance_service clock uuid4 loan_id session_id channel
      db db1 conversation reason ->
    fst (ConversationService.process_message env compliance_service self clock
           uuid4 generator user_message loan_id session_id channel db)
    = db.

End Spec.

(** ** The vocabulary of the further properties *)

Module Turn.

(** A turn reaches the generator: its conversation is found or created on
    the session [db1], at index [i]; the loan and the borrower are found;
    and the gate allows the contact. *)
Definition gate_allows `{py : Python} (compliance_service : ComplianceService.t)
    (clock : Clock) (uuid4 : string) (loan_id : Z) (session_id : string)
    (channel : ConversationChannel.t) (db db1 : Session) (i : nat)
    (conversation : Conversation.t) (loan : Loan.t) (borrower : Borrower.t)
    : Prop :=
  exists (j k : nat) (verdict : ContactCompliance.t),
    ConversationService._get_or_create_conversation clock uuid4 loan_id
      session_id channel db = Ok (db1, (i, conversation))
    /\ first (fun l : Loan.t => Loan.id l =? loan_id) (loans (rows db1))
       = Some (j, loan)
    /\ first (fun b : Borrower.t => Borrower.id b =? Loan.borrower_id loan)
             (borrowers (rows db1)) = Some (k, borrower)
    /\ ComplianceService.check_contact_compliance compliance_service (now clock)
         borrower conversation db1
       = Ok verdict
    /\ ContactCompliance.allowed verdict = true.

(** The reply of a turn that reaches the generator: the inbound message
    is recorded, the context is built, and the generated proposal is
    validated. *)
Definition reply_of `{py : Python} (env : Env) (clock : Clock)
    (generator : string -> ConversationContext.t -> res AssistantResponse.t)
    (user_message : string) (conversation : Conversation.t) (db1 : Session)
    : AssistantResponse.t :=
  let db := ConversationService.add_message clock conversation MessageType.USER
              user_message None None db1 in
  let conversation_context :=
    ConversationService._build_conversation_context conversation db in
  LLMService.process_conversation env
    (generator user_message conversation_context) conversation_context.

(** The filter of the daily frequency check: a conversation of the
    borrower that was created on the day of [now]. *)
Definition started_today (now : datetime) (borrower : Borrower.t)
    (c : Conversation.t) : bool :=
  (Conversation.borrower_id c =? Borrower.id borrower)
  && PyDatetime.dt_le (PyDatetime.day_start now) (Conversation.created_at c)
  && PyDatetime.dt_le (Conversation.created_at c) (PyDatetime.day_end now).

(** The filter of the weekly frequency check, from [week_start] on. *)
Definition started_since (week_start : datetime) (borrower : Borrower.t)
    (c : Conversation.t) : bool :=
  (Conversation.borrower_id c =? Borrower.id borrower)
  && PyDatetime.dt_le week_start (Conversation.created_at c).

(** The filter of the query of [_get_or_create_conversation]. *)
Definition is_active_session (loan_id : Z) (session_id : string)
    (c : Conversation.t) : bool :=
  (Conversation.loan_id c =? loan_id)
  && bool_decide (Conversation.conversation_id c = session_id)
  && negb (bool_decide (Conversation.state c ∈
             [ConversationState.CLOSED; ConversationState.OPTED_OUT])).

(** The row that [_get_or_create_conversation] adds for a session that
    has no open conversation. *)
Definition new_conversation (clock : Clock) (uuid4 : string) (loan : Loan.t)
    (loan_id : Z) (session_id : string) (channel : ConversationChannel.t)
    (db : Session) : Conversation.t :=
  Conversation.mk
    (fresh_id (Conversation.id <$> conversations (rows db)))
    (if PyStr.truthy session_id then session_id else uuid4)
    (Loan.borrower_id loan)
    loan_id
    ConversationState.INITIATED
    (ConversationChannel.value channel)
    (Some ∅)
    false
    0
    (db_now clock)
    None None
    (db_now clock).

(** Two rows agree on what identity verification has established. *)
Definition same_verification (c c' : Conversation.t) : Prop :=
  Conversation.identity_verified c' = Conversation.identity_verified c
  /\ Conversation.verification_attempts c' = Conversation.verification_attempts c
  /\ Conversation.conversation_id c' = Conversation.conversation_id c.

(** The state that [_update_conversation_state] gives a conversation. *)
Definition state_after (reply : AssistantResponse.t)
    (before : ConversationState.t) : ConversationState.t :=
  if AssistantResponse.escalation reply then ConversationState.ESCALATED
  else if bool_decide (AssistantResponse.action reply = ActionType.VERIFY_IDENTITY)
  then ConversationState.IDENTITY_VERIFICATION
  else if bool_decide (AssistantResponse.action reply
                       ∈ [ActionType.PROPOSE_PLAN; ActionType.COLLECT_PAYMENT])
  then ConversationState.ACTIVE_NEGOTIATION
  else if bool_decide (AssistantResponse.action reply = ActionType.CLOSE)
  then ConversationState.CLOSED
  else before.

(** The text of the failed daily frequency check. *)
Definition daily_limit_reason (compliance_service : ComplianceService.t) : string :=
  "Maximum daily contact attempts ("
  +:+ pretty (ComplianceService.max_daily_contact_attempts compliance_service)
  +:+ ") exceeded".

End Turn.

(** ** [app/services/compliance_service.py], continued

    The message check and the two request handlers of the compliance
    service. The context dictionary of the message check is the one the
    conversation service builds, with its fixed keys. *)

Definition set_borrowers (bs : list Borrower.t) (st : Store) : Store :=
  mk_store bs (loans st) (conversations st) (messages st) (payment_plans st)
           (scheduled_payments st).

(** [d.isoformat()] of a naive datetime. *)
Definition isoformat (d : datetime) : string :=
  RefPython.padded 4 (PyDatetime.year d) +:+ "-"
  +:+ RefPython.padded 2 (PyDatetime.month d) +:+ "-"
  +:+ RefPython.padded 2 (PyDatetime.day d) +:+ "T"
  +:+ RefPython.padded 2 (PyDatetime.hour d) +:+ ":"
  +:+ RefPython.padded 2 (PyDatetime.minute d) +:+ ":"
  +:+ RefPython.padded 2 (PyDatetime.second d)
  +:+ (if PyDatetime.microsecond d =? 0 then ""
       else "." +:+ RefPython.padded 6 (PyDatetime.microsecond d)).

Module OptOutResult.
(** The dictionary returned by [handle_opt_out_request]. *)
Record t : Type := mk {
  status : string;
  message : string;
  opt_out_date : string
}.
End OptOutResult.

Module DebtValidationResult.
(** The dictionary returned by [handle_debt_validation_request]. *)
Record t : Type := mk {
  status : string;
  message : string;
  next_steps : string
}.
End DebtValidationResult.

Module ComplianceRequests.
Import ComplianceCheck.

Definition prohibited_phrases : list string :=
  ["threaten"; "sue"; "arrest"; "jail"; "garnish"; "seize";
   "ruin credit"; "legal action"; "court"; "lawsuit"].

Definition check_message_compliance (message : string)
    (conversation_context : ConversationContext.t) : list ComplianceCheck.t :=
  let checks : list ComplianceCheck.t := [] in
  (* Check for prohibited language *)
  let message_lower := PyStr.lower message in
  let found_violations :=
    filter (fun phrase => PyStr.contains phrase message_lower = true)
           prohibited_phrases in
  let checks :=
    if negb (bool_decide (found_violations = [])) then
      checks ++ [ComplianceCheck.mk "prohibited_language" false
                   (Some ("Prohibited language detected: "
                          +:+ String.concat ", " found_violations))
                   "critical"]
    else
      checks ++ [ComplianceCheck.mk "prohibited_language" true
                   (Some "No prohibited language detected") default_severity] in
  (* Check for required disclosures *)
  let checks :=
    if negb (ConversationContext.identity_verified conversation_context) then
      if existsb (fun keyword => PyStr.contains keyword message_lower)
                 ["balance"; "amount"; "payment"; "$"]
      then checks ++ [ComplianceCheck.mk "identity_verification" false
                        (Some "Account information shared without identity verification")
                        "error"]
      else checks
    else checks in
  (* Check for debt collector identification *)
  if negb (PyStr.contains "debt collector" message_lower)
     && negb (PyStr.contains "collection" message_lower)
  then checks ++ [ComplianceCheck.mk "debt_collector_identification" false
                    (Some "Message should identify as debt collection communication")
                    "warning"]
  else checks.

(** The filter of the conversations that an opt-out closes. *)
Definition is_open_for (borrower_id : Z) (conv : Conversation.t) : bool :=
  (Conversation.borrower_id conv =? borrower_id)
  && negb (bool_decide (Conversation.state conv ∈
             [ConversationState.CLOSED; ConversationState.OPTED_OUT])).

Definition handle_opt_out_request (clock : Clock) (borrower_id : Z)
    (conversation_id : string) (db : Session) : Session * res OptOutResult.t :=
  match first (fun b : Borrower.t => Borrower.id b =? borrower_id)
              (borrowers (rows db)) with
  | None =>
      (db, Raise (ValueError ("Borrower " +:+ pretty borrower_id +:+ " not found")))
  | Some (k, borrower) =>
      (* Update borrower opt-out status *)
      let borrower :=
        Borrower.mk (Borrower.id borrower) (Borrower.ssn_last_four borrower)
          (Some (utcnow clock)) in
      let db := with_rows db
                  (set_borrowers (<[k := borrower]> (borrowers (rows db)))
                                 (rows db)) in
      (* Close all active conversations *)
      let db := with_rows db
                  (set_conversations
                     ((fun conv : Conversation.t =>
                         if is_open_for borrower_id conv
                         then Conversation.set_state ConversationState.OPTED_OUT conv
                         else conv)
                      <$> conversations (rows db))
                     (rows db)) in
      (commit db,
       Ok (OptOutResult.mk "opted_out"
             "You have been successfully removed from our contact list."
             (isoformat (utcnow clock))))
  end.

(** The filter of the conversations that a validation request pauses. *)
Definition is_negotiation_of (borrower_id loan_id : Z) (conv : Conversation.t)
    : bool :=
  (Conversation.borrower_id conv =? borrower_id)
  && (Conversation.loan_id conv =? loan_id)
  && bool_decide (Conversation.state conv = ConversationState.ACTIVE_NEGOTIATION).

Definition handle_debt_validation_request (clock : Clock) (borrower_id loan_id : Z)
    (conversation_id : string) (db : Session)
    : Session * DebtValidationResult.t :=
  (* Pause collection activities *)
  let db := with_rows db
              (set_conversations
                 ((fun conv : Conversation.t =>
                     if is_negotiation_of borrower_id loan_id conv
                     then Conversation.set_escalation "Debt validation requested"
                            (utcnow clock)
                            (Conversation.set_state ConversationState.ESCALATED conv)
                     else conv)
                  <$> conversations (rows db))
                 (rows db)) in
  (commit db,
   DebtValidationResult.mk "validation_requested"
     ("Your debt validation request has been received. Collection activities "
      +:+ "have been paused pending validation.")
     "You will receive validation documentation within 30 days as required by law.").

End ComplianceRequests.

(** ** [app/services/llm_service.py], continued *)

Module LLMQueries.

(** The dictionary [policy_keywords], in the order of its literal. *)
Definition policy_keywords : list (string * string) :=
  [("payment plan", "payment plan installment policy");
   ("settlement", "settlement offer policy");
   ("dispute", "debt validation dispute policy");
   ("lawyer", "legal escalation policy");
   ("bankruptcy", "bankruptcy escalation policy");
   ("harassment", "harassment complaint policy");
   ("stop", "opt out communication policy")].

Definition _extract_policy_query (user_message : string) : string :=
  let user_lower := PyStr.lower user_message in
  match list_find (fun entry : string * string =>
                     PyStr.contains (fst entry) user_lower = true)
                  policy_keywords with
  | Some (_, (keyword, policy_query)) => policy_query
  | None => "general debt collection policy"
  end.

End LLMQueries.

(** ** [app/services/rag_service.py]: the chunking of a document *)

Module RAGService.

(** The whitespace of ASCII, as [str.split()] sees it. *)
Definition is_space (c : ascii) : bool :=
  let n := N_of_ascii c in
  (((9 <=? n) && (n <=? 13)) || ((28 <=? n) && (n <=? 32)))%N.

(** [text.split()], with the word that is being read. *)
Fixpoint split_from (text : string) (word : string) : list string :=
  match text with
  | EmptyString => if PyStr.truthy word then [word] else []
  | String c rest =>
      if is_space c then
        if PyStr.truthy word then word :: split_from rest EmptyString
        else split_from rest EmptyString
      else split_from rest (word +:+ String c EmptyString)
  end.

Definition split (text : string) : list string := split_from text EmptyString.

(** An index of a slice, as Python clamps it into the list. *)
Definition clamp (len idx : Z) : Z :=
  if idx <? 0 then Z.max (idx + len) 0 else Z.min idx len.

(** [l[i:j]] *)
Definition slice {A : Type} (l : list A) (i j : Z) : list A :=
  let len := Z.of_nat (length l) in
  let lo := clamp len i in
  let hi := clamp len j in
  take (Z.to_nat (hi - lo)) (drop (Z.to_nat lo) l).

(** [len(range(start, stop, step))] for a step that is not zero. *)
Definition range_len (start stop step : Z) : Z :=
  if 0 <? step then
    if start <? stop then (stop - start - 1) / step + 1 else 0
  else
    if stop <? start then (start - stop - 1) / (- step) + 1 else 0.

Fixpoint range_from (start step : Z) (n : nat) : list Z :=
  match n with
  | O => []
  | S n' => start :: range_from (start + step) step n'
  end.

(** [range(start, stop, step)] *)
Definition range (start stop step : Z) : res (list Z) :=
  if step =? 0 then Raise (ValueError "range() arg 3 must not be zero")
  else Ok (range_from start step (Z.to_nat (range_len start stop step))).

(** The loop of [_chunk_text] over the indices that are left. *)
Fixpoint chunk_loop (words : list string) (chunk_size : Z) (indices : list Z)
    : list string :=
  match indices with
  | [] => []
  | i :: rest =>
      let chunk_words := slice words i (i + chunk_size) in
      let chunk := String.concat " " chunk_words in
      if Z.of_nat (length words) <=? i + chunk_size
      then [chunk]  (* break *)
      else chunk :: chunk_loop words chunk_size rest
  end.

Definition _chunk_text (text : string) (chunk_size overlap : Z)
    : res (list string) :=
  let words := split text in
  indices ← range 0 (Z.of_nat (length words)) (chunk_size - overlap);
  mret (chunk_loop words chunk_size indices).

(** The words of the chunks, before they are joined. *)
Fixpoint chunk_words_loop (words : list string) (chunk_size : Z)
    (indices : list Z) : list (list string) :=
  match indices with
  | [] => []
  | i :: rest =>
      if Z.of_nat (length words) <=? i + chunk_size
      then [slice words i (i + chunk_size)]
      else slice words i (i + chunk_size)
           :: chunk_words_loop words chunk_size rest
  end.

(** The words of a text put together again from the words of its
    chunks: the first chunk, then every later chunk without the words it
    shares with the one before. *)
Definition reassemble (overlap : Z) (chunk_words : list (list string))
    : list string :=
  match chunk_words with
  | [] => []
  | first_chunk :: later => first_chunk ++ concat (drop (Z.to_nat overlap) <$> later)
  end.

End RAGService.

(** ** [app/utils/logging_config.py]: the masking of a value *)

Module PIIMaskingProcessor.

(** ['*' * n] *)
Fixpoint stars (n : nat) : string :=
  match n with
  | O => EmptyString
  | S n' => String "*" (stars n')
  end.

(** The function [mask_value] inside [mask_pii]. *)
Definition mask_value (value : string) : string :=
  if (String.length value <=? 4)%nat then stars (String.length value)
  else
    String.substring 0 2 value
    +:+ stars (String.length value - 4)
    +:+ String.substring (String.length value - 2) 2 value.

End PIIMaskingProcessor.

(** ** A runtime that reads the special floats

    [float(s)] also reads "nan", "inf" and "infinity" in any letter
    case; the other fields are those of the reference runtime. *)

Module SpecialFloats.

Definition float_of_literal (s : string) : option float :=
  if bool_decide (PyStr.lower s = "nan") then Some S754_nan
  else if bool_decide (PyStr.lower s ∈ ["inf"; "infinity"])
       then Some (S754_infinity false)
       else RefPython.float_of_decimal s.

Definition python : Python :=
  {| float_of_str := float_of_literal;
     datetime_fromisoformat := RefPython.datetime_of_iso;
     time_fromisoformat := RefPython.time_of_iso;
     str_of_datetime := RefPython.datetime_to_str;
     format_pct1 := RefPython.pct1;
     str_of_any := RefPython.any_to_str |}.

End SpecialFloats.

(** ** Further inputs used in the examples *)

Module MoreExamples.

(** A reply that breaks no rule. *)
Definition clean_reply : AssistantResponse.t :=
  AssistantResponse.mk ActionType.INFORM "Thank you for getting in touch."
    None (PyFloat.of_Z 1) false ["tone_checked"] (Some ∅).

(** A reply with the word "sue" inside "pursue". *)
Definition pursue_reply : AssistantResponse.t :=
  AssistantResponse.mk ActionType.INFORM "We can pursue other options."
    None (PyFloat.of_Z 1) false [] (Some ∅).

(** Two conversations of the example borrower, opened on the morning of
    Tuesday 2025-11-04. *)
Definition morning_conversation (id : Z) (session_id : string) : Conversation.t :=
  Conversation.mk id session_id 1 1 ConversationState.INITIATED "chat" (Some ∅)
    false 0 (mk_datetime 2025 11 4 9 0 0 0) None None
    (mk_datetime 2025 11 4 9 0 0 0).

Definition busy_store : Store :=
  mk_store [Examples.borrower] [Examples.loan]
    [morning_conversation 1 "a1"; morning_conversation 2 "a2"] [] [] [].
Definition busy_db : Session := mk_session busy_store busy_store.

(** The example conversation, closed. *)
Definition closed_conversation : Conversation.t :=
  Conversation.set_state ConversationState.CLOSED Examples.conversation.
Definition closed_store : Store :=
  mk_store [Examples.borrower] [Examples.loan] [closed_conversation] [] [] [].
Definition closed_db : Session := mk_session closed_store closed_store.

(** A generator that always fails, and one that always gives the clean
    reply. *)
Definition failing_generator (user_message : string)
    (conversation_context : ConversationContext.t) : res AssistantResponse.t :=
  Raise (ValueError "No valid JSON found in LLM response").
Definition clean_generator (user_message : string)
    (conversation_context : ConversationContext.t) : res AssistantResponse.t :=
  Ok clean_reply.

(** Verification data that claims "nan" as the last payment amount. *)
Definition nan_amount : gmap string string := {["last_payment_amount" := "nan"]}.

(** Verification data under a key that the service does not know. *)
Definition unknown_key : gmap string string := {["date_of_birth" := "1980-01-01"]}.

(** The example conversation, verified. *)
Definition verified_conversation : Conversation.t :=
  Conversation.set_identity_verified true Examples.conversation.
Definition verified_store : Store :=
  mk_store [Examples.borrower] [Examples.loan] [verified_conversation] [] [] [].
Definition verified_db : Session := mk_session verified_store verified_store.

(** Plan rows of installments of 200 for the example loan. *)
Definition plan_row (count : Z) (first_payment_date : datetime)
    (payment_frequency : string) : PaymentPlan.t :=
  PaymentPlan.mk 1 1 1 PaymentPlanType.INSTALLMENT (PyFloat.of_Z 200)
    (PyFloat.of_Z 200) count first_payment_date payment_frequency "proposed".

(** An installment proposal with a count of -5. *)
Definition negative_count_plan : StructuredPlan.t :=
  StructuredPlan.mk PlanType.INSTALLMENT (PyFloat.of_Z 200) (Some (-5))
    (Some "2025-11-10") (Some "monthly").

(** The example conversation after an escalation, and a generator that
    moves on to collecting a payment. *)
Definition escalated_conversation : Conversation.t :=
  Conversation.set_escalation "Maximum verification attempts exceeded"
    (Examples.at_date 2025 11 3)
    (Conversation.set_state ConversationState.ESCALATED Examples.conversation).
Definition escalated_store : Store :=
  mk_store [Examples.borrower] [Examples.loan] [escalated_conversation] [] [] [].
Definition escalated_db : Session := mk_session escalated_store escalated_store.

Definition collect_reply : AssistantResponse.t :=
  AssistantResponse.mk ActionType.COLLECT_PAYMENT
    "Shall we set up the first instalment now?"
    None (PyFloat.of_Z 1) false [] (Some ∅).
Definition collecting_generator (user_message : string)
    (conversation_context : ConversationContext.t) : res AssistantResponse.t :=
  Ok collect_reply.

(** The plan dictionary of six installments of 200. *)
Definition installment_data : gmap string Any :=
  {["type" := PyStr "installment"; "installments" := PyInt 6;
    "amount" := PyInt 200]}.

(** An installment plan of 18 payments of 20. *)
Definition long_cheap_data : gmap string Any :=
  {["type" := PyStr "installment"; "installments" := PyInt 18;
    "amount" := PyInt 20]}.

End MoreExamples.

(** * Properties *)

(** ** The response validator *)

Section ResponseValidator.
Import AssistantResponse LLMService.

Variable env : Env.

Lemma validate_response_forced (response : AssistantResponse.t)
    (ctx : ConversationContext.t) :
  validation_errors env response ctx ≠ [] ->
  escalation response = false ->
  _validate_response env response ctx =
    AssistantResponse.mk ActionType.ESCALATE handoff_message None
      (confidence response) true
      (compliance_checks response ++ ["validation_failed"])
      (metadata response).
Proof.
  intros Herr Hesc. unfold _validate_response.
  rewrite Hesc, bool_decide_eq_false_2 by exact Herr. reflexivity.
Qed.

Lemma validate_response_unchanged (response : AssistantResponse.t)
    (ctx : ConversationContext.t) :
  validation_errors env response ctx = [] \/ escalation response = true ->
  _validate_response env response ctx = response.
Proof.
  intros [Herr | Hesc]; unfold _validate_response.
  - rewrite bool_decide_eq_true_2 by exact Herr. reflexivity.
  - rewrite Hesc, andb_false_r. reflexivity.
Qed.

(** A settlement plan is judged by the sign of its amount alone. *)
Lemma validate_settlement_plan (plan : StructuredPlan.t) :
  StructuredPlan.type plan = PlanType.SETTLEMENT ->
  _validate_payment_plan env plan =
    if PyFloat.le (StructuredPlan.amount plan) PyFloat.zero
    then ["Settlement amount must be positive"] else [].
Proof.
  intros Ht. unfold _validate_payment_plan. rewrite Ht. simpl.
  destruct (PyFloat.le _ _); reflexivity.
Qed.

End ResponseValidator.

(** C3, as stated, fails on its last clause: a proposal that carries the
    escalation flag already is returned as it came, whatever it
    violates. Here four violations are found, and the validator, and
    with it [process_conversation], returns the proposal with its
    action, its text and its plan. *)
Lemma flagged_violating_proposal_is_returned_as_is :
  LLMService.validation_errors default_env Examples.flagged_proposal
    Examples.unverified_context
  = ["Installment plan exceeds maximum 12 months";
     "Minimum payment amount is $25";
     "Cannot share account details without identity verification";
     "Prohibited language detected: sue"]
  /\ AssistantResponse.escalation Examples.flagged_proposal = true
  /\ LLMService._validate_response default_env Examples.flagged_proposal
       Examples.unverified_context
     = Examples.flagged_proposal
  /\ LLMService.process_conversation default_env (Ok Examples.flagged_proposal)
       Examples.unverified_context
     = Examples.flagged_proposal.
Proof. repeat split. Qed.

(** The turn then delivers the text to the borrower and builds the plan
    of fifty installments. *)
Lemma flagged_violating_proposal_is_delivered :
  exists (db' : Session) (response : ConversationResponse.t),
    ConversationService.process_message (py := RefPython.ref_python) default_env
      ComplianceService.compliance_service ConversationService.conversation_service
      (Examples.clock_at Examples.tuesday_morning) "u1"
      (fun _ _ => Ok Examples.flagged_proposal) "What can I do?" 1 "s1"
      ConversationChannel.CHAT Examples.db
    = (db', Ok response)
    /\ ConversationResponse.ok response = true
    /\ ConversationResponse.assistant response = Examples.flagged_proposal
    /\ PaymentPlan.number_of_installments <$> payment_plans (rows db') = [50]
    /\ length (scheduled_payments (rows db')) = 50%nat.
Proof. do 2 eexists. split; [vm_compute; reflexivity |]. repeat split. Qed.

(** C3, amended. Whenever validation finds a violation and the proposal's
    escalation flag is false, the validator returns a proposal whose
    action is Escalate, whose flag is true, whose text is the hand-off
    message, whose plan is gone and whose compliance checks end with
    "validation_failed"; what it returns differs from what it got. A
    proposal whose escalation flag is true already is returned as it
    came, whatever violations it holds. *)
Theorem violating_proposal_is_replaced (env : Env)
    (response : AssistantResponse.t) (ctx : ConversationContext.t) :
  (LLMService.validation_errors env response ctx ≠ [] ->
   AssistantResponse.escalation response = false ->
   let out := LLMService._validate_response env response ctx in
   AssistantResponse.action out = ActionType.ESCALATE
   /\ AssistantResponse.escalation out = true
   /\ AssistantResponse.message_to_user out = LLMService.handoff_message
   /\ AssistantResponse.structured_plan out = None
   /\ AssistantResponse.compliance_checks out
      = AssistantResponse.compliance_checks response ++ ["validation_failed"]
   /\ out <> response)
  /\ (AssistantResponse.escalation response = true ->
      LLMService._validate_response env response ctx = response).
Proof.
  split.
  - intros Herr Hesc out. subst out.
    rewrite validate_response_forced by assumption. simpl.
    repeat split.
    intros Heq. apply (f_equal AssistantResponse.escalation) in Heq.
    simpl in Heq. congruence.
  - intros Hesc. apply validate_response_unchanged. right. exact Hesc.
Qed.

(** A message with a prohibited word and no flag, in a verified
    conversation, and the flagged proposal with its four violations. *)
Lemma violating_proposal_is_replaced_witness :
  (let out := LLMService._validate_response default_env
                Examples.threatening_proposal Examples.verified_context in
   AssistantResponse.action out = ActionType.ESCALATE
   /\ AssistantResponse.escalation out = true
   /\ AssistantResponse.message_to_user out = LLMService.handoff_message
   /\ AssistantResponse.structured_plan out = None
   /\ AssistantResponse.compliance_checks out = ["tone_checked"; "validation_failed"]
   /\ out <> Examples.threatening_proposal)
  /\ LLMService._validate_response default_env Examples.flagged_proposal
       Examples.unverified_context
     = Examples.flagged_proposal.
Proof.
  split.
  - apply (violating_proposal_is_replaced default_env
             Examples.threatening_proposal Examples.verified_context).
    + vm_compute. discriminate.
    + reflexivity.
  - apply (violating_proposal_is_replaced default_env
             Examples.flagged_proposal Examples.unverified_context).
    reflexivity.
Defined.

(** C1. A settlement of 1400 on a balance of 1200 is a ratio above 0.70,
    and the validator returns the proposal exactly as it came: action
    propose_plan, escalation flag false, the plan still attached. *)
Theorem settlement_above_ceiling_is_returned_as_is :
  (exists ratio : float,
     PyFloat.div (StructuredPlan.amount Examples.settlement_1400) (PyFloat.of_Z 1200)
     = Ok ratio
     /\ PyFloat.gt ratio PyFloat.f0_70 = true)
  /\ LLMService._validate_response default_env Examples.settlement_proposal
       Examples.verified_context
     = Examples.settlement_proposal
  /\ AssistantResponse.action
       (LLMService._validate_response default_env Examples.settlement_proposal
          Examples.verified_context)
     = ActionType.PROPOSE_PLAN.
Proof.
  split; [| split].
  - eexists. split; [vm_compute; reflexivity | vm_compute; reflexivity].
  - vm_compute. reflexivity.
  - vm_compute. reflexivity.
Qed.

(** Hence the ceiling, as the specification words it, does not hold. *)
Lemma settlement_ceiling_not_enforced : ~ Spec.settlement_ceiling_enforced.
Proof.
  intros H.
  specialize (H Examples.settlement_proposal Examples.verified_context
                Examples.settlement_1400 (PyFloat.of_Z 1200)
                (SFdiv PyFloat.prec PyFloat.emax (PyFloat.of_Z 1400) (PyFloat.of_Z 1200))).
  assert (Hcode :
    LLMService._validate_response default_env Examples.settlement_proposal
      Examples.verified_context = Examples.settlement_proposal)
    by (vm_compute; reflexivity).
  rewrite Hcode in H.
  specialize (H eq_refl eq_refl eq_refl eq_refl). discriminate H.
Qed.

(** The plan validation of the compliance service, given the balance,
    does reject the same settlement. *)
Lemma compliance_service_rejects_the_settlement :
  ComplianceService.validate_payment_plan (py := RefPython.ref_python)
    ComplianceService.compliance_service
    {["type" := PyStr "settlement"; "amount" := PyFloat (PyFloat.of_Z 1400)]}
    (PyFloat.of_Z 1200)
  = Ok [ComplianceCheck.mk "settlement_percentage" false
          (Some "Settlement percentage 116.7% exceeds maximum 70.0%") "error"].
Proof. vm_compute. reflexivity. Qed.

(** What the validator does check on a settlement plan: the sign of the
    amount. A proposal whose settlement amount is zero or negative, and
    whose escalation flag is false, is forced to Escalate; a settlement
    plan with a positive amount adds no violation, whatever its ratio to
    the balance, which the validator is not given. *)
Lemma settlement_validation_checks_sign (env : Env)
    (response : AssistantResponse.t) (ctx : ConversationContext.t)
    (plan : StructuredPlan.t) :
  AssistantResponse.structured_plan response = Some plan ->
  StructuredPlan.type plan = PlanType.SETTLEMENT ->
  (PyFloat.le (StructuredPlan.amount plan) PyFloat.zero = true ->
   AssistantResponse.escalation response = false ->
   AssistantResponse.action (LLMService._validate_response env response ctx)
   = ActionType.ESCALATE)
  /\ (PyFloat.le (StructuredPlan.amount plan) PyFloat.zero = false ->
      LLMService._validate_payment_plan env plan = []
      /\ LLMService.validation_errors env response ctx
         = LLMService._check_compliance response ctx).
Proof.
  intros Hplan Htype. split.
  - intros Hle Hesc.
    rewrite validate_response_forced; [reflexivity | | exact Hesc].
    unfold LLMService.validation_errors. rewrite Hplan.
    rewrite (validate_settlement_plan env plan Htype), Hle. discriminate.
  - intros Hle.
    assert (Hnone : LLMService._validate_payment_plan env plan = [])
      by (rewrite (validate_settlement_plan env plan Htype), Hle; reflexivity).
    split; [exact Hnone |].
    unfold LLMService.validation_errors. rewrite Hplan, Hnone. reflexivity.
Qed.

(** A settlement of 0 is forced to Escalate; one of 1400 adds no violation. *)
Lemma settlement_sign_examples :
  AssistantResponse.action
    (LLMService._validate_response default_env Examples.settlement_0_proposal
       Examples.verified_context) = ActionType.ESCALATE
  /\ LLMService._validate_payment_plan default_env Examples.settlement_1400 = [].
Proof.
  split.
  - apply (settlement_validation_checks_sign default_env
             Examples.settlement_0_proposal Examples.verified_context
             Examples.settlement_0); reflexivity.
  - apply (settlement_validation_checks_sign default_env
             Examples.settlement_proposal Examples.verified_context
             Examples.settlement_1400); reflexivity.
Defined.

(** ** The contact-compliance gate *)

Section ContactComplianceGate.
Import ComplianceCheck ComplianceService.
Context `{py : Python}.

Lemma opt_out_check_fails (borrower : Borrower.t) (d : datetime) :
  Borrower.opt_out_date borrower = Some d ->
  _check_opt_out_status borrower =
    ComplianceCheck.mk "opt_out_status" false
      (Some ("Borrower opted out on " +:+ str_of_datetime d)) "critical".
Proof. intros H. unfold _check_opt_out_status. rewrite H. reflexivity. Qed.

Lemma opt_out_check_passes (borrower : Borrower.t) :
  Borrower.opt_out_date borrower = None ->
  passed (_check_opt_out_status borrower) = true.
Proof. intros H. unfold _check_opt_out_status. rewrite H. reflexivity. Qed.

End ContactComplianceGate.



(** ** The contact window *)

Section ContactWindow.
Import ComplianceCheck ComplianceService.
Context `{py : Python}.

Lemma time_le_naive (a b : time) :
  PyDatetime.tzinfo a = None -> PyDatetime.tzinfo b = None ->
  PyDatetime.time_le a b = Ok (Spec.naive_le a b).
Proof.
  intros Ha Hb. unfold PyDatetime.time_le, PyDatetime.time_cmp.
  rewrite Ha, Hb. reflexivity.
Qed.

Lemma contact_time_prohibited_day (self : ComplianceService.t) (now : datetime)
    (borrower : Borrower.t) :
  PyDatetime.weekday now ∈ prohibited_days self ->
  _check_contact_time self now borrower =
    Ok (ComplianceCheck.mk "contact_time" false
          (Some "Contact not allowed on Sundays") "warning").
Proof.
  intros H. unfold _check_contact_time.
  rewrite bool_decide_eq_true_2 by exact H. reflexivity.
Qed.

Lemma contact_time_unparsable (self : ComplianceService.t) (now : datetime)
    (borrower : Borrower.t) :
  PyDatetime.weekday now ∉ prohibited_days self ->
  time_fromisoformat (contact_hours_start self) = None
  \/ time_fromisoformat (contact_hours_end self) = None ->
  _check_contact_time self now borrower = Ok contact_time_passed.
Proof.
  intros Hday Hparse. unfold _check_contact_time.
  rewrite bool_decide_eq_false_2 by exact Hday.
  destruct Hparse as [-> | Hend]; [reflexivity |].
  destruct (time_fromisoformat (contact_hours_start self)); [| reflexivity].
  rewrite Hend. reflexivity.
Qed.

Lemma contact_time_parsed (self : ComplianceService.t) (now : datetime)
    (borrower : Borrower.t) (s e : time) :
  PyDatetime.weekday now ∉ prohibited_days self ->
  time_fromisoformat (contact_hours_start self) = Some s ->
  time_fromisoformat (contact_hours_end self) = Some e ->
  PyDatetime.tzinfo s = None ->
  PyDatetime.tzinfo e = None ->
  _check_contact_time self now borrower =
    Ok (if Spec.in_closed_window s e (PyDatetime.time_of now)
        then contact_time_passed
        else ComplianceCheck.mk "contact_time" false
               (Some ("Contact only allowed between "
                      +:+ contact_hours_start self +:+ " and "
                      +:+ contact_hours_end self))
               "warning").
Proof.
  intros Hday Hs He Hns Hne. unfold _check_contact_time.
  rewrite bool_decide_eq_false_2 by exact Hday.
  rewrite Hs, He.
  rewrite (time_le_naive s (PyDatetime.time_of now) Hns eq_refl).
  rewrite (time_le_naive (PyDatetime.time_of now) e eq_refl Hne).
  unfold Spec.in_closed_window.
  destruct (Spec.naive_le s (PyDatetime.time_of now)); simpl; [| reflexivity].
  destruct (Spec.naive_le (PyDatetime.time_of now) e); reflexivity.
Qed.

End ContactWindow.

(** C7, as stated, fails: at 21:00:00 sharp on a Tuesday, under the
    default hours 08:00 to 21:00, the instant is outside the half-open
    window, the weekday is not a prohibited one, and the check passes.
    And with hours that do not parse, the check still blocks on a
    Sunday. *)
Lemma contact_allowed_at_closing_time :
  (ComplianceService._check_contact_time (py := RefPython.ref_python)
     ComplianceService.compliance_service Examples.tuesday_21h Examples.borrower
   = Ok ComplianceService.contact_time_passed
   /\ ComplianceCheck.passed ComplianceService.contact_time_passed = true
   /\ PyDatetime.weekday Examples.tuesday_21h = 1
   /\ ComplianceService.prohibited_days ComplianceService.compliance_service = [6]
   /\ RefPython.time_of_iso "08:00" = Some (mk_time 8 0 0 0 None)
   /\ RefPython.time_of_iso "21:00" = Some (mk_time 21 0 0 0 None)
   /\ Spec.in_half_open_window (mk_time 8 0 0 0 None) (mk_time 21 0 0 0 None)
        (PyDatetime.time_of Examples.tuesday_21h) = false)
  /\ (RefPython.time_of_iso "8am" = None
      /\ PyDatetime.weekday Examples.sunday_morning = 6
      /\ ComplianceService._check_contact_time (py := RefPython.ref_python)
           (ComplianceService.__init__ (mk_env PyFloat.f0_70 12 "8am" "9pm"))
           Examples.sunday_morning Examples.borrower
         = Ok (ComplianceCheck.mk "contact_time" false
                 (Some "Contact not allowed on Sundays") "warning")).
Proof. repeat split; vm_compute; reflexivity. Qed.

(** Hence the window, as the specification words it, does not hold. *)
Lemma contact_window_is_not_half_open : ~ Spec.contact_window_half_open.
Proof.
  intros [H _].
  specialize (H RefPython.ref_python ComplianceService.compliance_service
                Examples.tuesday_21h Examples.borrower
                (mk_time 8 0 0 0 None) (mk_time 21 0 0 0 None)
                ComplianceService.contact_time_passed
                eq_refl eq_refl eq_refl eq_refl eq_refl).
  destruct H as [_ H].
  assert (Hpassed : ComplianceCheck.passed ComplianceService.contact_time_passed = false).
  { apply H. right. reflexivity. }
  discriminate Hpassed.
Qed.

(** With hours that do not parse, a prohibited weekday still blocks. *)
Lemma unparsable_hours_on_sunday :
  ComplianceService._check_contact_time (py := RefPython.ref_python)
    (ComplianceService.__init__ (mk_env PyFloat.f0_70 12 "8am" "9pm"))
    Examples.sunday_morning Examples.borrower
  = Ok (ComplianceCheck.mk "contact_time" false
          (Some "Contact not allowed on Sundays") "warning").
Proof. reflexivity. Qed.

(** Hours that carry a UTC offset parse, and the comparison with the
    naive clock time raises. *)
Lemma offset_hours_raise :
  ComplianceService._check_contact_time (py := RefPython.ref_python)
    (ComplianceService.__init__ (mk_env PyFloat.f0_70 12 "08:00+00:00" "21:00"))
    Examples.tuesday_morning Examples.borrower
  = Raise TypeError.
Proof. reflexivity. Qed.

(** C7, amended. On a prohibited weekday the check blocks, with severity
    warning. On any other day: with hours that do not parse it passes;
    with hours that parse to naive times it passes exactly when the clock
    time lies in the closed window from start to end, both ends included,
    and otherwise blocks with severity warning. *)
Theorem contact_window_is_closed `{py : Python}
    (self : ComplianceService.t) (now : datetime) (borrower : Borrower.t) :
  (PyDatetime.weekday now ∈ ComplianceService.prohibited_days self ->
   exists c, ComplianceService._check_contact_time self now borrower = Ok c
             /\ ComplianceCheck.passed c = false
             /\ ComplianceCheck.severity c = "warning")
  /\ (PyDatetime.weekday now ∉ ComplianceService.prohibited_days self ->
      (time_fromisoformat (ComplianceService.contact_hours_start self) = None
       \/ time_fromisoformat (ComplianceService.contact_hours_end self) = None ->
       exists c, ComplianceService._check_contact_time self now borrower = Ok c
                 /\ ComplianceCheck.passed c = true)
      /\ (forall s e : time,
            time_fromisoformat (ComplianceService.contact_hours_start self) = Some s ->
            time_fromisoformat (ComplianceService.contact_hours_end self) = Some e ->
            PyDatetime.tzinfo s = None ->
            PyDatetime.tzinfo e = None ->
            exists c, ComplianceService._check_contact_time self now borrower = Ok c
                      /\ ComplianceCheck.passed c
                         = Spec.in_closed_window s e (PyDatetime.time_of now)
                      /\ (ComplianceCheck.passed c = false ->
                          ComplianceCheck.severity c = "warning"))).
Proof.
  split; [| intros Hday; split].
  - intros Hday. rewrite (contact_time_prohibited_day self now borrower Hday).
    eexists. split; [reflexivity |]. split; reflexivity.
  - intros Hparse. rewrite (contact_time_unparsable self now borrower Hday Hparse).
    eexists. split; reflexivity.
  - intros s e Hs He Hns Hne.
    rewrite (contact_time_parsed self now borrower s e Hday Hs He Hns Hne).
    eexists. split; [reflexivity |].
    destruct (Spec.in_closed_window s e (PyDatetime.time_of now)); simpl;
      split; auto; discriminate.
Qed.

(** The default hours, at closing time on a Tuesday and on a Sunday. *)
Lemma contact_window_is_closed_witness :
  (* Tuesday 21:00:00 sharp, default hours: allowed *)
  (exists c,
     ComplianceService._check_contact_time (py := RefPython.ref_python)
       ComplianceService.compliance_service Examples.tuesday_21h Examples.borrower
     = Ok c
     /\ ComplianceCheck.passed c = true)
  (* Sunday: blocked *)
  /\ (exists c,
        ComplianceService._check_contact_time (py := RefPython.ref_python)
          ComplianceService.compliance_service Examples.sunday_morning
          Examples.borrower
        = Ok c
        /\ ComplianceCheck.passed c = false
        /\ ComplianceCheck.severity c = "warning").
Proof.
  split.
  - destruct (contact_window_is_closed (py := RefPython.ref_python)
                ComplianceService.compliance_service Examples.tuesday_21h
                Examples.borrower) as [_ Hother].
    destruct Hother as [_ Hparsed].
    { vm_compute. intros H. apply list_elem_of_In in H.
      destruct H as [H | []]. discriminate H. }
    destruct (Hparsed (mk_time 8 0 0 0 None) (mk_time 21 0 0 0 None)
                eq_refl eq_refl eq_refl eq_refl) as [c [Hc [Hp _]]].
    exists c. split; [exact Hc | exact Hp].
  - destruct (contact_window_is_closed (py := RefPython.ref_python)
                ComplianceService.compliance_service Examples.sunday_morning
                Examples.borrower) as [Hsunday _].
    apply Hsunday. vm_compute. apply list_elem_of_In. left. reflexivity.
Defined.

(** On well-formed times the field-by-field order is the order of the
    instants, counted in microseconds since midnight. *)
Lemma naive_le_is_instant_order (a b : time) :
  let micros (t : time) :=
    ((PyDatetime.t_hour t * 60 + PyDatetime.t_minute t) * 60
     + PyDatetime.t_second t) * 1000000 + PyDatetime.t_microsecond t in
  let well_formed (t : time) :=
    0 <= PyDatetime.t_minute t < 60 /\ 0 <= PyDatetime.t_second t < 60
    /\ 0 <= PyDatetime.t_microsecond t < 1000000 in
  well_formed a -> well_formed b ->
  Spec.naive_le a b = (micros a <=? micros b).
Proof.
  intros micros well_formed (Hma & Hsa & Hua) (Hmb & Hsb & Hub).
  unfold Spec.naive_le, micros. simpl.
  destruct (Z.compare_spec (PyDatetime.t_hour a) (PyDatetime.t_hour b)) as [Hh | Hh | Hh];
    [destruct (Z.compare_spec (PyDatetime.t_minute a) (PyDatetime.t_minute b)) as [Hm | Hm | Hm];
      [destruct (Z.compare_spec (PyDatetime.t_second a) (PyDatetime.t_second b)) as [Hs | Hs | Hs];
        [destruct (Z.compare_spec (PyDatetime.t_microsecond a) (PyDatetime.t_microsecond b)) as [Hu | Hu | Hu]
        | |]
      | |]
    | |]; simpl; symmetry;
    first [apply Z.leb_le; lia | apply Z.leb_gt; lia].
Qed.

(** ** Plan validation of the compliance service *)

Section PlanCompliance.
Import ComplianceService.
Context `{py : Python}.

Lemma le_zero_not_positive (x : float) :
  PyFloat.le x PyFloat.zero = true -> PyFloat.gt x PyFloat.zero = false.
Proof.
  unfold PyFloat.le, PyFloat.gt, PyFloat.zero, SFleb, SFltb.
  destruct x as [s | s | | s m e]; try destruct s; simpl; congruence.
Qed.

(** The integer 0 is above a ceiling only when the ceiling is negative. *)
Lemma zero_ratio_within (ceiling : float) :
  PyFloat.lt ceiling PyFloat.zero = false ->
  PyAny.gt_num (PyInt 0) (PyAny.NFloat ceiling) = Ok false.
Proof.
  intros H. unfold PyAny.gt_num, PyAny.as_num, PyAny.num_lt. f_equal.
  unfold PyFloat.lt, PyFloat.zero, SFltb in H.
  destruct ceiling as [s | s | | s m e]; try destruct s;
    try reflexivity; try discriminate H.
  unfold PyAny.Z_compare_float.
  destruct (0 <=? e) eqn:He; [| reflexivity].
  apply Z.leb_le in He.
  assert (Hpos : 0 < Z.pos m * 2 ^ e)
    by (apply Z.mul_pos_pos; [lia | apply Z.pow_pos_nonneg; lia]).
  apply Z.compare_lt_iff in Hpos. rewrite Hpos. reflexivity.
Qed.

Lemma type_is_settlement_not_installment (plan_data : gmap string Any) :
  type_is plan_data "settlement" = true -> type_is plan_data "installment" = false.
Proof.
  unfold type_is. destruct (plan_data !! "type") as [[]|]; simpl; try discriminate.
  intros H. apply bool_decide_eq_true in H. subst. reflexivity.
Qed.

End PlanCompliance.

(** C10. A settlement plan validated against a balance that is zero or
    negative has its ratio taken as 0, with no division and no exception,
    and the settlement_percentage check passes whatever the amount is,
    under every ceiling that is not negative. *)
Theorem settlement_ratio_is_guarded `{py : Python}
    (self : ComplianceService.t) (plan_data : gmap string Any)
    (loan_balance : float) :
  ComplianceService.type_is plan_data "settlement" = true ->
  PyFloat.le loan_balance PyFloat.zero = true ->
  PyFloat.lt (ComplianceService.max_settlement_percentage self) PyFloat.zero = false ->
  ComplianceService.validate_payment_plan self plan_data loan_balance
  = Ok [ComplianceCheck.mk "settlement_percentage" true
          (Some ("Settlement percentage " +:+ format_pct1 PyFloat.zero
                 +:+ " is within limits"))
          "info"].
Proof.
  intros Htype Hbal Hmax. unfold ComplianceService.validate_payment_plan.
  rewrite Htype, (type_is_settlement_not_installment plan_data Htype).
  rewrite (le_zero_not_positive loan_balance Hbal).
  unfold mbind, res_bind, mret, res_ret. cbn [bind].
  rewrite (zero_ratio_within _ Hmax). reflexivity.
Qed.

(** With a positive balance the division is made, and an amount that is
    not a number raises. *)
Lemma settlement_ratio_of_a_string_raises :
  ComplianceService.validate_payment_plan (py := RefPython.ref_python)
    ComplianceService.compliance_service
    {["type" := PyStr "settlement"; "amount" := PyStr "a lot"]}
    (PyFloat.of_Z 1200)
  = Raise TypeError.
Proof. vm_compute. reflexivity. Qed.

(** With a balance of zero the same amount passes. *)
Lemma settlement_ratio_of_a_string_is_guarded :
  ComplianceService.validate_payment_plan (py := RefPython.ref_python)
    ComplianceService.compliance_service
    {["type" := PyStr "settlement"; "amount" := PyStr "a lot"]}
    PyFloat.zero
  = Ok [ComplianceCheck.mk "settlement_percentage" true
          (Some "Settlement percentage 0.0% is within limits") "info"].
Proof. vm_compute. reflexivity. Qed.

(** A settlement of a billion against a balance of -50. *)
Lemma settlement_ratio_is_guarded_witness :
  ComplianceService.validate_payment_plan (py := RefPython.ref_python)
    ComplianceService.compliance_service
    {["type" := PyStr "settlement"; "amount" := PyInt 1000000000]}
    (PyFloat.of_Z (-50))
  = Ok [ComplianceCheck.mk "settlement_percentage" true
          (Some "Settlement percentage 0.0% is within limits") "info"].
Proof.
  apply (settlement_ratio_is_guarded (py := RefPython.ref_python)
           ComplianceService.compliance_service
           {["type" := PyStr "settlement"; "amount" := PyInt 1000000000]}
           (PyFloat.of_Z (-50))); reflexivity.
Defined.

(** ** The calendar *)

Section Calendar.
Import PyDatetime CalendarTables.

Lemma is_leap_period (y q : Z) : is_leap (y + 400 * q) = is_leap y.
Proof.
  unfold is_leap.
  replace (y + 400 * q) with (y + (100 * q) * 4) at 1 by lia.
  replace (y + 400 * q) with (y + (4 * q) * 100) at 1 by lia.
  replace (y + 400 * q) with (y + q * 400) by lia.
  rewrite !Z_mod_plus_full. reflexivity.
Qed.

Lemma days_before_year_period (y q : Z) :
  days_before_year (y + 400 * q) = days_before_year y + DI400Y * q.
Proof.
  unfold days_before_year, DI400Y. cbv zeta.
  replace (y + 400 * q - 1) with (y - 1 + 400 * q) by lia.
  replace ((y - 1 + 400 * q) / 4) with ((y - 1) / 4 + 100 * q)
    by (replace (y - 1 + 400 * q) with (y - 1 + (100 * q) * 4) by lia;
        rewrite Z.div_add by lia; reflexivity).
  replace ((y - 1 + 400 * q) / 100) with ((y - 1) / 100 + 4 * q)
    by (replace (y - 1 + 400 * q) with (y - 1 + (4 * q) * 100) by lia;
        rewrite Z.div_add by lia; reflexivity).
  replace ((y - 1 + 400 * q) / 400) with ((y - 1) / 400 + q)
    by (replace (y - 1 + 400 * q) with (y - 1 + q * 400) by lia;
        rewrite Z.div_add by lia; reflexivity).
  lia.
Qed.

Lemma ymd2ord_period (y m d q : Z) :
  ymd2ord (y + 400 * q) m d = ymd2ord y m d + DI400Y * q.
Proof.
  unfold ymd2ord, days_before_month.
  rewrite days_before_year_period, is_leap_period. lia.
Qed.

(** [ord2ymd] on the day [r] of the 400-year cycle that starts at year
    [400 * q + 1]. *)
Lemma ord2ymd_in_cycle (r q : Z) :
  0 <= r < DI400Y ->
  ord2ymd (DI400Y * q + r + 1) =
    let n100 := r / DI100Y in
    let n4 := (r mod DI100Y) / DI4Y in
    let n1 := ((r mod DI100Y) mod DI4Y) / 365 in
    let n := ((r mod DI100Y) mod DI4Y) mod 365 in
    let year := q * 400 + 1 + n100 * 100 + n4 * 4 + n1 in
    if (n1 =? 4) || (n100 =? 4) then (year - 1, 12, 31)
    else
      let '(month, day) :=
        month_day ((n1 =? 3) && (negb (n4 =? 24) || (n100 =? 3))) n in
      (year, month, day).
Proof.
  intros Hr. unfold ord2ymd, month_day. cbv zeta.
  replace (DI400Y * q + r + 1 - 1) with (r + q * DI400Y) by lia.
  rewrite Z.div_add, Z_mod_plus_full by (unfold DI400Y; lia).
  rewrite (Z.div_small r DI400Y), (Z.mod_small r DI400Y) by lia.
  rewrite Z.add_0_l.
  destruct (_ || _); [reflexivity |].
  destruct (_ <? _); reflexivity.
Qed.

Lemma all_from_spec (check : Z -> bool) (n : nat) :
  forall start r,
    all_from check start n = true ->
    start <= r < start + Z.of_nat n -> check r = true.
Proof.
  induction n as [| n IH]; intros start r Hall Hr; [lia |].
  simpl in Hall. apply andb_true_iff in Hall as [Hhere Hrest].
  destruct (Z.eq_dec r start) as [-> | Hne]; [exact Hhere |].
  apply (IH (start + 1)); [exact Hrest | lia].
Qed.

Lemma month_day_table : all_from month_day_ok 0 365 = true.
Proof. vm_compute. reflexivity. Qed.

Lemma month_day_inverse (leapyear : bool) (n : Z) :
  0 <= n < 365 ->
  let '(m, d) := month_day leapyear n in
  DAYS_BEFORE_MONTH m + (if (2 <? m) && leapyear then 1 else 0) + d = n + 1.
Proof.
  intros Hn.
  pose proof (all_from_spec month_day_ok 365 0 n month_day_table) as Hok.
  unfold month_day_ok in Hok. simpl forallb in Hok.
  assert (Hn' : 0 <= n < 0 + Z.of_nat 365) by lia.
  apply Hok in Hn'. apply andb_true_iff in Hn' as [Hf Ht].
  apply andb_true_iff in Ht as [Ht _].
  destruct leapyear.
  - destruct (month_day true n). apply Z.eqb_eq. exact Ht.
  - destruct (month_day false n). apply Z.eqb_eq. exact Hf.
Qed.

Lemma year_table :
  all_from (fun n100 =>
    all_from (fun n4 => all_from (fun n1 => year_ok n100 n4 n1) 0 4) 0 25) 0 4
  = true.
Proof. vm_compute. reflexivity. Qed.

Lemma year_in_cycle (n100 n4 n1 : Z) :
  0 <= n100 <= 3 -> 0 <= n4 <= 24 -> 0 <= n1 <= 3 ->
  let year := 1 + n100 * 100 + n4 * 4 + n1 in
  days_before_year year = n100 * DI100Y + n4 * DI4Y + n1 * 365
  /\ is_leap year = (n1 =? 3) && (negb (n4 =? 24) || (n100 =? 3)).
Proof.
  intros H100 H4 H1.
  pose proof (all_from_spec _ _ 0 n100 year_table ltac:(simpl; lia)) as Ha.
  cbv beta in Ha.
  pose proof (all_from_spec _ _ 0 n4 Ha ltac:(simpl; lia)) as Hb.
  cbv beta in Hb.
  pose proof (all_from_spec _ _ 0 n1 Hb ltac:(simpl; lia)) as Hc.
  cbv beta in Hc. unfold year_ok in Hc. cbv zeta in Hc.
  apply andb_true_iff in Hc as [Hd Hl].
  apply Z.eqb_eq in Hd. apply Bool.eqb_prop in Hl. split; assumption.
Qed.

(** [date.fromordinal(n).toordinal() == n] *)
Lemma ymd2ord_ord2ymd (n : Z) :
  let '(y, m, d) := ord2ymd n in ymd2ord y m d = n.
Proof.
  pose (q := (n - 1) / DI400Y). pose (r := (n - 1) mod DI400Y).
  assert (Hr : 0 <= r < DI400Y) by (apply Z.mod_pos_bound; reflexivity).
  assert (Hn : n = DI400Y * q + r + 1).
  { pose proof (Z.div_mod (n - 1) DI400Y ltac:(discriminate)). subst q r. lia. }
  destruct (ord2ymd n) as [[y m] d] eqn:E.
  rewrite Hn, (ord2ymd_in_cycle r q Hr) in E. cbv zeta in E.
  (* the digits of [r] *)
  pose proof (Z.div_mod r DI100Y ltac:(discriminate)) as E100.
  pose proof (Z.mod_pos_bound r DI100Y ltac:(reflexivity)) as B100.
  set (n100 := r / DI100Y) in *. set (r1 := r mod DI100Y) in *.
  pose proof (Z.div_mod r1 DI4Y ltac:(discriminate)) as E4.
  pose proof (Z.mod_pos_bound r1 DI4Y ltac:(reflexivity)) as B4.
  set (n4 := r1 / DI4Y) in *. set (r2 := r1 mod DI4Y) in *.
  pose proof (Z.div_mod r2 365 ltac:(discriminate)) as E1.
  pose proof (Z.mod_pos_bound r2 365 ltac:(reflexivity)) as B1.
  set (n1 := r2 / 365) in *. set (nn := r2 mod 365) in *.
  unfold DI400Y, DI100Y, DI4Y in Hr, Hn, E100, B100, E4, B4.
  assert (H100 : 0 <= n100 <= 4) by lia.
  assert (H4 : 0 <= n4 <= 24) by lia.
  assert (H1 : 0 <= n1 <= 4) by lia.
  destruct ((n1 =? 4) || (n100 =? 4)) eqn:Hedge.
  - (* the last day of a leap year *)
    apply orb_true_iff in Hedge.
    assert (Hlast : (n100 = 4 /\ n4 = 0 /\ n1 = 0 /\ nn = 0)
                    \/ (n100 <= 3 /\ n4 <= 23 + (if n100 =? 3 then 1 else 0) /\ n1 = 4 /\ nn = 0)).
    { destruct Hedge as [Ee | Ee]; apply Z.eqb_eq in Ee.
      - destruct (Z.eq_dec n100 4) as [E' | E']; [left; lia |].
        right. destruct (n100 =? 3) eqn:E3; [apply Z.eqb_eq in E3 | apply Z.eqb_neq in E3]; lia.
      - left. lia. }
    injection E as <- <- <-.
    destruct Hlast as [(E100a & E4a & E1a & Enn) | (H100' & H4' & E1a & Enn)];
      rewrite E1a in *; try rewrite E100a in *; try rewrite E4a in *.
    + replace (q * 400 + 1 + 4 * 100 + 0 * 4 + 0 - 1) with (400 + 400 * q) by lia.
      rewrite ymd2ord_period. unfold DI400Y.
      replace (ymd2ord 400 12 31) with 146097 by (vm_compute; reflexivity). lia.
    + replace (q * 400 + 1 + n100 * 100 + n4 * 4 + 4 - 1)
        with (1 + n100 * 100 + n4 * 4 + 3 + 400 * q) by lia.
      rewrite ymd2ord_period.
      destruct (year_in_cycle n100 n4 3 ltac:(lia) ltac:(lia) ltac:(lia)) as [Hd Hl].
      unfold ymd2ord, days_before_month. rewrite Hd, Hl.
      unfold DI400Y, DI100Y, DI4Y. simpl (2 <? 12). simpl (3 =? 3). simpl (DAYS_BEFORE_MONTH 12).
      assert (Hleap : negb (n4 =? 24) || (n100 =? 3) = true).
      { destruct (n100 =? 3) eqn:E3; [apply orb_true_r |].
        rewrite orb_false_r. apply negb_true_iff, Z.eqb_neq. lia. }
      rewrite Hleap. simpl. lia.
  - apply orb_false_iff in Hedge as [E1' E100'].
    apply Z.eqb_neq in E1', E100'.
    pose proof (month_day_inverse ((n1 =? 3) && (negb (n4 =? 24) || (n100 =? 3))) nn B1) as Hmd.
    destruct (month_day _ nn) as [m0 d0].
    injection E as <- <- <-.
    replace (q * 400 + 1 + n100 * 100 + n4 * 4 + n1)
      with (1 + n100 * 100 + n4 * 4 + n1 + 400 * q) by lia.
    rewrite ymd2ord_period.
    destruct (year_in_cycle n100 n4 n1 ltac:(lia) ltac:(lia) ltac:(lia)) as [Hd Hl].
    unfold ymd2ord, days_before_month. rewrite Hd, Hl.
    unfold DI400Y, DI100Y, DI4Y. lia.
Qed.

End Calendar.

(** ** Payment plans and their schedules *)

Section PaymentPlanBuilder.
Import ConversationService.

Lemma add_days_ordinal (d d' : datetime) (k : Z) :
  PyDatetime.add_days d k = Ok d' ->
  PyDatetime.toordinal d' = PyDatetime.toordinal d + k
  /\ Spec.same_time_of_day d d'.
Proof.
  unfold PyDatetime.add_days. intros H.
  destruct (_ && _); [| discriminate H].
  pose proof (ymd2ord_ord2ymd (PyDatetime.toordinal d + k)) as Hrt.
  destruct (PyDatetime.ord2ymd (PyDatetime.toordinal d + k)) as [[y m] dd].
  injection H as <-. split; [exact Hrt |].
  repeat split.
Qed.




End PaymentPlanBuilder.

Section CreatedPlans.
Import ConversationService.
Context `{py : Python}.



End CreatedPlans.


(** Hence not every plan gets the rows that are declared for it. *)
Lemma declared_rows_are_not_always_added : ~ Spec.schedule_has_declared_rows.
Proof.
  intros H.
  destruct (ConversationService._create_payment_plan (py := RefPython.ref_python)
              (Examples.clock_at Examples.tuesday_morning) Examples.loan
              Examples.conversation Examples.settlement_1400 Examples.db)
    as [[db' plan_id] |] eqn:Hbuilt; [| discriminate Hbuilt].
  specialize (H RefPython.ref_python _ _ _ _ _ _ _ Hbuilt).
  vm_compute in Hbuilt. injection Hbuilt as <- <-.
  vm_compute in H. discriminate H.
Qed.

(** A settlement that declares three installments is built with no
    schedule row, and its plan row records the count of three. *)
Lemma settlement_with_a_count_records_it :
  exists db',
    ConversationService._create_payment_plan (py := RefPython.ref_python)
      (Examples.clock_at Examples.tuesday_morning) Examples.loan
      Examples.conversation Examples.settlement_in_3 Examples.db
    = Ok (db', 1)
    /\ scheduled_payments (rows db') = []
    /\ PaymentPlan.number_of_installments <$> payment_plans (rows db') = [3].
Proof. eexists. split; [vm_compute; reflexivity |]. repeat split. Qed.



(** A monthly plan whose day does not exist in a later month is not
    built: the step from January 31 raises. *)
Lemma monthly_step_from_day_31_raises :
  ConversationService._create_payment_plan (py := RefPython.ref_python)
    (Examples.clock_at Examples.tuesday_morning) Examples.loan
    Examples.conversation
    (StructuredPlan.mk PlanType.INSTALLMENT (PyFloat.of_Z 200) (Some 2)
       (Some "2026-01-31") (Some "monthly"))
    Examples.db
  = Raise (ValueError "day is out of range for month").
Proof. vm_compute. reflexivity. Qed.

(** C9. The plan row built from six installments of 200 records 200 as
    its total amount, while its count times its installment amount is
    1200: the row takes both its total and its installment amount from
    the single [amount] of the proposal. *)
Theorem installment_plan_total_is_one_installment :
  exists payment_plan : PaymentPlan.t,
    ConversationService.new_payment_plan (py := RefPython.ref_python)
      (Examples.clock_at Examples.tuesday_morning) Examples.loan
      Examples.conversation Examples.installment_6x200 Examples.db
    = Ok payment_plan
    /\ PaymentPlan.number_of_installments payment_plan = 6
    /\ PaymentPlan.installment_amount payment_plan = PyFloat.of_Z 200
    /\ PaymentPlan.total_amount payment_plan = PyFloat.of_Z 200
    /\ PyFloat.mul (PyFloat.of_Z (PaymentPlan.number_of_installments payment_plan))
         (PaymentPlan.installment_amount payment_plan)
       = PyFloat.of_Z 1200
    /\ PyFloat.eqb (PyFloat.of_Z 1200) (PaymentPlan.total_amount payment_plan) = false.
Proof.
  eexists. split; [vm_compute; reflexivity |].
  repeat split; vm_compute; reflexivity.
Qed.

(** ** Identity verification *)

Section IdentityVerifier.
Import ConversationService.
Context `{py : Python}.

(** Closes the conjuncts of one case of [verify_identity]. *)
Ltac verify_case :=
  repeat split; intros;
  repeat match goal with
         | H : Ok _ = Ok _ |- _ => injection H as <-
         | H : Raise _ = Ok _ |- _ => discriminate H
         end;
  unfold _escalate_conversation; simpl in *;
  first [reflexivity | lia | (left; reflexivity) | (right; reflexivity)].

(** An assignment to the found conversation that keeps its identifier
    leaves it the one that is found. *)
Lemma first_after_assignment (conversation_id : string)
    (l : list Conversation.t) (i : nat) (c c' : Conversation.t) :
  first (Spec.has_id conversation_id) l = Some (i, c) ->
  Conversation.conversation_id c' = Conversation.conversation_id c ->
  first (Spec.has_id conversation_id) (<[i := c']> l) = Some (i, c').
Proof.
  unfold first. intros Hfound Hid.
  apply list_find_Some in Hfound as (Hi & Hc & Hbefore).
  apply list_find_Some. split; [| split].
  - apply list_lookup_insert_eq. eapply lookup_lt_Some. exact Hi.
  - unfold Spec.has_id in *. rewrite Hid. exact Hc.
  - intros j y Hj Hlt. rewrite list_lookup_insert_ne in Hj by lia.
    exact (Hbefore j y Hj Hlt).
Qed.

(** What one call does to the conversation it finds. *)
Lemma verify_identity_found (self : t) (clock : Clock) (conversation_id : string)
    (verification_data : gmap string string) (db : Session)
    (i : nat) (c : Conversation.t) :
  first (Spec.has_id conversation_id) (conversations (rows db)) = Some (i, c) ->
  exists (c' : Conversation.t) (r : res VerificationResult.t) (db' : Session),
    verify_identity self clock conversation_id verification_data db = (db', r)
    /\ rows db' = set_conversations (<[i := c']> (conversations (rows db))) (rows db)
    /\ (durable db' = durable db \/ durable db' = rows db')
    /\ Conversation.conversation_id c' = Conversation.conversation_id c
    /\ Conversation.verification_attempts c
       <= Conversation.verification_attempts c'
       <= Conversation.verification_attempts c + 1
    /\ (max_verification_attempts self <= Conversation.verification_attempts c ->
        r = Ok Spec.locked_result
        /\ c' = _escalate_conversation clock
                  "Maximum verification attempts exceeded" c
        /\ durable db' = rows db')
    /\ (Conversation.verification_attempts c < max_verification_attempts self ->
        forall v, r = Ok v ->
          Conversation.verification_attempts c'
          = Conversation.verification_attempts c + 1
          /\ VerificationResult.attempts_remaining v
             = max_verification_attempts self
               - (Conversation.verification_attempts c + 1)
          /\ durable db' = rows db').
Proof.
  intros Hfound. unfold verify_identity. fold (Spec.has_id conversation_id).
  rewrite Hfound.
  pose proof Hfound as Hi. unfold first in Hi.
  apply list_find_Some in Hi as (Hi & _ & _).
  destruct (max_verification_attempts self <=? Conversation.verification_attempts c)
    eqn:Hmax; [apply Z.leb_le in Hmax | apply Z.leb_gt in Hmax].
  - eexists _, _, _. split; [reflexivity |]. simpl. verify_case.
  - destruct (verification_passed verification_data _ _) as [passed | e].
    + destruct passed;
        (destruct (snd <$> first (fun b : Borrower.t =>
                                    Borrower.id b =? Conversation.borrower_id c)
                                 (borrowers (rows db))) as [borrower |];
         [destruct (snd <$> first (fun l : Loan.t =>
                                     Loan.id l =? Conversation.loan_id c)
                                  (loans (rows db))) as [loan |] |]);
        (eexists _, _, _; split; [reflexivity |]; simpl;
         rewrite ?list_insert_insert_eq; verify_case).
    + exists c. eexists _, _. split; [reflexivity |].
      rewrite (list_insert_id _ _ _ Hi). destruct db as [[] ?]. simpl.
      verify_case.
Qed.

End IdentityVerifier.

Section VerificationSequences.
Import ConversationService.
Context `{py : Python}.

(** After [k] calls that all return, the counter has moved up by [k] or
    has reached the maximum. *)
Lemma attempts_after_returns (self : t) (conversation_id : string)
    (calls : list (Clock * gmap string string)) :
  forall (db : Session) (i : nat) (c : Conversation.t),
    first (Spec.has_id conversation_id) (conversations (rows db)) = Some (i, c) ->
    Forall Spec.is_failure
      (snd (Spec.verify_each self (Spec.calls_on conversation_id calls) db)) ->
    exists c',
      first (Spec.has_id conversation_id)
        (conversations (rows (fst (Spec.verify_each self
                                     (Spec.calls_on conversation_id calls) db))))
      = Some (i, c')
      /\ Z.min (max_verification_attempts self)
               (Conversation.verification_attempts c + Z.of_nat (length calls))
         <= Conversation.verification_attempts c'.
Proof.
  induction calls as [| [clock data] calls IH]; intros db i c Hfound Hall.
  - exists c. split; [exact Hfound |]. simpl. lia.
  - simpl in *.
    destruct (verify_identity_found self clock conversation_id data db i c Hfound)
      as (c1 & r & db1 & Hcall & Hrows & _ & Hid & Hrange & Hlocked & Hcounted).
    rewrite Hcall in *.
    destruct (Spec.verify_each self (Spec.calls_on conversation_id calls) db1)
      as [db2 rs] eqn:Hrest.
    simpl in *. inversion Hall as [| ? ? [v [Hr _]] Hrs]; subst.
    assert (Hfound1 : first (Spec.has_id conversation_id) (conversations (rows db1))
                      = Some (i, c1)).
    { rewrite Hrows. simpl. apply (first_after_assignment _ _ _ c); assumption. }
    specialize (IH db1 i c1 Hfound1). rewrite Hrest in IH. simpl in IH.
    destruct (IH Hrs) as (c' & Hfound' & Hmin).
    exists c'. split; [exact Hfound' |].
    destruct (Z.le_gt_cases (max_verification_attempts self)
                (Conversation.verification_attempts c)) as [Hge | Hlt].
    + lia.
    + destruct (Hcounted ltac:(lia) v eq_refl) as (Hinc & _). lia.
Qed.

(** Once the counter has reached the maximum, every call is answered by
    the locked result and leaves the conversation escalated and
    committed. *)
Lemma locked_from_then_on (self : t) (conversation_id : string)
    (calls : list (Clock * gmap string string)) :
  forall (db : Session) (i : nat) (c : Conversation.t),
    first (Spec.has_id conversation_id) (conversations (rows db)) = Some (i, c) ->
    max_verification_attempts self <= Conversation.verification_attempts c ->
    Forall (fun r => r = Ok Spec.locked_result)
      (snd (Spec.verify_each self (Spec.calls_on conversation_id calls) db))
    /\ (calls <> [] ->
        exists c',
          first (Spec.has_id conversation_id)
            (conversations (rows (fst (Spec.verify_each self
                                         (Spec.calls_on conversation_id calls) db))))
          = Some (i, c')
          /\ Conversation.state c' = ConversationState.ESCALATED
          /\ durable (fst (Spec.verify_each self
                             (Spec.calls_on conversation_id calls) db))
             = rows (fst (Spec.verify_each self
                            (Spec.calls_on conversation_id calls) db))).
Proof.
  induction calls as [| [clock data] calls IH]; intros db i c Hfound Hmax.
  - split; [constructor | congruence].
  - simpl.
    destruct (verify_identity_found self clock conversation_id data db i c Hfound)
      as (c1 & r & db1 & Hcall & Hrows & _ & Hid & Hrange & Hlocked & _).
    rewrite Hcall.
    destruct (Hlocked Hmax) as (-> & Hc1 & Hcommitted).
    assert (Hfound1 : first (Spec.has_id conversation_id) (conversations (rows db1))
                      = Some (i, c1)).
    { rewrite Hrows. simpl. apply (first_after_assignment _ _ _ c); assumption. }
    specialize (IH db1 i c1 Hfound1 ltac:(lia)).
    destruct (Spec.verify_each self (Spec.calls_on conversation_id calls) db1)
      as [db2 rs] eqn:Hrest.
    simpl in *. destruct IH as [Hall Hlast].
    split; [constructor; [reflexivity | exact Hall] |].
    intros _. destruct calls as [| call calls].
    + simpl in Hrest. injection Hrest as <- <-.
      exists c1. split; [exact Hfound1 |]. split; [| exact Hcommitted].
      rewrite Hc1. reflexivity.
    + apply Hlast. discriminate.
Qed.

End VerificationSequences.

(** C2. On a conversation whose counter starts at zero or above, once as
    many consecutive calls as the maximum allows have failed, every later
    call returns the locked result, not verified and with no attempt
    remaining, so none returns verified; and the first of them already
    leaves the conversation escalated, with the change committed. *)
Theorem locked_after_max_failures `{py : Python}
    (self : ConversationService.t) (conversation_id : string)
    (db : Session) (c : Conversation.t)
    (failures later : list (Clock * gmap string string)) :
  Spec.conversation_of conversation_id (rows db) = Some c ->
  0 <= Conversation.verification_attempts c ->
  Z.of_nat (length failures) = ConversationService.max_verification_attempts self ->
  Forall Spec.is_failure
    (snd (Spec.verify_each self (Spec.calls_on conversation_id failures) db)) ->
  let db1 := fst (Spec.verify_each self (Spec.calls_on conversation_id failures) db) in
  let after := Spec.verify_each self (Spec.calls_on conversation_id later) db1 in
  Forall (fun r => r = Ok Spec.locked_result) (snd after)
  /\ (later <> [] ->
      exists c',
        Spec.conversation_of conversation_id (rows (fst after)) = Some c'
        /\ Conversation.state c' = ConversationState.ESCALATED
        /\ durable (fst after) = rows (fst after)).
Proof.
  intros Hfound Hstart Hcount Hfailed db1 after.
  unfold Spec.conversation_of in Hfound.
  destruct (first (Spec.has_id conversation_id) (conversations (rows db)))
    as [[i c0] |] eqn:Hfirst; [| discriminate Hfound].
  injection Hfound as ->.
  destruct (attempts_after_returns self conversation_id failures db i c Hfirst Hfailed)
    as (c1 & Hfound1 & Hmin).
  fold db1 in Hfound1.
  assert (Hmax : ConversationService.max_verification_attempts self
                 <= Conversation.verification_attempts c1) by lia.
  destruct (locked_from_then_on self conversation_id later db1 i c1 Hfound1 Hmax)
    as [Hall Hlast].
  split; [exact Hall |].
  intros Hlater. destruct (Hlast Hlater) as (c' & Hfound' & Hstate & Hcommitted).
  exists c'. unfold Spec.conversation_of. subst after.
  rewrite Hfound'. auto.
Qed.

(** Three wrong answers, then the right ones: the fourth call is locked. *)
Lemma locked_after_max_failures_witness :
  let failures :=
    replicate 3 (Examples.clock_at Examples.tuesday_morning, Examples.wrong_ssn) in
  let right_answers : gmap string string :=
    {["last_four_ssn" := "1234"; "last_payment_amount" := "300.00"]} in
  let db1 :=
    fst (Spec.verify_each (py := RefPython.ref_python)
           ConversationService.conversation_service
           (Spec.calls_on "s1" failures) Examples.db) in
  let after :=
    Spec.verify_each (py := RefPython.ref_python)
      ConversationService.conversation_service
      (Spec.calls_on "s1" [(Examples.clock_at Examples.tuesday_morning, right_answers)])
      db1 in
  Forall (fun r => r = Ok Spec.locked_result) (snd after)
  /\ ([(Examples.clock_at Examples.tuesday_morning, right_answers)] <> [] ->
      exists c',
        Spec.conversation_of "s1" (rows (fst after)) = Some c'
        /\ Conversation.state c' = ConversationState.ESCALATED
        /\ durable (fst after) = rows (fst after)).
Proof.
  intros failures right_answers.
  apply (locked_after_max_failures (py := RefPython.ref_python)
           ConversationService.conversation_service "s1" Examples.db
           Examples.conversation failures
           [(Examples.clock_at Examples.tuesday_morning, right_answers)]).
  - reflexivity.
  - simpl. lia.
  - reflexivity.
  - vm_compute. repeat constructor; eexists; split; reflexivity.
Defined.

Section AttemptsInvariant.
Import ConversationService.
Context `{py : Python}.

Lemma verify_identity_keeps_bound (self : t) (clock : Clock)
    (conversation_id : string) (verification_data : gmap string string)
    (db : Session) :
  Spec.attempts_bounded self (rows db) ->
  Spec.attempts_bounded self (durable db) ->
  let db' := fst (verify_identity self clock conversation_id verification_data db) in
  Spec.attempts_bounded self (rows db') /\ Spec.attempts_bounded self (durable db').
Proof.
  intros Hrows Hdurable.
  destruct (first (Spec.has_id conversation_id) (conversations (rows db)))
    as [[i c] |] eqn:Hfirst.
  - destruct (verify_identity_found self clock conversation_id verification_data
                db i c Hfirst)
      as (c' & r & db' & Hcall & Hrows' & Hdurable' & _ & Hrange & Hlocked & _).
    rewrite Hcall. simpl.
    assert (Hc : Conversation.verification_attempts c
                 <= max_verification_attempts self).
    { unfold first in Hfirst. apply list_find_Some in Hfirst as (Hi & _ & _).
      unfold Spec.attempts_bounded in Hrows.
      rewrite Forall_lookup in Hrows. exact (Hrows i c Hi). }
    assert (Hc' : Conversation.verification_attempts c'
                  <= max_verification_attempts self).
    { destruct (Z.le_gt_cases (max_verification_attempts self)
                  (Conversation.verification_attempts c)) as [Hge | Hlt].
      - destruct (Hlocked Hge) as (_ & -> & _). simpl. exact Hc.
      - lia. }
    assert (Hnew : Spec.attempts_bounded self (rows db')).
    { unfold Spec.attempts_bounded. rewrite Hrows'. simpl.
      apply Forall_insert; assumption. }
    split; [exact Hnew |].
    destruct Hdurable' as [-> | ->]; assumption.
  - unfold verify_identity. fold (Spec.has_id conversation_id).
    rewrite Hfirst. simpl. split; assumption.
Qed.

End AttemptsInvariant.

(** C8. Whatever calls of identity verification are made, on whatever
    conversations and with whatever data, no conversation's attempt
    counter is ever above the maximum if none was at the start: neither
    in the open session nor among the committed rows. *)
Theorem attempts_never_exceed_maximum `{py : Python}
    (self : ConversationService.t) (calls : list Spec.VerifyCall) (db : Session) :
  Spec.attempts_bounded self (rows db) ->
  Spec.attempts_bounded self (durable db) ->
  Spec.attempts_bounded self (rows (fst (Spec.verify_each self calls db)))
  /\ Spec.attempts_bounded self (durable (fst (Spec.verify_each self calls db))).
Proof.
  revert db. induction calls as [| call calls IH]; intros db Hrows Hdurable.
  - split; assumption.
  - simpl.
    pose proof (verify_identity_keeps_bound self (Spec.call_clock call)
                  (Spec.call_conversation_id call) (Spec.call_data call) db
                  Hrows Hdurable) as Hstep.
    destruct (ConversationService.verify_identity self (Spec.call_clock call)
                (Spec.call_conversation_id call) (Spec.call_data call) db)
      as [db1 r].
    simpl in Hstep. destruct Hstep as [Hrows1 Hdurable1].
    specialize (IH db1 Hrows1 Hdurable1).
    destruct (Spec.verify_each self calls db1) as [db2 rs]. exact IH.
Qed.

(** Five wrong answers on the example conversation. *)
Lemma attempts_never_exceed_maximum_witness :
  let calls :=
    Spec.calls_on "s1"
      (replicate 5 (Examples.clock_at Examples.tuesday_morning, Examples.wrong_ssn)) in
  let db' :=
    fst (Spec.verify_each (py := RefPython.ref_python)
           ConversationService.conversation_service calls Examples.db) in
  Spec.attempts_bounded ConversationService.conversation_service (rows db')
  /\ Spec.attempts_bounded ConversationService.conversation_service (durable db').
Proof.
  intros calls.
  apply (attempts_never_exceed_maximum (py := RefPython.ref_python)
           ConversationService.conversation_service calls Examples.db).
  - repeat constructor. simpl. lia.
  - repeat constructor. simpl. lia.
Defined.

(** After five failing calls the counter of the example stands at three. *)
Lemma counter_stops_at_three :
  Conversation.verification_attempts
  <$> Spec.conversation_of "s1"
        (rows (fst (Spec.verify_each (py := RefPython.ref_python)
                      ConversationService.conversation_service
                      (Spec.calls_on "s1"
                         (replicate 5 (Examples.clock_at Examples.tuesday_morning,
                                       Examples.wrong_ssn)))
                      Examples.db)))
  = Some 3.
Proof. vm_compute. reflexivity. Qed.

(** ** The blocked turn *)

Section BlockedTurn.
Import ConversationService.
Context `{py : Python}.

(** What [_get_or_create_conversation] does to the session: nothing is
    committed, and either the last activity of the found conversation is
    refreshed or a new conversation is flushed. *)
Lemma get_or_create_effect (clock : Clock) (uuid4 : string) (loan_id : Z)
    (session_id : string) (channel : ConversationChannel.t)
    (db db1 : Session) (i : nat) (conversation : Conversation.t) :
  _get_or_create_conversation clock uuid4 loan_id session_id channel db
  = Ok (db1, (i, conversation)) ->
  durable db1 = durable db
  /\ rows db1 = set_conversations (conversations (rows db1)) (rows db)
  /\ Conversation.state conversation <> ConversationState.OPTED_OUT
  /\ ((exists c,
         conversations (rows db) !! i = Some c
         /\ conversation = Conversation.set_last_activity (utcnow clock) c
         /\ conversations (rows db1) = <[i := conversation]> (conversations (rows db)))
      \/ (conversations (rows db1) = conversations (rows db) ++ [conversation]
          /\ Conversation.state conversation = ConversationState.INITIATED
          /\ Conversation.verification_attempts conversation = 0)).
Proof.
  unfold _get_or_create_conversation. intros H.
  destruct (first _ (conversations (rows db))) as [[i0 c] |] eqn:Hfound.
  - injection H as <- <- <-. simpl.
    unfold first in Hfound. apply list_find_Some in Hfound as (Hi & Hp & _).
    repeat (apply andb_true_iff in Hp as [Hp ?]).
    repeat split.
    + intros Hstate.
      match goal with
      | Hn : negb (bool_decide (Conversation.state c ∈ _)) = true |- _ =>
          apply negb_true_iff, bool_decide_eq_false in Hn; apply Hn
      end.
      rewrite Hstate. apply list_elem_of_In. right. left. reflexivity.
    + left. exists c. repeat split. exact Hi.
  - destruct (first _ (loans (rows db))) as [[j loan] |]; [| discriminate H].
    destruct (existsb _ _); [discriminate H |].
    injection H as <- <- <-. simpl.
    repeat split; [discriminate |]. right. repeat split.
Qed.

End BlockedTurn.

(** C4, as stated, fails: the turn of an opted-out borrower on an
    existing conversation is blocked by the gate, and the session comes
    back with the conversation's last activity moved from 2025-11-03 to
    the time of the turn; the committed rows keep the old value. *)
Lemma blocked_turn_refreshes_last_activity :
  let clock := Examples.clock_at Examples.tuesday_morning in
  let refreshed :=
    Conversation.set_last_activity Examples.tuesday_morning Examples.conversation in
  let db1 := store_conversation 0 refreshed Examples.opted_out_db in
  Spec.gate_blocks (py := RefPython.ref_python)
    ComplianceService.compliance_service clock "fresh-uuid" 1 "s1"
    ConversationChannel.CHAT Examples.opted_out_db db1 refreshed
    (Some "Borrower has opted out of communications")
  /\ ConversationService.process_message (py := RefPython.ref_python) default_env
       ComplianceService.compliance_service ConversationService.conversation_service
       clock "fresh-uuid" (fun _ _ => Raise TypeError) "hello" 1 "s1"
       ConversationChannel.CHAT Examples.opted_out_db
     = (db1,
        Ok (ConversationService._create_compliance_blocked_response "s1"
              "Borrower has opted out of communications"))
  /\ Conversation.last_activity <$> conversations (rows Examples.opted_out_db)
     = [Examples.at_date 2025 11 3]
  /\ Conversation.last_activity <$> conversations (rows db1)
     = [Examples.tuesday_morning]
  /\ Conversation.last_activity <$> conversations (durable db1)
     = [Examples.at_date 2025 11 3].
Proof.
  intros clock refreshed db1. split; [| repeat split; vm_compute; reflexivity].
  exists 0%nat, 0%nat, 0%nat, Examples.loan, Examples.opted_out_borrower.
  repeat split; vm_compute; reflexivity.
Qed.

(** Hence a blocked turn does not leave the session as it was. *)
Lemma blocked_turn_changes_the_session : ~ Spec.blocked_turn_changes_nothing.
Proof.
  intros H.
  specialize (H RefPython.ref_python default_env ComplianceService.compliance_service
                ConversationService.conversation_service
                (Examples.clock_at Examples.tuesday_morning) "fresh-uuid"
                (fun _ _ => Raise TypeError) "hello" 1 "s1"
                ConversationChannel.CHAT Examples.opted_out_db
                (store_conversation 0
                   (Conversation.set_last_activity Examples.tuesday_morning
                      Examples.conversation)
                   Examples.opted_out_db)
                (Conversation.set_last_activity Examples.tuesday_morning
                   Examples.conversation)
                (Some "Borrower has opted out of communications")).
  assert (Hblocked :
    Spec.gate_blocks (py := RefPython.ref_python)
      ComplianceService.compliance_service
      (Examples.clock_at Examples.tuesday_morning) "fresh-uuid" 1 "s1"
      ConversationChannel.CHAT Examples.opted_out_db
      (store_conversation 0
         (Conversation.set_last_activity Examples.tuesday_morning
            Examples.conversation)
         Examples.opted_out_db)
      (Conversation.set_last_activity Examples.tuesday_morning
         Examples.conversation)
      (Some "Borrower has opted out of communications")).
  { exists 0%nat, 0%nat, 0%nat, Examples.loan, Examples.opted_out_borrower.
    repeat split; vm_compute; reflexivity. }
  specialize (H Hblocked).
  apply (f_equal (fun s => Conversation.last_activity <$> conversations (rows s))) in H.
  vm_compute in H. discriminate H.
Qed.

(** C4, amended. In every turn that the gate blocks, the blocked response
    is returned, built from the conversation identifier and the gate's
    reason, and nothing is committed: the durable rows are those from
    before the turn. Inside the open session no message is recorded and
    no borrower, loan, plan or schedule row changes; as for the
    conversations, either the one of the turn existed and only its last
    activity was refreshed, before the gate ran, or it is a new row that
    was flushed and is not durable. *)
Theorem blocked_turn_commits_nothing `{py : Python}
    (env : Env) (compliance_service : ComplianceService.t)
    (self : ConversationService.t) (clock : Clock) (uuid4 : string)
    (generator : string -> ConversationContext.t -> res AssistantResponse.t)
    (user_message : string) (loan_id : Z) (session_id : string)
    (channel : ConversationChannel.t) (db db1 : Session)
    (conversation : Conversation.t) (reason : option string) :
  Spec.gate_blocks compliance_service clock uuid4 loan_id session_id channel
    db db1 conversation reason ->
  ConversationService.process_message env compliance_service self clock uuid4
    generator user_message loan_id session_id channel db
  = (db1,
     Ok (ConversationService._create_compliance_blocked_response
           (Conversation.conversation_id conversation) (default "None" reason)))
  /\ durable db1 = durable db
  /\ messages (rows db1) = messages (rows db)
  /\ borrowers (rows db1) = borrowers (rows db)
  /\ loans (rows db1) = loans (rows db)
  /\ payment_plans (rows db1) = payment_plans (rows db)
  /\ scheduled_payments (rows db1) = scheduled_payments (rows db)
  /\ ((exists (i : nat) (c : Conversation.t),
         conversations (rows db) !! i = Some c
         /\ conversation = Conversation.set_last_activity (utcnow clock) c
         /\ conversations (rows db1)
            = <[i := conversation]> (conversations (rows db)))
      \/ (conversations (rows db1) = conversations (rows db) ++ [conversation]
          /\ Conversation.state conversation = ConversationState.INITIATED)).
Proof.
  intros (i & j & k & loan & borrower & Hconv & Hloan & Hborrower & Hgate).
  destruct (get_or_create_effect clock uuid4 loan_id session_id channel db db1 i
              conversation Hconv) as (Hdurable & Hrows & Hstate & Hconvs).
  split.
  - unfold ConversationService.process_message,
      ConversationService.process_message_try.
    rewrite Hconv. unfold mbind, res_bind, mret, res_ret. cbn [bind].
    rewrite bool_decide_eq_false_2 by exact Hstate.
    rewrite Hloan, Hborrower, Hgate. reflexivity.
  - split; [exact Hdurable |].
    rewrite Hrows. simpl. repeat (split; [reflexivity |]).
    destruct Hconvs as [(c & Hi & Hc & Hl) | (Hl & Hs & _)].
    + left. exists i, c. auto.
    + right. auto.
Qed.

(** The first message of a new session, on a Sunday. *)
Lemma blocked_turn_commits_nothing_witness :
  let clock := Examples.clock_at Examples.sunday_morning in
  let conversation :=
    Conversation.mk 1 "s2" 1 1 ConversationState.INITIATED "chat" (Some ∅)
      false 0 Examples.sunday_morning None None Examples.sunday_morning in
  let db1 :=
    with_rows Examples.empty_db
      (set_conversations [conversation] (rows Examples.empty_db)) in
  ConversationService.process_message (py := RefPython.ref_python) default_env
    ComplianceService.compliance_service ConversationService.conversation_service
    clock "fresh-uuid" (fun _ _ => Raise TypeError) "hello" 1 "s2"
    ConversationChannel.CHAT Examples.empty_db
  = (db1,
     Ok (ConversationService._create_compliance_blocked_response "s2"
           "Contact not allowed on Sundays"))
  /\ durable db1 = durable Examples.empty_db
  /\ messages (rows db1) = [].
Proof.
  intros clock conversation db1.
  destruct (blocked_turn_commits_nothing (py := RefPython.ref_python) default_env
              ComplianceService.compliance_service
              ConversationService.conversation_service clock "fresh-uuid"
              (fun _ _ => Raise TypeError) "hello" 1 "s2"
              ConversationChannel.CHAT Examples.empty_db db1 conversation
              (Some "Contact not allowed on Sundays"))
    as (Hresult & Hdurable & Hmessages & _).
  - exists 0%nat, 0%nat, 0%nat, Examples.loan, Examples.borrower.
    repeat split; vm_compute; reflexivity.
  - split; [exact Hresult |]. split; [exact Hdurable | exact Hmessages].
Defined.

(** * Further properties of the services *)

(** ** Strings *)

Section StringFacts.

Lemma lower_app (a b : string) :
  PyStr.lower (a +:+ b) = PyStr.lower a +:+ PyStr.lower b.
Proof. induction a as [| c a IH]; simpl; [reflexivity | rewrite IH; reflexivity]. Qed.

Lemma prefix_app (w s : string) : String.prefix w (w +:+ s) = true.
Proof.
  induction w as [| c w IH]; simpl.
  - destruct s; reflexivity.
  - destruct (ascii_dec c c) as [_ | Hne]; [exact IH | congruence].
Qed.

Lemma contains_prefix (w s : string) :
  String.prefix w s = true -> PyStr.contains w s = true.
Proof.
  intros H. destruct s as [| c t]; cbn [PyStr.contains]; [exact H |].
  rewrite H. reflexivity.
Qed.

Lemma contains_here (w s : string) : PyStr.contains w (w +:+ s) = true.
Proof. apply contains_prefix, prefix_app. Qed.

Lemma contains_later (w p s : string) :
  PyStr.contains w s = true -> PyStr.contains w (p +:+ s) = true.
Proof.
  intros H. induction p as [| c p IH]; simpl; [exact H |].
  rewrite IH. apply orb_true_r.
Qed.

Lemma contains_inside (w before after : string) :
  PyStr.contains w (before +:+ w +:+ after) = true.
Proof. apply contains_later, contains_here. Qed.

End StringFacts.

(** ** The response validator, continued *)

(** X1. Validating twice is validating once: what the validator returns
    is returned unchanged when it is validated again in the same
    context. *)
Theorem validate_response_idempotent (env : Env)
    (response : AssistantResponse.t) (ctx : ConversationContext.t) :
  LLMService._validate_response env
    (LLMService._validate_response env response ctx) ctx
  = LLMService._validate_response env response ctx.
Proof.
  destruct (AssistantResponse.escalation response) eqn:Hesc.
  - rewrite (validate_response_unchanged env response ctx) by (right; exact Hesc).
    apply validate_response_unchanged. right. exact Hesc.
  - destruct (decide (LLMService.validation_errors env response ctx = []))
      as [Hnone | Hsome].
    + rewrite (validate_response_unchanged env response ctx) by (left; exact Hnone).
      apply validate_response_unchanged. left. exact Hnone.
    + rewrite (validate_response_forced env response ctx Hsome Hesc).
      apply validate_response_unchanged. right. reflexivity.
Qed.

Section CleanReplies.
Import AssistantResponse LLMService.

Lemma no_prohibited_word (response : AssistantResponse.t)
    (ctx : ConversationContext.t) (w : string) :
  _check_compliance response ctx = [] ->
  w ∈ prohibited_words ->
  PyStr.contains w (PyStr.lower (message_to_user response)) = false.
Proof.
  unfold _check_compliance. intros H Hw.
  apply app_eq_nil in H as [_ H].
  destruct (PyStr.contains w (PyStr.lower (message_to_user response))) eqn:Hc;
    [| reflexivity].
  assert (Hin : "Prohibited language detected: " +:+ w
                ∈ omap (fun word =>
                          if PyStr.contains word (PyStr.lower (message_to_user response))
                          then Some ("Prohibited language detected: " +:+ word)
                          else None) prohibited_words).
  { apply list_elem_of_omap. exists w. split; [exact Hw |]. rewrite Hc. reflexivity. }
  rewrite H in Hin. apply elem_of_nil in Hin. destruct Hin.
Qed.

Lemma prohibited_word_found (response : AssistantResponse.t)
    (ctx : ConversationContext.t) (w : string) :
  w ∈ prohibited_words ->
  PyStr.contains w (PyStr.lower (message_to_user response)) = true ->
  "Prohibited language detected: " +:+ w ∈ _check_compliance response ctx.
Proof.
  intros Hw Hc. unfold _check_compliance. apply elem_of_app. right.
  apply list_elem_of_omap. exists w. split; [exact Hw |]. rewrite Hc. reflexivity.
Qed.

End CleanReplies.

(** X2. A reply that leaves [process_conversation] without the escalation
    flag is the generated proposal itself and breaks no rule: it holds
    none of the prohibited words in any letter case; in a conversation
    that is not verified, with an action that informs, collects or
    proposes, it mentions neither "balance" nor "$"; and its plan, if it
    has one, passes the plan validation. *)
Theorem unescalated_reply_is_clean (env : Env)
    (generated : res AssistantResponse.t) (ctx : ConversationContext.t) :
  let out := LLMService.process_conversation env generated ctx in
  AssistantResponse.escalation out = false ->
  generated = Ok out
  /\ LLMService.validation_errors env out ctx = []
  /\ (forall w, w ∈ LLMService.prohibited_words ->
        PyStr.contains w (PyStr.lower (AssistantResponse.message_to_user out))
        = false)
  /\ (ConversationContext.identity_verified ctx = false ->
      AssistantResponse.action out
      ∈ [ActionType.INFORM; ActionType.COLLECT_PAYMENT; ActionType.PROPOSE_PLAN] ->
      PyStr.contains "balance" (PyStr.lower (AssistantResponse.message_to_user out))
      = false
      /\ PyStr.contains "$" (AssistantResponse.message_to_user out) = false)
  /\ (forall plan, AssistantResponse.structured_plan out = Some plan ->
        LLMService._validate_payment_plan env plan = []).
Proof.
  intros out Hesc. subst out.
  destruct generated as [response | e]; [| discriminate Hesc].
  simpl in *.
  destruct (decide (LLMService.validation_errors env response ctx = []))
    as [Hnone | Hsome].
  - rewrite (validate_response_unchanged env response ctx) in * by (left; exact Hnone).
    pose proof Hnone as Herr. unfold LLMService.validation_errors in Herr.
    apply app_eq_nil in Herr as [Hplan Hcomp].
    split; [reflexivity |]. split; [exact Hnone |].
    split; [intros w Hw; exact (no_prohibited_word response ctx w Hcomp Hw) |].
    split.
    + intros Hver Hact. unfold LLMService._check_compliance in Hcomp.
      apply app_eq_nil in Hcomp as [Hid _].
      rewrite Hver, bool_decide_eq_true_2 in Hid by exact Hact. simpl in Hid.
      destruct (PyStr.contains "balance" _ || PyStr.contains "$" _) eqn:Hor;
        [discriminate Hid |].
      apply orb_false_iff in Hor. exact Hor.
    + intros plan Hp. rewrite Hp in Hplan. exact Hplan.
  - destruct (AssistantResponse.escalation response) eqn:Hflag.
    + rewrite (validate_response_unchanged env response ctx) in Hesc
        by (right; exact Hflag). congruence.
    + rewrite (validate_response_forced env response ctx Hsome Hflag) in Hesc.
      discriminate Hesc.
Qed.

(** A clean reply in a verified conversation. *)
Lemma unescalated_reply_is_clean_witness :
  Ok (LLMService.process_conversation default_env (Ok MoreExamples.clean_reply)
        Examples.verified_context)
  = Ok MoreExamples.clean_reply
  /\ forall w, w ∈ LLMService.prohibited_words ->
       PyStr.contains w
         (PyStr.lower (AssistantResponse.message_to_user MoreExamples.clean_reply))
       = false.
Proof.
  destruct (unescalated_reply_is_clean default_env (Ok MoreExamples.clean_reply)
              Examples.verified_context eq_refl) as (Hout & _ & Hwords & _).
  split; [symmetry; exact Hout | exact Hwords].
Defined.

(** X3. The search for prohibited words is a search for substrings,
    blind to letter case: a proposal whose text holds one of the six
    words anywhere, inside a longer word and in any mix of cases, and
    whose escalation flag is false, is replaced by the hand-off. *)
Theorem prohibited_word_anywhere_escalates (env : Env)
    (response : AssistantResponse.t) (ctx : ConversationContext.t)
    (before word after : string) :
  PyStr.lower word ∈ LLMService.prohibited_words ->
  AssistantResponse.message_to_user response = before +:+ word +:+ after ->
  AssistantResponse.escalation response = false ->
  let out := LLMService._validate_response env response ctx in
  "Prohibited language detected: " +:+ PyStr.lower word
  ∈ LLMService.validation_errors env response ctx
  /\ AssistantResponse.action out = ActionType.ESCALATE
  /\ AssistantResponse.escalation out = true
  /\ AssistantResponse.message_to_user out = LLMService.handoff_message
  /\ AssistantResponse.structured_plan out = None.
Proof.
  intros Hword Hmsg Hesc out.
  assert (Hin : "Prohibited language detected: " +:+ PyStr.lower word
                ∈ LLMService.validation_errors env response ctx).
  { unfold LLMService.validation_errors. apply elem_of_app. right.
    apply prohibited_word_found; [exact Hword |].
    rewrite Hmsg, !lower_app. apply contains_inside. }
  split; [exact Hin |]. subst out.
  rewrite validate_response_forced; [repeat split | | exact Hesc].
  intros Hnil. rewrite Hnil in Hin. apply elem_of_nil in Hin. exact Hin.
Qed.

(** "sue" inside "pursue". *)
Lemma prohibited_word_anywhere_escalates_witness :
  let out := LLMService._validate_response default_env MoreExamples.pursue_reply
               Examples.verified_context in
  "Prohibited language detected: sue"
  ∈ LLMService.validation_errors default_env MoreExamples.pursue_reply
      Examples.verified_context
  /\ AssistantResponse.action out = ActionType.ESCALATE
  /\ AssistantResponse.escalation out = true
  /\ AssistantResponse.message_to_user out = LLMService.handoff_message
  /\ AssistantResponse.structured_plan out = None.
Proof.
  apply (prohibited_word_anywhere_escalates default_env MoreExamples.pursue_reply
           Examples.verified_context "We can pur" "sue" " other options.").
  - vm_compute. apply list_elem_of_In. right. left. reflexivity.
  - reflexivity.
  - reflexivity.
Defined.

(** ** The contact-compliance gate, continued *)

(** X4. The verdict of the gate. When it allows the contact it gives no
    reason and reports exactly the four checks, in the order opt-out,
    contact time, daily frequency, weekly frequency, every one passed:
    the borrower has not opted out and the counts of the day and of the
    last seven days are below their limits. When it blocks it reports no
    check and always gives a reason. *)
Theorem contact_gate_verdict `{py : Python}
    (self : ComplianceService.t) (now : datetime) (borrower : Borrower.t)
    (conversation : Conversation.t) (db : Session) (r : ContactCompliance.t) :
  ComplianceService.check_contact_compliance self now borrower conversation db
  = Ok r ->
  if ContactCompliance.allowed r then
    ContactCompliance.reason r = None
    /\ Borrower.opt_out_date borrower = None
    /\ count (Turn.started_today now borrower) (conversations (rows db))
       < ComplianceService.max_daily_contact_attempts self
    /\ (exists week_start,
          PyDatetime.add_days now (-7) = Ok week_start
          /\ count (Turn.started_since week_start borrower) (conversations (rows db))
             < ComplianceService.max_weekly_contact_attempts self)
    /\ exists c1 c2 c3 c4,
         ContactCompliance.checks r = Some [c1; c2; c3; c4]
         /\ ComplianceCheck.check_name <$> [c1; c2; c3; c4]
            = ["opt_out_status"; "contact_time"; "daily_contact_frequency";
               "weekly_contact_frequency"]
         /\ Forall (fun c => ComplianceCheck.passed c = true) [c1; c2; c3; c4]
  else
    ContactCompliance.checks r = None
    /\ exists reason, ContactCompliance.reason r = Some reason.
Proof.
  unfold ComplianceService.check_contact_compliance. intros H.
  unfold ComplianceService._check_opt_out_status in H.
  destruct (Borrower.opt_out_date borrower) as [d |] eqn:Hopt; simpl in H.
  { injection H as <-. simpl. split; [reflexivity | eexists; reflexivity]. }
  unfold mbind, res_bind, mret, res_ret in H.
  destruct (ComplianceService._check_contact_time self now borrower)
    as [time_check |] eqn:Htime; [| discriminate H].
  cbn [bind] in H.
  destruct (ComplianceCheck.passed time_check) eqn:Htp; simpl in H.
  2:{ injection H as <-. simpl. split; [reflexivity |].
      unfold ComplianceService._check_contact_time in Htime.
      destruct (bool_decide _) in Htime; [injection Htime as <-; eexists; reflexivity |].
      destruct (time_fromisoformat (ComplianceService.contact_hours_start self));
        [| injection Htime as <-; discriminate Htp].
      destruct (time_fromisoformat (ComplianceService.contact_hours_end self));
        [| injection Htime as <-; discriminate Htp].
      unfold mbind, res_bind, mret, res_ret in Htime.
      destruct (PyDatetime.time_le _ _) as [b1 |]; [| discriminate Htime].
      cbn [bind] in Htime.
      destruct (if b1 then _ else _) as [within |]; [| discriminate Htime].
      cbn [bind] in Htime.
      destruct (negb within); injection Htime as <-;
        [eexists; reflexivity | discriminate Htp]. }
  unfold ComplianceService._check_daily_contact_frequency in H.
  fold (Turn.started_today now borrower) in H.
  destruct (ComplianceService.max_daily_contact_attempts self <=? _) eqn:Hdaily;
    simpl in H.
  { injection H as <-. simpl. split; [reflexivity | eexists; reflexivity]. }
  apply Z.leb_gt in Hdaily.
  unfold ComplianceService._check_weekly_contact_frequency in H.
  unfold mbind, res_bind, mret, res_ret in H.
  destruct (PyDatetime.add_days now (-7)) as [week_start |] eqn:Hweek;
    [| discriminate H].
  cbn [bind] in H. fold (Turn.started_since week_start borrower) in H.
  destruct (ComplianceService.max_weekly_contact_attempts self <=? _) eqn:Hweekly;
    cbn [bind] in H; simpl in H.
  { injection H as <-. simpl. split; [reflexivity | eexists; reflexivity]. }
  apply Z.leb_gt in Hweekly.
  injection H as <-. simpl.
  split; [reflexivity |]. split; [reflexivity |]. split; [exact Hdaily |].
  split; [exists week_start; split; [reflexivity | exact Hweekly] |].
  eexists _, _, _, _. split; [reflexivity |].
  assert (Hname : ComplianceCheck.check_name time_check = "contact_time").
  { unfold ComplianceService._check_contact_time in Htime.
    destruct (bool_decide _) in Htime; [injection Htime as <-; reflexivity |].
    destruct (time_fromisoformat (ComplianceService.contact_hours_start self));
      [| injection Htime as <-; reflexivity].
    destruct (time_fromisoformat (ComplianceService.contact_hours_end self));
      [| injection Htime as <-; reflexivity].
    unfold mbind, res_bind, mret, res_ret in Htime.
    destruct (PyDatetime.time_le _ _) as [b1 |]; [| discriminate Htime].
    cbn [bind] in Htime.
    destruct (if b1 then _ else _) as [within |]; [| discriminate Htime].
    cbn [bind] in Htime.
    destruct (negb within); injection Htime as <-; reflexivity. }
  split.
  - simpl. rewrite Hname. reflexivity.
  - repeat constructor; simpl; assumption.
Qed.

(** The example borrower on a Tuesday morning, and on a Sunday. *)
Lemma contact_gate_verdict_witness :
  (exists c1 c2 c3 c4,
     ComplianceService.check_contact_compliance (py := RefPython.ref_python)
       ComplianceService.compliance_service Examples.tuesday_morning
       Examples.borrower Examples.conversation Examples.db
     = Ok (ContactCompliance.mk true None (Some [c1; c2; c3; c4]))
     /\ Forall (fun c => ComplianceCheck.passed c = true) [c1; c2; c3; c4])
  /\ (exists reason,
        ComplianceService.check_contact_compliance (py := RefPython.ref_python)
          ComplianceService.compliance_service Examples.sunday_morning
          Examples.borrower Examples.conversation Examples.db
        = Ok (ContactCompliance.mk false (Some reason) None)).
Proof.
  split.
  - destruct (ComplianceService.check_contact_compliance (py := RefPython.ref_python)
                ComplianceService.compliance_service Examples.tuesday_morning
                Examples.borrower Examples.conversation Examples.db)
      as [r |] eqn:Hr; [| vm_compute in Hr; discriminate Hr].
    pose proof (contact_gate_verdict (py := RefPython.ref_python) _ _ _ _ _ r Hr) as Hv.
    vm_compute in Hr. injection Hr as <-. simpl in Hv.
    destruct Hv as (_ & _ & _ & _ & c1 & c2 & c3 & c4 & Hc & _ & Hall).
    exists c1, c2, c3, c4. split; [| exact Hall].
    injection Hc as <- <- <- <-. reflexivity.
  - destruct (ComplianceService.check_contact_compliance (py := RefPython.ref_python)
                ComplianceService.compliance_service Examples.sunday_morning
                Examples.borrower Examples.conversation Examples.db)
      as [r |] eqn:Hr; [| vm_compute in Hr; discriminate Hr].
    pose proof (contact_gate_verdict (py := RefPython.ref_python) _ _ _ _ _ r Hr) as Hv.
    vm_compute in Hr. injection Hr as <-. simpl in Hv.
    destruct Hv as (_ & reason & Hreason). exists reason.
    injection Hreason as <-. reflexivity.
Defined.

(** ** Plan validation of the compliance service, continued *)

(** X5. Which checks a plan gets is decided by its type alone: a
    settlement plan gets the settlement check, an installment plan gets
    the duration check and then the minimum-payment check, and a plan of
    any other type, a one-time payment included, gets no check at all.
    Every check that fails is of severity error, every check that passes
    of severity info. *)
Theorem plan_checks_by_type `{py : Python}
    (self : ComplianceService.t) (plan_data : gmap string Any)
    (loan_balance : float) (checks : list ComplianceCheck.t) :
  ComplianceService.validate_payment_plan self plan_data loan_balance = Ok checks ->
  ComplianceCheck.check_name <$> checks
  = (if ComplianceService.type_is plan_data "settlement"
     then ["settlement_percentage"]
     else if ComplianceService.type_is plan_data "installment"
          then ["installment_duration"; "minimum_payment"]
          else [])
  /\ Forall (fun c => ComplianceCheck.severity c
                      = if ComplianceCheck.passed c then "info" else "error")
            checks.
Proof.
  unfold ComplianceService.validate_payment_plan. intros H.
  unfold mbind, res_bind, mret, res_ret in H.
  destruct (ComplianceService.type_is plan_data "settlement") eqn:Hs.
  - rewrite (type_is_settlement_not_installment plan_data Hs) in H.
    match type of H with
    | bind (bind ?m _) _ = _ => destruct m as [pct |]; [| discriminate H]
    end.
    cbn [bind] in H.
    destruct (PyAny.gt_num pct _) as [exceeds |]; [| discriminate H].
    cbn [bind] in H.
    destruct exceeds; cbn [bind] in H; injection H as <-;
      (split; [reflexivity | repeat constructor]).
  - cbn [bind] in H.
    destruct (ComplianceService.type_is plan_data "installment").
    + destruct (PyAny.gt_num _ _) as [too_long |]; [| discriminate H].
      cbn [bind] in H.
      destruct (PyAny.lt_num _ _) as [too_small |]; [| discriminate H].
      cbn [bind] in H.
      destruct too_long, too_small; injection H as <-;
        (split; [reflexivity | repeat constructor]).
    + injection H as <-. split; [reflexivity | constructor].
Qed.

(** Eighteen installments of 20: both checks fail, with severity error. *)
Lemma plan_checks_by_type_witness :
  exists c1 c2,
    ComplianceService.validate_payment_plan (py := RefPython.ref_python)
      ComplianceService.compliance_service MoreExamples.long_cheap_data
      (PyFloat.of_Z 1200)
    = Ok [c1; c2]
    /\ ComplianceCheck.check_name <$> [c1; c2]
       = ["installment_duration"; "minimum_payment"]
    /\ ComplianceCheck.passed <$> [c1; c2] = [false; false]
    /\ Forall (fun c => ComplianceCheck.severity c
                        = if ComplianceCheck.passed c then "info" else "error")
              [c1; c2].
Proof.
  eexists _, _. split; [vm_compute; reflexivity |].
  split; [reflexivity |]. split; [reflexivity |].
  apply (plan_checks_by_type (py := RefPython.ref_python)
           ComplianceService.compliance_service MoreExamples.long_cheap_data
           (PyFloat.of_Z 1200)).
  vm_compute. reflexivity.
Defined.

(** ** The turn of [process_message] *)

Section TurnSteps.
Import ConversationService.
Context `{py : Python}.
Variable env : Env.
Variable compliance_service : ComplianceService.t.

(** Building a plan touches the plan and schedule tables only. *)
Lemma create_payment_plan_frame (clock : Clock) (loan : Loan.t)
    (conversation : Conversation.t) (plan : StructuredPlan.t)
    (db db' : Session) (plan_id : Z) :
  _create_payment_plan clock loan conversation plan db = Ok (db', plan_id) ->
  borrowers (rows db') = borrowers (rows db)
  /\ loans (rows db') = loans (rows db)
  /\ conversations (rows db') = conversations (rows db)
  /\ messages (rows db') = messages (rows db)
  /\ durable db' = durable db.
Proof.
  unfold _create_payment_plan. intros H.
  unfold mbind, res_bind, mret, res_ret in H.
  destruct (new_payment_plan clock loan conversation plan db)
    as [payment_plan |]; [| discriminate H].
  cbn [bind] in H.
  destruct (bool_decide _ && truthy_int _).
  - unfold _create_scheduled_payments in H.
    unfold mbind, res_bind, mret, res_ret in H.
    destruct (new_scheduled_payments payment_plan _) as [new |]; [| discriminate H].
    cbn [bind] in H. injection H as <- <-. repeat split.
  - cbn [bind] in H. injection H as <- <-. repeat split.
Qed.

(** What [_handle_assistant_action] does: the conversation is escalated
    or left as it is, no message is written, nothing is committed, and
    the response wraps the reply that was handled. *)
Lemma handle_action_effect (clock : Clock) (reply : AssistantResponse.t)
    (i : nat) (conversation : Conversation.t) (loan : Loan.t)
    (borrower : Borrower.t) (db db2 : Session)
    (conversation2 : Conversation.t) (response : ConversationResponse.t) :
  _handle_assistant_action clock reply i conversation loan borrower db
  = Ok (db2, conversation2, response) ->
  ((AssistantResponse.escalation reply = false
    /\ conversation2 = conversation
    /\ conversations (rows db2) = conversations (rows db))
   \/ (exists metadata,
         AssistantResponse.escalation reply = true
         /\ AssistantResponse.metadata reply = Some metadata
         /\ conversation2
            = _escalate_conversation clock
                (default "LLM requested escalation" (metadata !! "escalation_reason"))
                conversation
         /\ conversations (rows db2)
            = <[i := conversation2]> (conversations (rows db))))
  /\ messages (rows db2) = messages (rows db)
  /\ borrowers (rows db2) = borrowers (rows db)
  /\ loans (rows db2) = loans (rows db)
  /\ durable db2 = durable db
  /\ ConversationResponse.ok response = true
  /\ ConversationResponse.assistant response = reply
  /\ ConversationResponse.conversation_id response
     = Conversation.conversation_id conversation
  /\ ConversationResponse.requires_action response
     = (bool_decide (is_Some (AssistantResponse.structured_plan reply))
        || bool_decide (AssistantResponse.action reply = ActionType.VERIFY_IDENTITY)
        || bool_decide (AssistantResponse.action reply = ActionType.COLLECT_PAYMENT)).
Proof.
  unfold _handle_assistant_action. intros H.
  unfold mbind, res_bind, mret, res_ret in H.
  assert (Hfirst :
    exists dba ca ns,
      (if AssistantResponse.escalation reply
       then match AssistantResponse.metadata reply with
            | Some metadata =>
                Ok (store_conversation i
                      (_escalate_conversation clock
                         (default "LLM requested escalation"
                            (metadata !! "escalation_reason")) conversation) db,
                    _escalate_conversation clock
                      (default "LLM requested escalation"
                         (metadata !! "escalation_reason")) conversation,
                    [] ++ ["Conversation escalated to human agent"])
            | None => Raise AttributeError
            end
       else Ok (db, conversation, @nil string)) = Ok (dba, ca, ns)).
  { destruct (AssistantResponse.escalation reply).
    - destruct (AssistantResponse.metadata reply); [| discriminate H].
      eexists _, _, _. reflexivity.
    - eexists _, _, _. reflexivity. }
  destruct Hfirst as (dba & ca & ns & Hfirst). rewrite Hfirst in H.
  cbn [bind] in H.
  assert (Hca : Conversation.conversation_id ca = Conversation.conversation_id conversation
                /\ durable dba = durable db
                /\ messages (rows dba) = messages (rows db)
                /\ borrowers (rows dba) = borrowers (rows db)
                /\ loans (rows dba) = loans (rows db)
                /\ ((AssistantResponse.escalation reply = false
                     /\ ca = conversation
                     /\ conversations (rows dba) = conversations (rows db))
                    \/ (exists metadata,
                          AssistantResponse.escalation reply = true
                          /\ AssistantResponse.metadata reply = Some metadata
                          /\ ca = _escalate_conversation clock
                                    (default "LLM requested escalation"
                                       (metadata !! "escalation_reason"))
                                    conversation
                          /\ conversations (rows dba)
                             = <[i := ca]> (conversations (rows db))))).
  { destruct (AssistantResponse.escalation reply).
    - destruct (AssistantResponse.metadata reply) as [metadata |];
        [| discriminate Hfirst].
      injection Hfirst as <- <- <-. simpl. repeat (split; [reflexivity |]).
      right. exists metadata. repeat split.
    - injection Hfirst as <- <- <-. repeat (split; [reflexivity |]).
      left. repeat split. }
  destruct Hca as (Hid & Hdur & Hmsg & Hbor & Hloan & Hconv).
  destruct (AssistantResponse.structured_plan reply) as [plan |] eqn:Hplan.
  - destruct (_create_payment_plan clock loan ca plan dba) as [[dbb plan_id] |]
      eqn:Hbuilt; [| discriminate H].
    cbn [bind] in H.
    destruct (create_payment_plan_frame _ _ _ _ _ _ _ Hbuilt)
      as (Hb & Hl & Hc & Hm & Hd).
    destruct (bool_decide (AssistantResponse.action reply = ActionType.VERIFY_IDENTITY));
      destruct (bool_decide (AssistantResponse.action reply = ActionType.COLLECT_PAYMENT));
      injection H as <- <- <-; simpl;
      (split; [rewrite Hc; exact Hconv |]);
      rewrite Hm, Hb, Hl, Hd; repeat (split; [first [assumption | reflexivity] |]);
      reflexivity.
  - cbn [bind] in H.
    destruct (bool_decide (AssistantResponse.action reply = ActionType.VERIFY_IDENTITY));
      destruct (bool_decide (AssistantResponse.action reply = ActionType.COLLECT_PAYMENT));
      injection H as <- <- <-; simpl;
      (split; [exact Hconv |]);
      repeat (split; [first [assumption | reflexivity] |]);
      reflexivity.
Qed.

End TurnSteps.

Section TurnCases.
Import ConversationService.
Context `{py : Python}.
Variable env : Env.
Variable compliance_service : ComplianceService.t.

(** The ways in which the [try] block of [process_message] returns. *)
Lemma turn_inversion (self : t) (clock : Clock) (uuid4 : string)
    (generator : string -> ConversationContext.t -> res AssistantResponse.t)
    (user_message : string) (loan_id : Z) (session_id : string)
    (channel : ConversationChannel.t) (db db' : Session)
    (response : ConversationResponse.t) :
  process_message_try env compliance_service self clock uuid4 generator
    user_message loan_id session_id channel db = Ok (db', response) ->
  exists (db1 : Session) (i : nat) (conversation : Conversation.t),
    _get_or_create_conversation clock uuid4 loan_id session_id channel db
    = Ok (db1, (i, conversation))
    /\ ((exists reason,
           db' = db1
           /\ response = _create_compliance_blocked_response
                           (Conversation.conversation_id conversation) reason)
        \/ (exists (loan : Loan.t) (borrower : Borrower.t) (db2 : Session)
                   (conversation2 : Conversation.t),
              Turn.gate_allows compliance_service clock uuid4 loan_id session_id
                channel db db1 i conversation loan borrower
              /\ _handle_assistant_action clock
                   (Turn.reply_of env clock generator user_message conversation db1)
                   i conversation loan borrower
                   (add_message clock conversation MessageType.USER user_message
                      None None db1)
                 = Ok (db2, conversation2, response)
              /\ db' = commit
                         (store_conversation i
                            (_update_conversation_state clock
                               (Turn.reply_of env clock generator user_message
                                  conversation db1)
                               conversation2)
                            (add_message clock conversation2 MessageType.ASSISTANT
                               (AssistantResponse.message_to_user
                                  (Turn.reply_of env clock generator user_message
                                     conversation db1))
                               (Some (AssistantResponse.confidence
                                        (Turn.reply_of env clock generator
                                           user_message conversation db1)))
                               (Some (AssistantResponse.compliance_checks
                                        (Turn.reply_of env clock generator
                                           user_message conversation db1)))
                               db2)))).
Proof.
  unfold process_message_try. intros H.
  unfold mbind, res_bind, mret, res_ret in H.
  destruct (_get_or_create_conversation clock uuid4 loan_id session_id channel db)
    as [[db1 [i conversation]] |] eqn:Hconv; [| discriminate H].
  cbn [bind] in H.
  destruct (get_or_create_effect clock uuid4 loan_id session_id channel db db1 i
              conversation Hconv) as (_ & _ & Hstate & _).
  rewrite bool_decide_eq_false_2 in H by exact Hstate.
  destruct (first _ (loans (rows db1))) as [[j loan] |] eqn:Hloan; [| discriminate H].
  destruct (first _ (borrowers (rows db1))) as [[k borrower] |] eqn:Hborrower;
    [| discriminate H].
  destruct (ComplianceService.check_contact_compliance compliance_service (now clock)
              borrower conversation db1) as [verdict |] eqn:Hgate; [| discriminate H].
  cbn [bind] in H.
  exists db1, i, conversation. split; [reflexivity |].
  destruct (ContactCompliance.allowed verdict) eqn:Hallowed; simpl in H.
  - right.
    fold (Turn.reply_of env clock generator user_message conversation db1) in H.
    destruct (_handle_assistant_action clock _ i conversation loan borrower _)
      as [[[db2 conversation2] response2] |] eqn:Hact; [| discriminate H].
    cbn [bind] in H. injection H as <- <-.
    exists loan, borrower, db2, conversation2.
    split; [exists j, k, verdict; auto |]. split; [exact Hact | reflexivity].
  - left. injection H as <- <-. eexists. split; reflexivity.
Qed.

End TurnCases.

(** X6. How a turn ends. If [process_message] raises, the session is
    rolled back to the last commit. If it answers with [ok] false, the
    answer is the blocked response, nothing is committed and no message
    is recorded. If it answers with [ok] true, everything is committed
    and exactly two messages were recorded for the conversation: the
    inbound text, then the text of the reply. *)
Theorem turn_outcomes `{py : Python}
    (env : Env) (compliance_service : ComplianceService.t)
    (self : ConversationService.t) (clock : Clock) (uuid4 : string)
    (generator : string -> ConversationContext.t -> res AssistantResponse.t)
    (user_message : string) (loan_id : Z) (session_id : string)
    (channel : ConversationChannel.t) (db : Session) :
  let '(db', r) :=
    ConversationService.process_message env compliance_service self clock uuid4
      generator user_message loan_id session_id channel db in
  match r with
  | Raise _ => db' = rollback db
  | Ok response =>
      if ConversationResponse.ok response then
        durable db' = rows db'
        /\ exists m1 m2 : Message.t,
             messages (rows db') = messages (rows db) ++ [m1; m2]
             /\ Message.message_type m1 = MessageType.USER
             /\ Message.content m1 = user_message
             /\ Message.message_type m2 = MessageType.ASSISTANT
             /\ Message.content m2
                = AssistantResponse.message_to_user
                    (ConversationResponse.assistant response)
             /\ Message.conversation_id m2 = Message.conversation_id m1
      else
        durable db' = durable db
        /\ messages (rows db') = messages (rows db)
        /\ exists reason,
             response = ConversationService._create_compliance_blocked_response
                          (ConversationResponse.conversation_id response) reason
  end.
Proof.
  unfold ConversationService.process_message.
  destruct (ConversationService.process_message_try env compliance_service self
              clock uuid4 generator user_message loan_id session_id channel db)
    as [[db' response] |] eqn:Htry; [| reflexivity].
  destruct (turn_inversion env compliance_service self clock uuid4 generator
              user_message loan_id session_id channel db db' response Htry)
    as (db1 & i & conversation & Hconv & Hcase).
  destruct (get_or_create_effect clock uuid4 loan_id session_id channel db db1 i
              conversation Hconv) as (Hdurable & Hrows & _ & _).
  assert (Hmsg1 : messages (rows db1) = messages (rows db))
    by (rewrite Hrows; reflexivity).
  destruct Hcase as [(reason & -> & ->)
                    | (loan & borrower & db2 & conversation2 & _ & Hact & ->)].
  - simpl. split; [exact Hdurable |]. split; [exact Hmsg1 |].
    exists reason. reflexivity.
  - destruct (handle_action_effect clock _ i conversation loan borrower _ db2
                conversation2 response Hact)
      as (Hesc & Hmsg2 & _ & _ & _ & Hok & Hreply & _ & _).
    rewrite Hok. split; [reflexivity |].
    eexists _, _. simpl. rewrite Hmsg2. simpl. rewrite Hmsg1, <- app_assoc. simpl.
    split; [reflexivity |]. rewrite Hreply. repeat (split; [reflexivity |]).
    destruct Hesc as [(_ & -> & _) | (metadata & _ & _ & -> & _)]; reflexivity.
Qed.

Section NewSessions.
Import ConversationService.
Context `{py : Python}.

(** The conversation of the turn sits at the index that is returned. *)
Lemma get_or_create_index (clock : Clock) (uuid4 : string) (loan_id : Z)
    (session_id : string) (channel : ConversationChannel.t)
    (db db1 : Session) (i : nat) (conversation : Conversation.t) :
  _get_or_create_conversation clock uuid4 loan_id session_id channel db
  = Ok (db1, (i, conversation)) ->
  conversations (rows db1) !! i = Some conversation.
Proof.
  unfold _get_or_create_conversation. intros H.
  destruct (first _ (conversations (rows db))) as [[i0 c] |] eqn:Hfound.
  - injection H as <- <- <-. simpl.
    unfold first in Hfound. apply list_find_Some in Hfound as (Hi & _ & _).
    apply list_lookup_insert_eq. eapply lookup_lt_Some. exact Hi.
  - destruct (first _ (loans (rows db))) as [[j loan] |]; [| discriminate H].
    destruct (existsb _ _); [discriminate H |].
    injection H as <- <- <-. simpl.
    apply list_lookup_middle. reflexivity.
Qed.

(** A session with no open conversation gets a new one, unless its
    identifier is taken. *)
Lemma get_or_create_new (clock : Clock) (uuid4 : string) (loan_id : Z)
    (session_id : string) (channel : ConversationChannel.t) (db : Session)
    (j : nat) (loan : Loan.t) :
  first (Turn.is_active_session loan_id session_id) (conversations (rows db)) = None ->
  first (fun l : Loan.t => Loan.id l =? loan_id) (loans (rows db)) = Some (j, loan) ->
  _get_or_create_conversation clock uuid4 loan_id session_id channel db
  = let conversation :=
      Turn.new_conversation clock uuid4 loan loan_id session_id channel db in
    if existsb (fun c : Conversation.t =>
                  bool_decide (Conversation.conversation_id c
                               = Conversation.conversation_id conversation))
               (conversations (rows db))
    then Raise IntegrityError
    else Ok (with_rows db
               (set_conversations (conversations (rows db) ++ [conversation])
                                  (rows db)),
             (length (conversations (rows db)), conversation)).
Proof.
  intros Hnone Hloan. unfold _get_or_create_conversation.
  unfold Turn.is_active_session in Hnone. rewrite Hnone, Hloan. reflexivity.
Qed.

End NewSessions.

(** X7. A conversation that is closed or opted out cannot be taken up
    again. Where the conversation identifiers of the table are distinct,
    as the schema demands, a message sent under the identifier of such a
    conversation finds no open conversation, tries to add a second row
    with the same identifier and fails on the unique column: the turn
    raises and is rolled back. *)
Theorem closed_session_cannot_continue `{py : Python}
    (env : Env) (compliance_service : ComplianceService.t)
    (self : ConversationService.t) (clock : Clock) (uuid4 : string)
    (generator : string -> ConversationContext.t -> res AssistantResponse.t)
    (user_message : string) (loan_id : Z) (session_id : string)
    (channel : ConversationChannel.t) (db : Session)
    (i : nat) (c : Conversation.t) (j : nat) (loan : Loan.t) :
  NoDup (Conversation.conversation_id <$> conversations (rows db)) ->
  conversations (rows db) !! i = Some c ->
  Conversation.conversation_id c = session_id ->
  Conversation.state c ∈ [ConversationState.CLOSED; ConversationState.OPTED_OUT] ->
  session_id <> "" ->
  first (fun l : Loan.t => Loan.id l =? loan_id) (loans (rows db)) = Some (j, loan) ->
  ConversationService.process_message env compliance_service self clock uuid4
    generator user_message loan_id session_id channel db
  = (rollback db, Raise IntegrityError).
Proof.
  intros Hnodup Hi Hid Hstate Hname Hloan.
  assert (Hnone : first (Turn.is_active_session loan_id session_id)
                    (conversations (rows db)) = None).
  { unfold first. apply list_find_None, Forall_lookup. intros k x Hk Hactive.
    unfold Turn.is_active_session in Hactive.
    apply andb_true_iff in Hactive as [Hactive Hopen].
    apply andb_true_iff in Hactive as [_ Hsame].
    apply bool_decide_eq_true in Hsame.
    assert (k = i).
    { apply (NoDup_lookup _ k i session_id Hnodup);
        rewrite list_lookup_fmap; [rewrite Hk | rewrite Hi]; simpl; congruence. }
    subst k. rewrite Hi in Hk. injection Hk as <-.
    apply negb_true_iff, bool_decide_eq_false in Hopen. exact (Hopen Hstate). }
  unfold ConversationService.process_message,
    ConversationService.process_message_try.
  rewrite (get_or_create_new clock uuid4 loan_id session_id channel db j loan
             Hnone Hloan).
  cbv zeta.
  assert (Htaken :
    existsb (fun c0 : Conversation.t =>
               bool_decide (Conversation.conversation_id c0
                            = Conversation.conversation_id
                                (Turn.new_conversation clock uuid4 loan loan_id
                                   session_id channel db)))
            (conversations (rows db)) = true).
  { apply existsb_exists. exists c. split.
    - apply list_elem_of_In. eapply list_elem_of_lookup_2. exact Hi.
    - apply bool_decide_eq_true. simpl.
      destruct session_id; [congruence | exact Hid]. }
  rewrite Htaken. reflexivity.
Qed.

(** A message under the identifier of the closed example conversation. *)
Lemma closed_session_cannot_continue_witness :
  ConversationService.process_message (py := RefPython.ref_python) default_env
    ComplianceService.compliance_service ConversationService.conversation_service
    (Examples.clock_at Examples.tuesday_morning) "fresh-uuid"
    MoreExamples.clean_generator "hello again" 1 "s1" ConversationChannel.CHAT
    MoreExamples.closed_db
  = (rollback MoreExamples.closed_db, Raise IntegrityError).
Proof.
  apply (closed_session_cannot_continue (py := RefPython.ref_python) default_env
           ComplianceService.compliance_service
           ConversationService.conversation_service
           (Examples.clock_at Examples.tuesday_morning) "fresh-uuid"
           MoreExamples.clean_generator "hello again" 1 "s1"
           ConversationChannel.CHAT MoreExamples.closed_db
           0%nat MoreExamples.closed_conversation 0%nat Examples.loan).
  - simpl. apply NoDup_singleton.
  - reflexivity.
  - reflexivity.
  - simpl. apply list_elem_of_In. left. reflexivity.
  - discriminate.
  - reflexivity.
Defined.

(** X8. The opted-out answer is never given. The conversation that a
    turn works on is either found among those that are neither closed
    nor opted out, or new, so the test for an opted-out conversation
    never succeeds: whatever [process_message] answers, it is not the
    opted-out response. *)
Theorem opted_out_response_is_never_given `{py : Python}
    (env : Env) (compliance_service : ComplianceService.t)
    (self : ConversationService.t) (clock : Clock) (uuid4 : string)
    (generator : string -> ConversationContext.t -> res AssistantResponse.t)
    (user_message : string) (loan_id : Z) (session_id : string)
    (channel : ConversationChannel.t) (db : Session)
    (response : ConversationResponse.t) :
  snd (ConversationService.process_message env compliance_service self clock
         uuid4 generator user_message loan_id session_id channel db)
  = Ok response ->
  forall conversation_id : string,
    response <> ConversationService._create_opted_out_response conversation_id.
Proof.
  unfold ConversationService.process_message. intros H conversation_id Heq.
  destruct (ConversationService.process_message_try env compliance_service self
              clock uuid4 generator user_message loan_id session_id channel db)
    as [[db' response'] |] eqn:Htry; [| discriminate H].
  injection H as ->.
  destruct (turn_inversion env compliance_service self clock uuid4 generator
              user_message loan_id session_id channel db db' response Htry)
    as (db1 & i & conversation & _ & Hcase).
  destruct Hcase as [(reason & _ & ->)
                    | (loan & borrower & db2 & conversation2 & _ & Hact & _)].
  - apply (f_equal (fun r => AssistantResponse.message_to_user
                               (ConversationResponse.assistant r))) in Heq.
    discriminate Heq.
  - destruct (handle_action_effect clock _ i conversation loan borrower _ db2
                conversation2 response Hact) as (_ & _ & _ & _ & _ & Hok & _).
    rewrite Heq in Hok. discriminate Hok.
Qed.

(** The first message of a new session on a Sunday: the answer is the
    blocked response. *)
Lemma opted_out_response_is_never_given_witness :
  snd (ConversationService.process_message (py := RefPython.ref_python)
         default_env ComplianceService.compliance_service
         ConversationService.conversation_service
         (Examples.clock_at Examples.sunday_morning) "fresh-uuid"
         MoreExamples.clean_generator "hello" 1 "s2" ConversationChannel.CHAT
         Examples.empty_db)
  = Ok (ConversationService._create_compliance_blocked_response "s2"
          "Contact not allowed on Sundays")
  /\ (ConversationService._create_compliance_blocked_response "s2"
        "Contact not allowed on Sundays"
      <> ConversationService._create_opted_out_response "s2").
Proof.
  assert (H : snd (ConversationService.process_message (py := RefPython.ref_python)
                     default_env ComplianceService.compliance_service
                     ConversationService.conversation_service
                     (Examples.clock_at Examples.sunday_morning) "fresh-uuid"
                     MoreExamples.clean_generator "hello" 1 "s2"
                     ConversationChannel.CHAT Examples.empty_db)
              = Ok (ConversationService._create_compliance_blocked_response "s2"
                      "Contact not allowed on Sundays"))
    by (vm_compute; reflexivity).
  split; [exact H |].
  exact (opted_out_response_is_never_given (py := RefPython.ref_python) _ _ _ _ _ _
           _ _ _ _ _ _ H "s2").
Defined.

Section DailyLimit.
Import ConversationService.
Context `{py : Python}.

Lemma count_app {A : Type} (P : A -> bool) (l1 l2 : list A) :
  count P (l1 ++ l2) = count P l1 + count P l2.
Proof. unfold count. rewrite filter_app, length_app. lia. Qed.

Lemma count_singleton {A : Type} (P : A -> bool) (x : A) :
  count P [x] = if P x then 1 else 0.
Proof.
  unfold count. rewrite filter_cons, filter_nil.
  destruct (P x) eqn:E.
  - rewrite decide_True by reflexivity. reflexivity.
  - rewrite decide_False by discriminate. reflexivity.
Qed.

End DailyLimit.

(** X9. The conversation that a turn opens counts against the daily
    limit of that very turn. The new row is flushed before the gate
    counts the conversations of the day, so for a borrower who has not
    opted out, inside the contact window, a new session is blocked as
    soon as the borrower has one conversation fewer than the limit on
    that day: with the limit of three, the third new session of a day
    is refused. The new row stays in the open session, uncommitted. *)
Theorem new_session_counts_toward_daily_limit `{py : Python}
    (env : Env) (compliance_service : ComplianceService.t)
    (self : ConversationService.t) (clock : Clock) (uuid4 : string)
    (generator : string -> ConversationContext.t -> res AssistantResponse.t)
    (user_message : string) (loan_id : Z) (session_id : string)
    (channel : ConversationChannel.t) (db : Session)
    (j : nat) (loan : Loan.t) (k : nat) (borrower : Borrower.t)
    (time_check : ComplianceCheck.t) :
  first (Turn.is_active_session loan_id session_id) (conversations (rows db)) = None ->
  first (fun l : Loan.t => Loan.id l =? loan_id) (loans (rows db)) = Some (j, loan) ->
  first (fun b : Borrower.t => Borrower.id b =? Loan.borrower_id loan)
        (borrowers (rows db)) = Some (k, borrower) ->
  Forall (fun c : Conversation.t =>
            Conversation.conversation_id c
            <> (if PyStr.truthy session_id then session_id else uuid4))
         (conversations (rows db)) ->
  Borrower.opt_out_date borrower = None ->
  ComplianceService._check_contact_time compliance_service (now clock) borrower
  = Ok time_check ->
  ComplianceCheck.passed time_check = true ->
  PyDatetime.dt_le (PyDatetime.day_start (now clock)) (db_now clock) = true ->
  PyDatetime.dt_le (db_now clock) (PyDatetime.day_end (now clock)) = true ->
  ComplianceService.max_daily_contact_attempts compliance_service - 1
  <= count (Turn.started_today (now clock) borrower) (conversations (rows db)) ->
  let conversation :=
    Turn.new_conversation clock uuid4 loan loan_id session_id channel db in
  let db1 :=
    with_rows db
      (set_conversations (conversations (rows db) ++ [conversation]) (rows db)) in
  ConversationService.process_message env compliance_service self clock uuid4
    generator user_message loan_id session_id channel db
  = (db1,
     Ok (ConversationService._create_compliance_blocked_response
           (Conversation.conversation_id conversation)
           (Turn.daily_limit_reason compliance_service)))
  /\ durable db1 = durable db.
Proof.
  intros Hnone Hloan Hborrower Hfree Hopt Htime Hpassed Hlo Hhi Hcount
         conversation db1.
  split; [| reflexivity].
  unfold ConversationService.process_message,
    ConversationService.process_message_try.
  rewrite (get_or_create_new clock uuid4 loan_id session_id channel db j loan
             Hnone Hloan).
  cbv zeta. fold conversation.
  assert (Hfresh :
    existsb (fun c : Conversation.t =>
               bool_decide (Conversation.conversation_id c
                            = Conversation.conversation_id conversation))
            (conversations (rows db)) = false).
  { apply not_true_is_false. intros Hex. apply existsb_exists in Hex
      as (c & Hin & Hc). apply bool_decide_eq_true in Hc.
    rewrite Forall_forall in Hfree. apply (Hfree c); [| exact Hc].
    apply list_elem_of_In. exact Hin. }
  rewrite Hfresh. fold db1.
  unfold mbind, res_bind, mret, res_ret. cbn [bind].
  rewrite bool_decide_eq_false_2 by (simpl; discriminate).
  change (loans (rows db1)) with (loans (rows db)).
  change (borrowers (rows db1)) with (borrowers (rows db)).
  rewrite Hloan, Hborrower.
  assert (Hgate :
    ComplianceService.check_contact_compliance compliance_service (now clock)
      borrower conversation db1
    = Ok (ComplianceService.blocked
            (Some (Turn.daily_limit_reason compliance_service)))).
  { unfold ComplianceService.check_contact_compliance.
    rewrite (opt_out_check_passes borrower Hopt). simpl negb. cbv iota.
    rewrite Htime. unfold mbind, res_bind, mret, res_ret. cbn [bind].
    rewrite Hpassed. simpl negb. cbv iota.
    unfold ComplianceService._check_daily_contact_frequency.
    fold (Turn.started_today (now clock) borrower).
    change (conversations (rows db1))
      with (conversations (rows db) ++ [conversation]).
    rewrite count_app, count_singleton.
    assert (Hnew : Turn.started_today (now clock) borrower conversation = true).
    { unfold Turn.started_today. simpl. rewrite Hlo, Hhi, !andb_true_r.
      unfold first in Hborrower.
      apply list_find_Some in Hborrower as (_ & Hb & _).
      apply Z.eqb_eq in Hb. apply Z.eqb_eq. congruence. }
    rewrite Hnew.
    rewrite (proj2 (Z.leb_le _ _)) by lia.
    reflexivity. }
  rewrite Hgate. reflexivity.
Qed.

(** The third new session of a Tuesday, two having been opened that
    morning. *)
Lemma new_session_counts_toward_daily_limit_witness :
  let conversation :=
    Conversation.mk 3 "a3" 1 1 ConversationState.INITIATED "chat" (Some ∅)
      false 0 Examples.tuesday_morning None None Examples.tuesday_morning in
  let db1 :=
    with_rows MoreExamples.busy_db
      (set_conversations
         (conversations (rows MoreExamples.busy_db) ++ [conversation])
         (rows MoreExamples.busy_db)) in
  ConversationService.process_message (py := RefPython.ref_python) default_env
    ComplianceService.compliance_service ConversationService.conversation_service
    (Examples.clock_at Examples.tuesday_morning) "fresh-uuid"
    MoreExamples.clean_generator "hello" 1 "a3" ConversationChannel.CHAT
    MoreExamples.busy_db
  = (db1,
     Ok (ConversationService._create_compliance_blocked_response "a3"
           "Maximum daily contact attempts (3) exceeded"))
  /\ durable db1 = durable MoreExamples.busy_db.
Proof.
  apply (new_session_counts_toward_daily_limit (py := RefPython.ref_python)
           default_env ComplianceService.compliance_service
           ConversationService.conversation_service
           (Examples.clock_at Examples.tuesday_morning) "fresh-uuid"
           MoreExamples.clean_generator "hello" 1 "a3" ConversationChannel.CHAT
           MoreExamples.busy_db 0%nat Examples.loan 0%nat Examples.borrower
           ComplianceService.contact_time_passed).
  - reflexivity.
  - reflexivity.
  - reflexivity.
  - repeat constructor; discriminate.
  - reflexivity.
  - reflexivity.
  - reflexivity.
  - reflexivity.
  - reflexivity.
  - vm_compute. discriminate.
Defined.

Section FallbackTurn.
Import ConversationService.
Context `{py : Python}.

(** Handling the fallback reply: the conversation is escalated with the
    default reason, and no action is asked of the caller. *)
Lemma handle_fallback (clock : Clock) (i : nat) (conversation : Conversation.t)
    (loan : Loan.t) (borrower : Borrower.t) (db : Session) :
  _handle_assistant_action clock LLMService._get_fallback_response i
    conversation loan borrower db
  = Ok (store_conversation i
          (_escalate_conversation clock "LLM requested escalation" conversation) db,
        _escalate_conversation clock "LLM requested escalation" conversation,
        ConversationResponse.mk true (Conversation.conversation_id conversation)
          LLMService._get_fallback_response
          (Conversation.session_data conversation) false
          (Some ["Conversation escalated to human agent"])).
Proof.
  unfold _handle_assistant_action, LLMService._get_fallback_response. simpl.
  rewrite lookup_singleton_ne by discriminate. reflexivity.
Qed.

End FallbackTurn.

(** X10. A failure of the generator does not fail the turn. When the
    gate allows the contact and retrieval, the model call or the parsing
    of its answer raises, [process_message] still answers with [ok]
    true: the reply is the fallback, the conversation is escalated with
    the reason "LLM requested escalation", and the turn is committed. *)
Theorem generator_failure_is_escalated `{py : Python}
    (env : Env) (compliance_service : ComplianceService.t)
    (self : ConversationService.t) (clock : Clock) (uuid4 : string)
    (generator : string -> ConversationContext.t -> res AssistantResponse.t)
    (user_message : string) (loan_id : Z) (session_id : string)
    (channel : ConversationChannel.t) (db db1 : Session) (i : nat)
    (conversation : Conversation.t) (loan : Loan.t) (borrower : Borrower.t) :
  Turn.gate_allows compliance_service clock uuid4 loan_id session_id channel
    db db1 i conversation loan borrower ->
  (forall ctx, exists e, generator user_message ctx = Raise e) ->
  exists (db' : Session) (c' : Conversation.t),
    ConversationService.process_message env compliance_service self clock uuid4
      generator user_message loan_id session_id channel db
    = (db',
       Ok (ConversationResponse.mk true (Conversation.conversation_id conversation)
             LLMService._get_fallback_response
             (Conversation.session_data conversation) false
             (Some ["Conversation escalated to human agent"])))
    /\ durable db' = rows db'
    /\ conversations (rows db') !! i = Some c'
    /\ Conversation.state c' = ConversationState.ESCALATED
    /\ Conversation.escalation_reason c' = Some "LLM requested escalation"
    /\ Conversation.escalation_date c' = Some (utcnow clock)
    /\ Conversation.identity_verified c' = Conversation.identity_verified conversation
    /\ Conversation.conversation_id c' = Conversation.conversation_id conversation.
Proof.
  intros (j & k & verdict & Hconv & Hloan & Hborrower & Hgate & Hallowed) Hgen.
  destruct (get_or_create_effect clock uuid4 loan_id session_id channel db db1 i
              conversation Hconv) as (_ & _ & Hstate & _).
  pose proof (get_or_create_index clock uuid4 loan_id session_id channel db db1 i
                conversation Hconv) as Hi.
  unfold ConversationService.process_message,
    ConversationService.process_message_try.
  rewrite Hconv. unfold mbind, res_bind, mret, res_ret. cbn [bind].
  rewrite bool_decide_eq_false_2 by exact Hstate.
  rewrite Hloan, Hborrower, Hgate. cbn [bind]. rewrite Hallowed. simpl negb. cbv iota.
  match goal with
  | |- context [generator user_message ?ctx] =>
      destruct (Hgen ctx) as [e He]; rewrite He
  end.
  cbn [LLMService.process_conversation].
  rewrite handle_fallback. cbn [bind].
  eexists _, _. split; [reflexivity |]. split; [reflexivity |].
  split.
  - simpl. rewrite list_insert_insert_eq. apply list_lookup_insert_eq.
    eapply lookup_lt_Some. exact Hi.
  - simpl. repeat split.
Qed.

(** The example conversation on a Tuesday morning, with a generator that
    fails. *)
Lemma generator_failure_is_escalated_witness :
  exists (db' : Session) (c' : Conversation.t),
    ConversationService.process_message (py := RefPython.ref_python) default_env
      ComplianceService.compliance_service ConversationService.conversation_service
      (Examples.clock_at Examples.tuesday_morning) "fresh-uuid"
      MoreExamples.failing_generator "hello" 1 "s1" ConversationChannel.CHAT
      Examples.db
    = (db',
       Ok (ConversationResponse.mk true "s1" LLMService._get_fallback_response
             (Some ∅) false (Some ["Conversation escalated to human agent"])))
    /\ durable db' = rows db'
    /\ conversations (rows db') !! 0%nat = Some c'
    /\ Conversation.state c' = ConversationState.ESCALATED
    /\ Conversation.escalation_reason c' = Some "LLM requested escalation".
Proof.
  destruct (generator_failure_is_escalated (py := RefPython.ref_python) default_env
              ComplianceService.compliance_service
              ConversationService.conversation_service
              (Examples.clock_at Examples.tuesday_morning) "fresh-uuid"
              MoreExamples.failing_generator "hello" 1 "s1" ConversationChannel.CHAT
              Examples.db
              (store_conversation 0
                 (Conversation.set_last_activity Examples.tuesday_morning
                    Examples.conversation) Examples.db)
              0%nat
              (Conversation.set_last_activity Examples.tuesday_morning
                 Examples.conversation)
              Examples.loan Examples.borrower)
    as (db' & c' & Hturn & Hdurable & Hi & Hstate & Hreason & _).
  - exists 0%nat, 0%nat. eexists.
    split; [reflexivity |]. split; [reflexivity |]. split; [reflexivity |].
    split; [vm_compute; reflexivity | reflexivity].
  - intros ctx. eexists. reflexivity.
  - exists db', c'. auto.
Defined.

Section VerificationUntouched.
Import ConversationService.
Context `{py : Python}.

Lemma get_or_create_cases (clock : Clock) (uuid4 : string) (loan_id : Z)
    (session_id : string) (channel : ConversationChannel.t)
    (db db1 : Session) (i : nat) (conversation : Conversation.t) :
  _get_or_create_conversation clock uuid4 loan_id session_id channel db
  = Ok (db1, (i, conversation)) ->
  (exists c,
     conversations (rows db) !! i = Some c
     /\ conversation = Conversation.set_last_activity (utcnow clock) c
     /\ conversations (rows db1) = <[i := conversation]> (conversations (rows db)))
  \/ (i = length (conversations (rows db))
      /\ conversations (rows db1) = conversations (rows db) ++ [conversation]
      /\ Conversation.identity_verified conversation = false
      /\ Conversation.verification_attempts conversation = 0).
Proof.
  unfold _get_or_create_conversation. intros H.
  destruct (first _ (conversations (rows db))) as [[i0 c] |] eqn:Hfound.
  - injection H as <- <- <-. left. exists c.
    unfold first in Hfound. apply list_find_Some in Hfound as (Hi & _ & _).
    repeat split. exact Hi.
  - destruct (first _ (loans (rows db))) as [[j loan] |]; [| discriminate H].
    destruct (existsb _ _); [discriminate H |].
    injection H as <- <- <-. right. repeat split.
Qed.

Lemma update_state_same_verification (clock : Clock)
    (reply : AssistantResponse.t) (c : Conversation.t) :
  Turn.same_verification c (_update_conversation_state clock reply c).
Proof.
  unfold _update_conversation_state, Turn.same_verification.
  destruct (AssistantResponse.escalation reply); [repeat split |].
  destruct (bool_decide _); [repeat split |].
  destruct (bool_decide _); [repeat split |].
  destruct (bool_decide _); repeat split.
Qed.

(** Replacing the row at [i] by one that agrees with it on verification
    keeps every row in agreement with the table before. *)
Lemma insert_same_verification (old l : list Conversation.t) (i : nat)
    (c c' : Conversation.t) :
  (forall n x, l !! n = Some x ->
     match old !! n with
     | Some y => Turn.same_verification y x
     | None => Conversation.identity_verified x = false
               /\ Conversation.verification_attempts x = 0
     end) ->
  l !! i = Some c ->
  Turn.same_verification c c' ->
  forall n x, <[i := c']> l !! n = Some x ->
    match old !! n with
    | Some y => Turn.same_verification y x
    | None => Conversation.identity_verified x = false
              /\ Conversation.verification_attempts x = 0
    end.
Proof.
  intros Hl Hi (Hv & Ha & Hid) n x Hn.
  destruct (decide (n = i)) as [-> | Hne].
  - rewrite list_lookup_insert_eq in Hn by (eapply lookup_lt_Some; exact Hi).
    injection Hn as <-. specialize (Hl i c Hi).
    destruct (old !! i) as [y |].
    + destruct Hl as (Hv' & Ha' & Hid'). unfold Turn.same_verification.
      repeat split; congruence.
    + destruct Hl. split; congruence.
  - rewrite list_lookup_insert_ne in Hn by congruence. exact (Hl n x Hn).
Qed.

End VerificationUntouched.

(** X11. No turn of the conversation verifies an identity or touches the
    attempt counter. After a turn that returns, every conversation that
    was in the session before still has its verified flag, its counter
    and its identifier, and a conversation that the turn added is
    unverified with a counter of zero: only [verify_identity] changes
    them. *)
Theorem turn_never_verifies `{py : Python}
    (env : Env) (compliance_service : ComplianceService.t)
    (self : ConversationService.t) (clock : Clock) (uuid4 : string)
    (generator : string -> ConversationContext.t -> res AssistantResponse.t)
    (user_message : string) (loan_id : Z) (session_id : string)
    (channel : ConversationChannel.t) (db db' : Session)
    (response : ConversationResponse.t) :
  ConversationService.process_message env compliance_service self clock uuid4
    generator user_message loan_id session_id channel db
  = (db', Ok response) ->
  forall (n : nat) (c' : Conversation.t),
    conversations (rows db') !! n = Some c' ->
    match conversations (rows db) !! n with
    | Some c => Turn.same_verification c c'
    | None => Conversation.identity_verified c' = false
              /\ Conversation.verification_attempts c' = 0
    end.
Proof.
  unfold ConversationService.process_message. intros H.
  destruct (ConversationService.process_message_try env compliance_service self
              clock uuid4 generator user_message loan_id session_id channel db)
    as [[db0 response0] |] eqn:Htry; [| discriminate H].
  injection H as -> ->.
  destruct (turn_inversion env compliance_service self clock uuid4 generator
              user_message loan_id session_id channel db db' response Htry)
    as (db1 & i & conversation & Hconv & Hcase).
  pose proof (get_or_create_index clock uuid4 loan_id session_id channel db db1 i
                conversation Hconv) as Hi.
  assert (Hfirst : forall n x, conversations (rows db1) !! n = Some x ->
            match conversations (rows db) !! n with
            | Some y => Turn.same_verification y x
            | None => Conversation.identity_verified x = false
                      /\ Conversation.verification_attempts x = 0
            end).
  { destruct (get_or_create_cases clock uuid4 loan_id session_id channel db db1 i
                conversation Hconv)
      as [(c & Hc & Heq & Hl) | (Hlen & Hl & Hv & Ha)]; rewrite Hl.
    - apply (insert_same_verification _ _ i c); [| exact Hc | rewrite Heq; repeat split].
      intros n x Hn. rewrite Hn. repeat split.
    - intros n x Hn.
      destruct (conversations (rows db) !! n) as [y |] eqn:Hold.
      + rewrite lookup_app_l in Hn by (eapply lookup_lt_Some; exact Hold).
        rewrite Hold in Hn. injection Hn as <-. repeat split.
      + apply lookup_ge_None in Hold.
        rewrite lookup_app_r in Hn by exact Hold.
        destruct (n - length (conversations (rows db)))%nat; [| discriminate Hn].
        injection Hn as <-. split; assumption. }
  destruct Hcase as [(reason & -> & _)
                    | (loan & borrower & db2 & conversation2 & _ & Hact & ->)];
    [exact Hfirst |].
  destruct (handle_action_effect clock _ i conversation loan borrower _ db2
              conversation2 response Hact) as (Hesc & _).
  simpl.
  set (reply := Turn.reply_of env clock generator user_message conversation db1) in *.
  assert (Hsame2 : Turn.same_verification conversation conversation2).
  { destruct Hesc as [(_ & -> & _) | (metadata & _ & _ & -> & _)]; repeat split. }
  assert (Hsecond : forall n x, conversations (rows db2) !! n = Some x ->
            match conversations (rows db) !! n with
            | Some y => Turn.same_verification y x
            | None => Conversation.identity_verified x = false
                      /\ Conversation.verification_attempts x = 0
            end).
  { destruct Hesc as [(_ & _ & Hl) | (metadata & _ & _ & _ & Hl)];
      rewrite Hl; simpl; [exact Hfirst |].
    apply (insert_same_verification _ _ i conversation);
      [exact Hfirst | exact Hi | exact Hsame2]. }
  assert (Hi2 : conversations (rows db2) !! i = Some conversation2).
  { destruct Hesc as [(_ & -> & Hl) | (metadata & _ & _ & _ & Hl)]; rewrite Hl; simpl.
    - exact Hi.
    - apply list_lookup_insert_eq. eapply lookup_lt_Some. exact Hi. }
  apply (insert_same_verification _ _ i conversation2);
    [exact Hsecond | exact Hi2 | apply update_state_same_verification].
Qed.

(** The turn of the example conversation with the clean generator. *)
Lemma turn_never_verifies_witness :
  exists (db' : Session) (response : ConversationResponse.t) (c' : Conversation.t),
    ConversationService.process_message (py := RefPython.ref_python) default_env
      ComplianceService.compliance_service ConversationService.conversation_service
      (Examples.clock_at Examples.tuesday_morning) "fresh-uuid"
      MoreExamples.clean_generator "hello" 1 "s1" ConversationChannel.CHAT
      Examples.db
    = (db', Ok response)
    /\ ConversationResponse.ok response = true
    /\ conversations (rows db') !! 0%nat = Some c'
    /\ Turn.same_verification Examples.conversation c'.
Proof.
  destruct (ConversationService.process_message (py := RefPython.ref_python)
              default_env ComplianceService.compliance_service
              ConversationService.conversation_service
              (Examples.clock_at Examples.tuesday_morning) "fresh-uuid"
              MoreExamples.clean_generator "hello" 1 "s1" ConversationChannel.CHAT
              Examples.db) as [db' r] eqn:Hturn.
  destruct r as [response | e]; [| vm_compute in Hturn; discriminate Hturn].
  pose proof (turn_never_verifies (py := RefPython.ref_python) _ _ _ _ _ _ _ _ _ _
                _ _ _ Hturn 0%nat) as Hkept.
  vm_compute in Hturn. injection Hturn as <- <-.
  eexists _, _, _. split; [reflexivity |]. split; [reflexivity |].
  split; [reflexivity |].
  exact (Hkept _ eq_refl).
Defined.

(** ** Identity verification, continued *)

Section VerificationChecks.
Import ConversationService.
Context `{py : Python}.

(** What a call does when the checks of the claimed facts pass. *)
Lemma verify_identity_passed (self : t) (clock : Clock) (conversation_id : string)
    (verification_data : gmap string string) (db : Session)
    (i : nat) (c : Conversation.t) (j : nat) (loan : Loan.t)
    (k : nat) (borrower : Borrower.t) :
  first (Spec.has_id conversation_id) (conversations (rows db)) = Some (i, c) ->
  first (fun l : Loan.t => Loan.id l =? Conversation.loan_id c) (loans (rows db))
  = Some (j, loan) ->
  first (fun b : Borrower.t => Borrower.id b =? Conversation.borrower_id c)
        (borrowers (rows db)) = Some (k, borrower) ->
  Conversation.verification_attempts c < max_verification_attempts self ->
  verification_passed verification_data (Some loan) (Some borrower) = Ok true ->
  let c' :=
    Conversation.set_state ConversationState.ACTIVE_NEGOTIATION
      (Conversation.set_identity_verified true
         (Conversation.set_verification_attempts
            (Conversation.verification_attempts c + 1) c)) in
  verify_identity self clock conversation_id verification_data db
  = (commit (store_conversation i c' db),
     Ok (VerificationResult.mk true "Identity verified successfully."
           (max_verification_attempts self
            - (Conversation.verification_attempts c + 1)))).
Proof.
  intros Hfound Hloan Hborrower Hmax Hpassed c'.
  unfold verify_identity. fold (Spec.has_id conversation_id).
  rewrite Hfound, Hloan, Hborrower. simpl fmap.
  rewrite (proj2 (Z.leb_gt _ _) Hmax), Hpassed.
  unfold commit, store_conversation, with_rows. simpl.
  rewrite !list_insert_insert_eq. reflexivity.
Qed.

End VerificationChecks.

(** X12. Identity verification checks only the facts it is given under
    the two keys it knows. Data that holds neither "last_four_ssn" nor
    "last_payment_amount", the empty dictionary among them, verifies the
    caller: on a conversation below the maximum of attempts the call
    returns verified, the conversation is marked verified and moved to
    active negotiation, and the change is committed. *)
Theorem unrecognised_data_verifies `{py : Python}
    (self : ConversationService.t) (clock : Clock) (conversation_id : string)
    (verification_data : gmap string string) (db : Session)
    (i : nat) (c : Conversation.t) (j : nat) (loan : Loan.t)
    (k : nat) (borrower : Borrower.t) :
  first (Spec.has_id conversation_id) (conversations (rows db)) = Some (i, c) ->
  first (fun l : Loan.t => Loan.id l =? Conversation.loan_id c) (loans (rows db))
  = Some (j, loan) ->
  first (fun b : Borrower.t => Borrower.id b =? Conversation.borrower_id c)
        (borrowers (rows db)) = Some (k, borrower) ->
  Conversation.verification_attempts c
  < ConversationService.max_verification_attempts self ->
  verification_data !! "last_four_ssn" = None ->
  verification_data !! "last_payment_amount" = None ->
  exists (db' : Session) (c' : Conversation.t),
    ConversationService.verify_identity self clock conversation_id
      verification_data db
    = (db',
       Ok (VerificationResult.mk true "Identity verified successfully."
             (ConversationService.max_verification_attempts self
              - (Conversation.verification_attempts c + 1))))
    /\ durable db' = rows db'
    /\ conversations (rows db') !! i = Some c'
    /\ Conversation.identity_verified c' = true
    /\ Conversation.state c' = ConversationState.ACTIVE_NEGOTIATION.
Proof.
  intros Hfound Hloan Hborrower Hmax Hssn Hamount.
  eexists _, _. split.
  - apply (verify_identity_passed self clock conversation_id verification_data db
             i c j loan k borrower Hfound Hloan Hborrower Hmax).
    unfold ConversationService.verification_passed.
    rewrite Hssn, Hamount. reflexivity.
  - split; [reflexivity |]. simpl. split.
    + apply list_lookup_insert_eq.
      unfold first in Hfound. apply list_find_Some in Hfound as (Hi & _).
      eapply lookup_lt_Some. exact Hi.
    + split; reflexivity.
Qed.

(** A date of birth, which the service does not look at. *)
Lemma unrecognised_data_verifies_witness :
  exists (db' : Session) (c' : Conversation.t),
    ConversationService.verify_identity (py := RefPython.ref_python)
      ConversationService.conversation_service
      (Examples.clock_at Examples.tuesday_morning) "s1"
      MoreExamples.unknown_key Examples.db
    = (db', Ok (VerificationResult.mk true "Identity verified successfully." 2))
    /\ durable db' = rows db'
    /\ conversations (rows db') !! 0%nat = Some c'
    /\ Conversation.identity_verified c' = true
    /\ Conversation.state c' = ConversationState.ACTIVE_NEGOTIATION.
Proof.
  apply (unrecognised_data_verifies (py := RefPython.ref_python)
           ConversationService.conversation_service
           (Examples.clock_at Examples.tuesday_morning) "s1"
           MoreExamples.unknown_key Examples.db
           0%nat Examples.conversation 0%nat Examples.loan 0%nat Examples.borrower).
  - reflexivity.
  - reflexivity.
  - reflexivity.
  - simpl. lia.
  - reflexivity.
  - reflexivity.
Defined.

(** X13. A claimed amount that reads as NaN passes the amount check.
    The check fails when the distance between the claimed and the
    recorded last payment is above 0.01, and no comparison with NaN
    holds: where [float] reads the claimed text as NaN and no SSN digits
    are claimed, the call returns verified whatever the recorded last
    payment is. *)
Theorem nan_amount_verifies `{py : Python}
    (self : ConversationService.t) (clock : Clock) (conversation_id : string)
    (verification_data : gmap string string) (db : Session)
    (i : nat) (c : Conversation.t) (j : nat) (loan : Loan.t)
    (k : nat) (borrower : Borrower.t) (claimed : string) :
  first (Spec.has_id conversation_id) (conversations (rows db)) = Some (i, c) ->
  first (fun l : Loan.t => Loan.id l =? Conversation.loan_id c) (loans (rows db))
  = Some (j, loan) ->
  first (fun b : Borrower.t => Borrower.id b =? Conversation.borrower_id c)
        (borrowers (rows db)) = Some (k, borrower) ->
  Conversation.verification_attempts c
  < ConversationService.max_verification_attempts self ->
  verification_data !! "last_four_ssn" = None ->
  verification_data !! "last_payment_amount" = Some claimed ->
  float_of_str claimed = Some S754_nan ->
  exists db' : Session,
    ConversationService.verify_identity self clock conversation_id
      verification_data db
    = (db',
       Ok (VerificationResult.mk true "Identity verified successfully."
             (ConversationService.max_verification_attempts self
              - (Conversation.verification_attempts c + 1))))
    /\ durable db' = rows db'.
Proof.
  intros Hfound Hloan Hborrower Hmax Hssn Hamount Hnan.
  eexists. split.
  - apply (verify_identity_passed self clock conversation_id verification_data db
             i c j loan k borrower Hfound Hloan Hborrower Hmax).
    unfold ConversationService.verification_passed.
    rewrite Hssn, Hamount, Hnan.
    unfold mbind, res_bind, mret, res_ret. cbn [bind].
    unfold PyFloat.sub, SFsub.
    destruct (ConversationService.or_0 (Loan.last_payment_amount loan)); reflexivity.
  - reflexivity.
Qed.

(** The text "nan" against a recorded last payment of 300. *)
Lemma nan_amount_verifies_witness :
  exists db' : Session,
    ConversationService.verify_identity (py := SpecialFloats.python)
      ConversationService.conversation_service
      (Examples.clock_at Examples.tuesday_morning) "s1"
      MoreExamples.nan_amount Examples.db
    = (db', Ok (VerificationResult.mk true "Identity verified successfully." 2))
    /\ durable db' = rows db'.
Proof.
  apply (nan_amount_verifies (py := SpecialFloats.python)
           ConversationService.conversation_service
           (Examples.clock_at Examples.tuesday_morning) "s1"
           MoreExamples.nan_amount Examples.db
           0%nat Examples.conversation 0%nat Examples.loan 0%nat Examples.borrower
           "nan").
  - reflexivity.
  - reflexivity.
  - reflexivity.
  - simpl. lia.
  - reflexivity.
  - reflexivity.
  - reflexivity.
Defined.

Section VerifiedFlag.
Import ConversationService.
Context `{py : Python}.

(** One call never clears the verified flag of the conversation it
    finds, and keeps its identifier. *)
Lemma verify_identity_flag (self : t) (clock : Clock) (conversation_id : string)
    (verification_data : gmap string string) (db : Session)
    (i : nat) (c : Conversation.t) :
  first (Spec.has_id conversation_id) (conversations (rows db)) = Some (i, c) ->
  exists c' : Conversation.t,
    conversations
      (rows (fst (verify_identity self clock conversation_id verification_data db)))
    = <[i := c']> (conversations (rows db))
    /\ Conversation.conversation_id c' = Conversation.conversation_id c
    /\ (Conversation.identity_verified c = true ->
        Conversation.identity_verified c' = true).
Proof.
  intros Hfound. unfold verify_identity. fold (Spec.has_id conversation_id).
  rewrite Hfound.
  pose proof Hfound as Hi. unfold first in Hi.
  apply list_find_Some in Hi as (Hi & _ & _).
  destruct (max_verification_attempts self <=? Conversation.verification_attempts c).
  { eexists. simpl. split; [reflexivity |]. split; [reflexivity | auto]. }
  destruct (verification_passed verification_data _ _) as [passed | e].
  - destruct passed;
      destruct (snd <$> first (fun b : Borrower.t =>
                                 Borrower.id b =? Conversation.borrower_id c)
                              (borrowers (rows db)));
      destruct (snd <$> first (fun l : Loan.t =>
                                 Loan.id l =? Conversation.loan_id c)
                              (loans (rows db)));
      eexists; simpl; rewrite ?list_insert_insert_eq;
      (split; [reflexivity |]); (split; [reflexivity | auto]).
  - exists c. simpl. rewrite (list_insert_id _ _ _ Hi). auto.
Qed.

Lemma verify_identity_keeps_flag (self : t) (clock : Clock)
    (conversation_id : string) (verification_data : gmap string string)
    (db : Session) (n : nat) (c : Conversation.t) :
  conversations (rows db) !! n = Some c ->
  Conversation.identity_verified c = true ->
  exists c' : Conversation.t,
    conversations
      (rows (fst (verify_identity self clock conversation_id verification_data db)))
    !! n = Some c'
    /\ Conversation.identity_verified c' = true
    /\ Conversation.conversation_id c' = Conversation.conversation_id c.
Proof.
  intros Hn Hv.
  destruct (first (Spec.has_id conversation_id) (conversations (rows db)))
    as [[i c0] |] eqn:Hfound.
  - destruct (verify_identity_flag self clock conversation_id verification_data
                db i c0 Hfound) as (c' & Hrows & Hid & Hflag).
    rewrite Hrows.
    destruct (decide (n = i)) as [-> | Hne].
    + unfold first in Hfound. apply list_find_Some in Hfound as (Hi & _ & _).
      rewrite Hi in Hn. injection Hn as ->.
      exists c'. split; [| split; [exact (Hflag Hv) | exact Hid]].
      apply list_lookup_insert_eq. eapply lookup_lt_Some. exact Hi.
    + exists c. rewrite list_lookup_insert_ne by congruence. auto.
  - exists c. unfold verify_identity. fold (Spec.has_id conversation_id).
    rewrite Hfound. simpl. auto.
Qed.

End VerifiedFlag.

(** X14. Verification is never undone. Through any run of calls of
    [verify_identity], on whatever conversations and with whatever data,
    wrong answers and the lock-out included, a conversation that is
    verified stays verified and keeps its identifier. *)
Theorem verified_stays_verified `{py : Python}
    (self : ConversationService.t) (calls : list Spec.VerifyCall) (db : Session)
    (n : nat) (c : Conversation.t) :
  conversations (rows db) !! n = Some c ->
  Conversation.identity_verified c = true ->
  exists c' : Conversation.t,
    conversations (rows (fst (Spec.verify_each self calls db))) !! n = Some c'
    /\ Conversation.identity_verified c' = true
    /\ Conversation.conversation_id c' = Conversation.conversation_id c.
Proof.
  revert db c. induction calls as [| call calls IH]; intros db c Hn Hv.
  - exists c. auto.
  - simpl.
    destruct (verify_identity_keeps_flag self (Spec.call_clock call)
                (Spec.call_conversation_id call) (Spec.call_data call) db n c Hn Hv)
      as (c1 & Hn1 & Hv1 & Hid1).
    destruct (ConversationService.verify_identity self (Spec.call_clock call)
                (Spec.call_conversation_id call) (Spec.call_data call) db)
      as [db1 r].
    simpl in Hn1.
    destruct (IH db1 c1 Hn1 Hv1) as (c' & Hn' & Hv' & Hid').
    destruct (Spec.verify_each self calls db1) as [db2 rs]. simpl in *.
    exists c'. split; [exact Hn' |]. split; [exact Hv' | congruence].
Qed.

(** Five wrong answers on a verified conversation: it ends up locked and
    escalated, and still verified. *)
Lemma verified_stays_verified_witness :
  exists c' : Conversation.t,
    conversations
      (rows (fst (Spec.verify_each (py := RefPython.ref_python)
                    ConversationService.conversation_service
                    (Spec.calls_on "s1"
                       (replicate 5 (Examples.clock_at Examples.tuesday_morning,
                                     Examples.wrong_ssn)))
                    MoreExamples.verified_db)))
    !! 0%nat = Some c'
    /\ Conversation.identity_verified c' = true
    /\ Conversation.conversation_id c' = "s1".
Proof.
  apply (verified_stays_verified (py := RefPython.ref_python)
           ConversationService.conversation_service
           (Spec.calls_on "s1"
              (replicate 5 (Examples.clock_at Examples.tuesday_morning,
                            Examples.wrong_ssn)))
           MoreExamples.verified_db 0%nat MoreExamples.verified_conversation);
    reflexivity.
Defined.

(** ** Schedules, continued *)

Section MonthlySteps.
Import PyDatetime ConversationService.

Lemma replace_year_month_ok (d : datetime) (y m : Z) :
  1 <= y <= MAXYEAR -> 1 <= m <= 12 -> 1 <= day d <= days_in_month y m ->
  replace_year_month d y m
  = Ok (mk_datetime y m (day d) (hour d) (minute d) (second d) (microsecond d)).
Proof.
  intros Hy Hm Hd. unfold replace_year_month.
  rewrite (proj2 (Z.leb_le 1 y)), (proj2 (Z.leb_le y MAXYEAR)) by lia.
  rewrite (proj2 (Z.leb_le 1 m)), (proj2 (Z.leb_le m 12)) by lia.
  rewrite (proj2 (Z.leb_le 1 (day d))), (proj2 (Z.leb_le (day d) _)) by lia.
  reflexivity.
Qed.

Lemma replace_year_month_bad_day (d : datetime) (y m : Z) :
  1 <= y <= MAXYEAR -> 1 <= m <= 12 -> days_in_month y m < day d ->
  replace_year_month d y m = Raise (ValueError "day is out of range for month").
Proof.
  intros Hy Hm Hd. unfold replace_year_month.
  rewrite (proj2 (Z.leb_le 1 y)), (proj2 (Z.leb_le y MAXYEAR)) by lia.
  rewrite (proj2 (Z.leb_le 1 m)), (proj2 (Z.leb_le m 12)) by lia.
  rewrite (proj2 (Z.leb_gt (day d) _)) by lia.
  rewrite andb_false_r. reflexivity.
Qed.

Lemma days_in_month_bounds (y m : Z) :
  1 <= m <= 12 -> 28 <= days_in_month y m <= 31.
Proof.
  intros Hm. unfold days_in_month.
  destruct ((m =? 2) && is_leap y); [lia |].
  assert (Hcases : m = 1 \/ m = 2 \/ m = 3 \/ m = 4 \/ m = 5 \/ m = 6 \/ m = 7
                   \/ m = 8 \/ m = 9 \/ m = 10 \/ m = 11 \/ m = 12) by lia.
  repeat (destruct Hcases as [-> | Hcases]; [simpl; lia |]).
  subst m. simpl. lia.
Qed.

Lemma days_in_month_short (y m : Z) :
  m = 2 \/ m = 4 \/ m = 6 \/ m = 9 \/ m = 11 -> days_in_month y m < 31.
Proof.
  intros Hm. unfold days_in_month.
  destruct ((m =? 2) && is_leap y); [lia |].
  repeat (destruct Hm as [-> | Hm]; [simpl; lia |]).
  subst m. simpl. lia.
Qed.

Lemma days_in_month_long (y m : Z) :
  m = 1 \/ m = 3 \/ m = 5 \/ m = 7 \/ m = 8 \/ m = 10 \/ m = 12 ->
  days_in_month y m = 31.
Proof.
  intros Hm. unfold days_in_month.
  repeat (destruct Hm as [-> | Hm]; [reflexivity |]).
  subst m. reflexivity.
Qed.

(** The monthly step of [next_due_date]. *)
Lemma next_due_date_monthly (frequency : string) (d : datetime) :
  frequency <> "weekly" -> frequency <> "bi-weekly" ->
  next_due_date frequency d
  = if month d =? 12 then replace_year_month d (year d + 1) 1
    else replace_year_month d (year d) (month d + 1).
Proof.
  intros Hw Hb. unfold next_due_date.
  rewrite !bool_decide_eq_false_2 by assumption. reflexivity.
Qed.

(** A first step that raises makes the loop raise. *)
Lemma scheduled_payments_first_step_raises (payment_plan : PaymentPlan.t)
    (next_id i : Z) (n : nat) (d : datetime) (e : exn) :
  next_due_date (PaymentPlan.payment_frequency payment_plan) d = Raise e ->
  scheduled_payments_from payment_plan next_id i (S n) d = Raise e.
Proof. intros H. simpl. rewrite H. reflexivity. Qed.

(** So does a second step that raises. *)
Lemma scheduled_payments_second_step_raises (payment_plan : PaymentPlan.t)
    (next_id i : Z) (n : nat) (d d1 : datetime) (e : exn) :
  next_due_date (PaymentPlan.payment_frequency payment_plan) d = Ok d1 ->
  next_due_date (PaymentPlan.payment_frequency payment_plan) d1 = Raise e ->
  scheduled_payments_from payment_plan next_id i (S (S n)) d = Raise e.
Proof.
  intros H H1. cbn [scheduled_payments_from]. rewrite H.
  unfold mbind, res_bind. cbn [bind]. rewrite H1. reflexivity.
Qed.

End MonthlySteps.

(** X15. A monthly schedule that starts on a 31st is not built. The
    monthly step keeps the day of the month and is also taken after the
    last row, so from a valid first payment date on day 31, with any
    frequency other than weekly and bi-weekly, two installments or more
    always raise "day is out of range for month", and so does a single
    installment unless the month is July or December. *)
Theorem monthly_schedule_from_day_31_fails (payment_plan : PaymentPlan.t)
    (db : Session) :
  let d := PaymentPlan.first_payment_date payment_plan in
  PaymentPlan.payment_frequency payment_plan <> "weekly" ->
  PaymentPlan.payment_frequency payment_plan <> "bi-weekly" ->
  PyDatetime.check_date_fields (PyDatetime.year d) (PyDatetime.month d)
    (PyDatetime.day d) = true ->
  PyDatetime.day d = 31 ->
  PyDatetime.year d < PyDatetime.MAXYEAR ->
  2 <= PaymentPlan.number_of_installments payment_plan
  \/ (1 <= PaymentPlan.number_of_installments payment_plan
      /\ PyDatetime.month d <> 7 /\ PyDatetime.month d <> 12) ->
  ConversationService._create_scheduled_payments payment_plan db
  = Raise (ValueError "day is out of range for month").
Proof.
  intros d Hw Hb Hvalid Hday Hyear Hcount.
  assert (Hnew : ConversationService.new_scheduled_payments payment_plan db
                 = Raise (ValueError "day is out of range for month")).
  2:{ unfold ConversationService._create_scheduled_payments. rewrite Hnew.
      reflexivity. }
  unfold ConversationService.new_scheduled_payments. fold d.
  unfold PyDatetime.check_date_fields in Hvalid.
  repeat (apply andb_true_iff in Hvalid as [Hvalid ?]).
  repeat match goal with
         | H : (_ <=? _) = true |- _ => apply Z.leb_le in H
         end.
  unfold PyDatetime.MAXYEAR in *.
  assert (Hlong : PyDatetime.month d = 1 \/ PyDatetime.month d = 3
                  \/ PyDatetime.month d = 5 \/ PyDatetime.month d = 7
                  \/ PyDatetime.month d = 8 \/ PyDatetime.month d = 10
                  \/ PyDatetime.month d = 12).
  { destruct (Z.eq_dec (PyDatetime.month d) 2) as [E | ?];
      [pose proof (days_in_month_short (PyDatetime.year d) (PyDatetime.month d)); lia |].
    destruct (Z.eq_dec (PyDatetime.month d) 4) as [E | ?];
      [pose proof (days_in_month_short (PyDatetime.year d) (PyDatetime.month d)); lia |].
    destruct (Z.eq_dec (PyDatetime.month d) 6) as [E | ?];
      [pose proof (days_in_month_short (PyDatetime.year d) (PyDatetime.month d)); lia |].
    destruct (Z.eq_dec (PyDatetime.month d) 9) as [E | ?];
      [pose proof (days_in_month_short (PyDatetime.year d) (PyDatetime.month d)); lia |].
    destruct (Z.eq_dec (PyDatetime.month d) 11) as [E | ?];
      [pose proof (days_in_month_short (PyDatetime.year d) (PyDatetime.month d)); lia |].
    lia. }
  (* the first step *)
  assert (Hstep1 :
    (PyDatetime.month d <> 7 /\ PyDatetime.month d <> 12
     /\ ConversationService.next_due_date
          (PaymentPlan.payment_frequency payment_plan) d
        = Raise (ValueError "day is out of range for month"))
    \/ (exists d1,
          ConversationService.next_due_date
            (PaymentPlan.payment_frequency payment_plan) d = Ok d1
          /\ ConversationService.next_due_date
               (PaymentPlan.payment_frequency payment_plan) d1
             = Raise (ValueError "day is out of range for month"))).
  { rewrite (next_due_date_monthly _ d Hw Hb).
    destruct Hlong as [Hm | [Hm | [Hm | [Hm | [Hm | [Hm | Hm]]]]]]; rewrite Hm;
      simpl (_ =? 12); cbv iota.
    - left. split; [lia |]. split; [lia |].
      apply replace_year_month_bad_day; [unfold PyDatetime.MAXYEAR; lia | lia |].
      pose proof (days_in_month_short (PyDatetime.year d) (1 + 1)). lia.
    - left. split; [lia |]. split; [lia |].
      apply replace_year_month_bad_day; [unfold PyDatetime.MAXYEAR; lia | lia |].
      pose proof (days_in_month_short (PyDatetime.year d) (3 + 1)). lia.
    - left. split; [lia |]. split; [lia |].
      apply replace_year_month_bad_day; [unfold PyDatetime.MAXYEAR; lia | lia |].
      pose proof (days_in_month_short (PyDatetime.year d) (5 + 1)). lia.
    - right. eexists. split.
      + apply replace_year_month_ok; [unfold PyDatetime.MAXYEAR; lia | lia |].
        rewrite (days_in_month_long _ (7 + 1)) by lia. lia.
      + rewrite (next_due_date_monthly _ _ Hw Hb).
        cbn [PyDatetime.month PyDatetime.year]. simpl (_ =? 12). cbv iota.
        apply replace_year_month_bad_day;
          cbn [PyDatetime.day]; [unfold PyDatetime.MAXYEAR; lia | lia |].
        pose proof (days_in_month_short (PyDatetime.year d) (7 + 1 + 1)). lia.
    - left. split; [lia |]. split; [lia |].
      apply replace_year_month_bad_day; [unfold PyDatetime.MAXYEAR; lia | lia |].
      pose proof (days_in_month_short (PyDatetime.year d) (8 + 1)). lia.
    - left. split; [lia |]. split; [lia |].
      apply replace_year_month_bad_day; [unfold PyDatetime.MAXYEAR; lia | lia |].
      pose proof (days_in_month_short (PyDatetime.year d) (10 + 1)). lia.
    - right. eexists. split.
      + apply replace_year_month_ok; [unfold PyDatetime.MAXYEAR; lia | lia |].
        rewrite (days_in_month_long _ 1) by lia. lia.
      + rewrite (next_due_date_monthly _ _ Hw Hb).
        cbn [PyDatetime.month PyDatetime.year]. simpl (_ =? 12). cbv iota.
        apply replace_year_month_bad_day;
          cbn [PyDatetime.day]; [unfold PyDatetime.MAXYEAR; lia | lia |].
        pose proof (days_in_month_short (PyDatetime.year d + 1) (1 + 1)). lia. }
  destruct (Z.to_nat (PaymentPlan.number_of_installments payment_plan))
    as [| [| n]] eqn:Hn; [lia | |].
  - destruct Hstep1 as [(_ & _ & Hraise) | (d1 & Hok & Hraise)].
    + apply scheduled_payments_first_step_raises. exact Hraise.
    + exfalso.
      rewrite (next_due_date_monthly _ d Hw Hb) in Hok.
      destruct Hcount as [? | (_ & H7 & H12)]; [lia |].
      destruct Hlong as [Hm | [Hm | [Hm | [Hm | [Hm | [Hm | Hm]]]]]];
        try contradiction; rewrite Hm in Hok; simpl (_ =? 12) in Hok;
        cbv iota in Hok;
        rewrite replace_year_month_bad_day in Hok;
        try discriminate Hok; try (unfold PyDatetime.MAXYEAR; lia).
      * pose proof (days_in_month_short (PyDatetime.year d) (1 + 1)). lia.
      * pose proof (days_in_month_short (PyDatetime.year d) (3 + 1)). lia.
      * pose proof (days_in_month_short (PyDatetime.year d) (5 + 1)). lia.
      * pose proof (days_in_month_short (PyDatetime.year d) (8 + 1)). lia.
      * pose proof (days_in_month_short (PyDatetime.year d) (10 + 1)). lia.
  - destruct Hstep1 as [(_ & _ & Hraise) | (d1 & Hok & Hraise)].
    + apply scheduled_payments_first_step_raises. exact Hraise.
    + apply (scheduled_payments_second_step_raises _ _ _ _ _ d1); assumption.
Qed.

(** One installment, due on 2026-01-31: the step to February raises. *)
Lemma monthly_schedule_from_day_31_fails_witness :
  ConversationService._create_scheduled_payments
    (MoreExamples.plan_row 1 (Examples.at_date 2026 1 31) "monthly") Examples.db
  = Raise (ValueError "day is out of range for month").
Proof.
  apply (monthly_schedule_from_day_31_fails
           (MoreExamples.plan_row 1 (Examples.at_date 2026 1 31) "monthly")
           Examples.db).
  - discriminate.
  - discriminate.
  - reflexivity.
  - reflexivity.
  - reflexivity.
  - right. simpl. repeat split; lia.
Defined.

Section MonthlySchedules.
Import PyDatetime ConversationService.

Lemma monthly_rows (payment_plan : PaymentPlan.t) (n : nat) :
  PaymentPlan.payment_frequency payment_plan <> "weekly" ->
  PaymentPlan.payment_frequency payment_plan <> "bi-weekly" ->
  forall (next_id i : Z) (d : datetime),
    1 <= day d <= 28 -> 1 <= month d <= 12 -> 1 <= year d ->
    12 * year d + month d + Z.of_nat n <= 12 * MAXYEAR + 12 ->
    exists new : list ScheduledPayment.t,
      scheduled_payments_from payment_plan next_id i n d = Ok new
      /\ length new = n
      /\ forall (k : nat) (r : ScheduledPayment.t),
           new !! k = Some r ->
           ScheduledPayment.installment_number r = i + Z.of_nat k + 1
           /\ day (ScheduledPayment.due_date r) = day d
           /\ 1 <= month (ScheduledPayment.due_date r) <= 12
           /\ 12 * year (ScheduledPayment.due_date r)
              + month (ScheduledPayment.due_date r)
              = 12 * year d + month d + Z.of_nat k
           /\ Spec.same_time_of_day d (ScheduledPayment.due_date r).
Proof.
  intros Hw Hb.
  induction n as [| n IH]; intros next_id i d Hday Hmonth Hyear Hlast.
  - exists []. split; [reflexivity |]. split; [reflexivity |].
    intros k r Hk. discriminate Hk.
  - cbn [scheduled_payments_from].
    rewrite (next_due_date_monthly _ d Hw Hb).
    assert (Hnext :
      exists d1,
        (if month d =? 12 then replace_year_month d (year d + 1) 1
         else replace_year_month d (year d) (month d + 1)) = Ok d1
        /\ day d1 = day d /\ 1 <= month d1 <= 12 /\ 1 <= year d1
        /\ 12 * year d1 + month d1 = 12 * year d + month d + 1
        /\ Spec.same_time_of_day d d1).
    { unfold MAXYEAR in *.
      destruct (month d =? 12) eqn:Hdec;
        [apply Z.eqb_eq in Hdec | apply Z.eqb_neq in Hdec];
        eexists; (split; [apply replace_year_month_ok |]);
        try (unfold MAXYEAR; lia);
        try (simpl; repeat split; lia).
      - pose proof (days_in_month_bounds (year d + 1) 1). lia.
      - pose proof (days_in_month_bounds (year d) (month d + 1)). lia. }
    destruct Hnext as (d1 & -> & Hd1 & Hm1 & Hy1 & Hidx & Htime).
    unfold mbind, res_bind, mret, res_ret. cbn [bind].
    destruct (IH (next_id + 1) (i + 1) d1 ltac:(lia) Hm1 Hy1 ltac:(lia))
      as (rest & -> & Hlen & Hrows).
    cbn [bind]. eexists. split; [reflexivity |]. split; [simpl; lia |].
    intros [| k] r Hk; simpl in Hk.
    + injection Hk as <-. simpl. repeat split; lia.
    + destruct (Hrows k r Hk) as (Hnum & Hd & Hm & Hi & Ht).
      destruct Htime as (H1 & H2 & H3 & H4). destruct Ht as (H5 & H6 & H7 & H8).
      repeat split; try lia; congruence.
Qed.

End MonthlySchedules.

(** X16. A monthly schedule that starts on a day up to the 28th is
    always built. With any frequency other than weekly and bi-weekly,
    from a first payment date on day 1 to 28 and as long as the last
    step stays within the year 9999, the rows are created, as many as
    the count says: the row of rank [k] is numbered [k + 1] and is due
    [k] calendar months after the first payment date, on the same day of
    the month and at the same time of day. *)
Theorem monthly_schedule_up_to_day_28 (payment_plan : PaymentPlan.t)
    (db : Session) :
  let d := PaymentPlan.first_payment_date payment_plan in
  let n := PaymentPlan.number_of_installments payment_plan in
  PaymentPlan.payment_frequency payment_plan <> "weekly" ->
  PaymentPlan.payment_frequency payment_plan <> "bi-weekly" ->
  1 <= PyDatetime.day d <= 28 ->
  1 <= PyDatetime.month d <= 12 ->
  1 <= PyDatetime.year d ->
  12 * PyDatetime.year d + PyDatetime.month d + Z.max 0 n
  <= 12 * PyDatetime.MAXYEAR + 12 ->
  exists new : list ScheduledPayment.t,
    ConversationService.new_scheduled_payments payment_plan db = Ok new
    /\ length new = Z.to_nat n
    /\ forall (k : nat) (r : ScheduledPayment.t),
         new !! k = Some r ->
         ScheduledPayment.installment_number r = Z.of_nat k + 1
         /\ PyDatetime.day (ScheduledPayment.due_date r) = PyDatetime.day d
         /\ 1 <= PyDatetime.month (ScheduledPayment.due_date r) <= 12
         /\ 12 * PyDatetime.year (ScheduledPayment.due_date r)
            + PyDatetime.month (ScheduledPayment.due_date r)
            = 12 * PyDatetime.year d + PyDatetime.month d + Z.of_nat k
         /\ Spec.same_time_of_day d (ScheduledPayment.due_date r).
Proof.
  intros d n Hw Hb Hday Hmonth Hyear Hlast.
  unfold ConversationService.new_scheduled_payments. fold d n.
  destruct (monthly_rows payment_plan (Z.to_nat n) Hw Hb
              (fresh_id (ScheduledPayment.id <$> scheduled_payments (rows db)))
              0 d Hday Hmonth Hyear ltac:(lia))
    as (new & Hnew & Hlen & Hrows).
  exists new. split; [exact Hnew |]. split; [exact Hlen |].
  intros k r Hk. destruct (Hrows k r Hk) as (Hnum & Hrest).
  split; [lia | exact Hrest].
Qed.

(** Three monthly installments from 2025-11-28. *)
Lemma monthly_schedule_up_to_day_28_witness :
  exists new : list ScheduledPayment.t,
    ConversationService.new_scheduled_payments
      (MoreExamples.plan_row 3 (Examples.at_date 2025 11 28) "monthly") Examples.db
    = Ok new
    /\ length new = 3%nat
    /\ ScheduledPayment.due_date <$> new
       = [Examples.at_date 2025 11 28; Examples.at_date 2025 12 28;
          Examples.at_date 2026 1 28].
Proof.
  destruct (monthly_schedule_up_to_day_28
              (MoreExamples.plan_row 3 (Examples.at_date 2025 11 28) "monthly")
              Examples.db)
    as (new & Hnew & Hlen & _); simpl; try lia; try discriminate.
  exists new. split; [exact Hnew |]. split; [exact Hlen |].
  vm_compute in Hnew. injection Hnew as <-. reflexivity.
Defined.

Section WeeklySchedules.
Import PyDatetime ConversationService.

Lemma weekly_rows (payment_plan : PaymentPlan.t) (step : Z) (n : nat) :
  (forall d, next_due_date (PaymentPlan.payment_frequency payment_plan) d
             = add_days d step) ->
  forall (next_id i : Z) (d : datetime) (new : list ScheduledPayment.t),
    scheduled_payments_from payment_plan next_id i n d = Ok new ->
    forall (k : nat) (r : ScheduledPayment.t),
      new !! k = Some r ->
      ScheduledPayment.installment_number r = i + Z.of_nat k + 1
      /\ toordinal (ScheduledPayment.due_date r) = toordinal d + step * Z.of_nat k
      /\ Spec.same_time_of_day d (ScheduledPayment.due_date r).
Proof.
  intros Hstep.
  induction n as [| n IH]; intros next_id i d new H k r Hk.
  - injection H as <-. discriminate Hk.
  - cbn [scheduled_payments_from] in H. rewrite Hstep in H.
    destruct (add_days d step) as [d1 |] eqn:Hd1; [| discriminate H].
    unfold mbind, res_bind, mret, res_ret in H. cbn [bind] in H.
    destruct (scheduled_payments_from payment_plan (next_id + 1) (i + 1) n d1)
      as [rest |] eqn:Hrest; [| discriminate H].
    cbn [bind] in H. injection H as <-.
    destruct k as [| k]; simpl in Hk.
    + injection Hk as <-. simpl. repeat split; lia.
    + destruct (IH _ _ _ _ Hrest k r Hk) as (Hnum & Hord & Ht).
      destruct (add_days_ordinal d d1 step Hd1) as (Hord1 & Ht1).
      destruct Ht1 as (H1 & H2 & H3 & H4). destruct Ht as (H5 & H6 & H7 & H8).
      repeat split; try lia; congruence.
Qed.

End WeeklySchedules.

(** X17. A weekly or bi-weekly schedule stays on its weekday. Of every
    schedule that is built with the frequency weekly, or bi-weekly, the
    row of rank [k] is numbered [k + 1] and is due exactly 7, or 14,
    times [k] days after the first payment date: on the same weekday and
    at the same time of day. *)
Theorem weekly_schedule_keeps_weekday (payment_plan : PaymentPlan.t)
    (db : Session) (new : list ScheduledPayment.t) :
  ConversationService.new_scheduled_payments payment_plan db = Ok new ->
  PaymentPlan.payment_frequency payment_plan = "weekly"
  \/ PaymentPlan.payment_frequency payment_plan = "bi-weekly" ->
  forall (k : nat) (r : ScheduledPayment.t),
    new !! k = Some r ->
    ScheduledPayment.installment_number r = Z.of_nat k + 1
    /\ PyDatetime.toordinal (ScheduledPayment.due_date r)
       = PyDatetime.toordinal (PaymentPlan.first_payment_date payment_plan)
         + (if bool_decide (PaymentPlan.payment_frequency payment_plan = "weekly")
            then 7 else 14) * Z.of_nat k
    /\ PyDatetime.weekday (ScheduledPayment.due_date r)
       = PyDatetime.weekday (PaymentPlan.first_payment_date payment_plan)
    /\ Spec.same_time_of_day (PaymentPlan.first_payment_date payment_plan)
         (ScheduledPayment.due_date r).
Proof.
  intros Hnew Hfreq k r Hk.
  unfold ConversationService.new_scheduled_payments in Hnew.
  assert (Hrow :
    ScheduledPayment.installment_number r = 0 + Z.of_nat k + 1
    /\ PyDatetime.toordinal (ScheduledPayment.due_date r)
       = PyDatetime.toordinal (PaymentPlan.first_payment_date payment_plan)
         + (if bool_decide (PaymentPlan.payment_frequency payment_plan = "weekly")
            then 7 else 14) * Z.of_nat k
    /\ Spec.same_time_of_day (PaymentPlan.first_payment_date payment_plan)
         (ScheduledPayment.due_date r)).
  { refine (weekly_rows payment_plan _ _ _ _ _ _ _ Hnew k r Hk).
    intros d. unfold ConversationService.next_due_date.
    destruct Hfreq as [-> | ->]; reflexivity. }
  destruct Hrow as (Hnum & Hord & Htime).
  split; [lia |]. split; [exact Hord |]. split; [| exact Htime].
  unfold PyDatetime.weekday. rewrite Hord.
  destruct (bool_decide _).
  - replace (PyDatetime.toordinal (PaymentPlan.first_payment_date payment_plan)
             + 7 * Z.of_nat k + 6)
      with (PyDatetime.toordinal (PaymentPlan.first_payment_date payment_plan) + 6
            + Z.of_nat k * 7) by lia.
    apply Z_mod_plus_full.
  - replace (PyDatetime.toordinal (PaymentPlan.first_payment_date payment_plan)
             + 14 * Z.of_nat k + 6)
      with (PyDatetime.toordinal (PaymentPlan.first_payment_date payment_plan) + 6
            + (2 * Z.of_nat k) * 7) by lia.
    apply Z_mod_plus_full.
Qed.

(** Three bi-weekly installments from Tuesday 2025-11-04: the third is
    due 28 days later, on a Tuesday. *)
Lemma weekly_schedule_keeps_weekday_witness :
  exists (new : list ScheduledPayment.t) (r : ScheduledPayment.t),
    ConversationService.new_scheduled_payments
      (MoreExamples.plan_row 3 Examples.tuesday_morning "bi-weekly") Examples.db
    = Ok new
    /\ new !! 2%nat = Some r
    /\ ScheduledPayment.due_date r = mk_datetime 2025 12 2 10 0 0 0
    /\ ScheduledPayment.installment_number r = 3
    /\ PyDatetime.weekday (ScheduledPayment.due_date r) = 1.
Proof.
  destruct (ConversationService.new_scheduled_payments
              (MoreExamples.plan_row 3 Examples.tuesday_morning "bi-weekly")
              Examples.db) as [new |] eqn:Hnew;
    [| vm_compute in Hnew; discriminate Hnew].
  destruct (new !! 2%nat) as [r |] eqn:Hr;
    [| vm_compute in Hnew; injection Hnew as <-; discriminate Hr].
  destruct (weekly_schedule_keeps_weekday _ _ new Hnew (or_intror eq_refl) 2%nat r Hr)
    as (Hnum & _ & Hday & _).
  exists new, r. split; [reflexivity |]. split; [exact Hr |].
  split; [vm_compute in Hnew; injection Hnew as <-; injection Hr as <-; reflexivity |].
  split; [exact Hnum | exact Hday].
Defined.

(** X18. A negative installment count is not rejected. Where the limit
    on the months is not negative, an installment proposal with a count
    below zero and an amount that is not under 25 passes the plan
    validation; built into a plan, its row records the negative count
    and no schedule row is added. *)
Theorem negative_installment_count_is_accepted `{py : Python}
    (env : Env) (clock : Clock) (loan : Loan.t) (conversation : Conversation.t)
    (plan : StructuredPlan.t) (db : Session) (n : Z) (s : string) (d : datetime) :
  StructuredPlan.type plan = PlanType.INSTALLMENT ->
  StructuredPlan.installments plan = Some n ->
  n < 0 ->
  0 <= MAX_INSTALLMENT_MONTHS env ->
  PyFloat.lt (StructuredPlan.amount plan) (PyFloat.of_Z 25) = false ->
  StructuredPlan.first_due_date plan = Some s ->
  PyStr.truthy s = true ->
  datetime_fromisoformat s = Some d ->
  LLMService._validate_payment_plan env plan = []
  /\ exists (db' : Session) (plan_id : Z) (row : PaymentPlan.t),
       ConversationService._create_payment_plan clock loan conversation plan db
       = Ok (db', plan_id)
       /\ payment_plans (rows db') = payment_plans (rows db) ++ [row]
       /\ PaymentPlan.number_of_installments row = n
       /\ scheduled_payments (rows db') = scheduled_payments (rows db).
Proof.
  intros Htype Hcount Hneg Hmax Hamount Hdate Htruthy Hparse. split.
  - unfold LLMService._validate_payment_plan.
    rewrite Htype, Hcount, Hamount. simpl.
    rewrite (proj2 (Z.ltb_ge _ _)) by lia. rewrite andb_false_r. reflexivity.
  - unfold ConversationService._create_payment_plan,
      ConversationService.new_payment_plan.
    rewrite Hdate, Htruthy, Hparse, Htype, Hcount.
    unfold mbind, res_bind, mret, res_ret. cbn [bind]. simpl.
    destruct (n =? 0) eqn:Hzero; [apply Z.eqb_eq in Hzero; lia |].
    simpl. unfold ConversationService._create_scheduled_payments,
      ConversationService.new_scheduled_payments.
    simpl. replace (Z.to_nat n) with 0%nat by lia. simpl.
    eexists _, _, _. split; [reflexivity |]. simpl.
    rewrite app_nil_r. repeat split.
Qed.

(** A count of -5 in a proposal of installments of 200. *)
Lemma negative_installment_count_is_accepted_witness :
  LLMService._validate_payment_plan default_env MoreExamples.negative_count_plan = []
  /\ exists (db' : Session) (plan_id : Z) (row : PaymentPlan.t),
       ConversationService._create_payment_plan (py := RefPython.ref_python)
         (Examples.clock_at Examples.tuesday_morning) Examples.loan
         Examples.conversation MoreExamples.negative_count_plan Examples.db
       = Ok (db', plan_id)
       /\ payment_plans (rows db') = payment_plans (rows Examples.db) ++ [row]
       /\ PaymentPlan.number_of_installments row = -5
       /\ scheduled_payments (rows db') = scheduled_payments (rows Examples.db).
Proof.
  apply (negative_installment_count_is_accepted (py := RefPython.ref_python)
           default_env (Examples.clock_at Examples.tuesday_morning) Examples.loan
           Examples.conversation MoreExamples.negative_count_plan Examples.db
           (-5) "2025-11-10" (Examples.at_date 2025 11 10)).
  - reflexivity.
  - reflexivity.
  - lia.
  - simpl. lia.
  - reflexivity.
  - reflexivity.
  - reflexivity.
  - reflexivity.
Defined.

(** ** The message check of the compliance service *)

Section MessageCheck.
Import ComplianceCheck ComplianceRequests.

Lemma filter_nil_iff {A : Type} (P : A -> bool) (l : list A) :
  filter (fun x => P x = true) l = [] <-> Forall (fun x => P x = false) l.
Proof.
  induction l as [| x l IH]; [split; [constructor | reflexivity] |].
  rewrite filter_cons. destruct (P x) eqn:E.
  - rewrite decide_True by reflexivity. split; [discriminate |].
    intros H. inversion H; congruence.
  - rewrite decide_False by discriminate. rewrite IH. split.
    + intros H. constructor; assumption.
    + intros H. inversion H; assumption.
Qed.

Lemma existsb_false_iff {A : Type} (P : A -> bool) (l : list A) :
  existsb P l = false <-> Forall (fun x => P x = false) l.
Proof.
  induction l as [| x l IH]; simpl; [split; [constructor | reflexivity] |].
  rewrite orb_false_iff, IH. split.
  - intros [? ?]. constructor; assumption.
  - intros H. inversion H; auto.
Qed.

Lemma contains_dollar_lower (s : string) :
  PyStr.contains "$" s = true -> PyStr.contains "$" (PyStr.lower s) = true.
Proof.
  induction s as [| c s IH]; [discriminate |].
  cbn [PyStr.contains PyStr.lower]. intros H.
  apply orb_true_iff in H as [H | H].
  - cbn [String.prefix] in H.
    destruct (ascii_dec "$" c) as [<- | ?]; [| discriminate H].
    apply orb_true_iff. left. destruct (PyStr.lower s); reflexivity.
  - rewrite (IH H). apply orb_true_r.
Qed.

(** The words that the reply validator looks for are among the phrases
    that the message check looks for. *)
Lemma prohibited_words_are_phrases (w : string) :
  w ∈ LLMService.prohibited_words -> w ∈ prohibited_phrases.
Proof.
  unfold LLMService.prohibited_words, prohibited_phrases. intros H.
  apply list_elem_of_In in H. apply list_elem_of_In. simpl in *.
  repeat (destruct H as [H | H]; [auto 12 |]). destruct H.
Qed.

(** How the list of checks is put together. *)
Lemma message_checks (message : string) (ctx : ConversationContext.t) :
  check_message_compliance message ctx
  = [if bool_decide
          (filter (fun phrase => PyStr.contains phrase (PyStr.lower message) = true)
                  prohibited_phrases = [])
     then ComplianceCheck.mk "prohibited_language" true
            (Some "No prohibited language detected") default_severity
     else ComplianceCheck.mk "prohibited_language" false
            (Some ("Prohibited language detected: "
                   +:+ String.concat ", "
                         (filter (fun phrase =>
                                    PyStr.contains phrase (PyStr.lower message) = true)
                                 prohibited_phrases)))
            "critical"]
    ++ (if negb (ConversationContext.identity_verified ctx)
           && existsb (fun keyword => PyStr.contains keyword (PyStr.lower message))
                      ["balance"; "amount"; "payment"; "$"]
        then [ComplianceCheck.mk "identity_verification" false
                (Some "Account information shared without identity verification")
                "error"]
        else [])
    ++ (if negb (PyStr.contains "debt collector" (PyStr.lower message))
           && negb (PyStr.contains "collection" (PyStr.lower message))
        then [ComplianceCheck.mk "debt_collector_identification" false
                (Some "Message should identify as debt collection communication")
                "warning"]
        else []).
Proof.
  unfold check_message_compliance. cbv zeta.
  destruct (bool_decide _); destruct (ConversationContext.identity_verified ctx);
    cbn [negb andb app];
    try destruct (existsb _ _); destruct (negb _ && negb _); reflexivity.
Qed.

End MessageCheck.

(** X19. The message check of the compliance service is at least as
    strict as the reply validator. Whenever the validator's compliance
    check finds a violation in a reply, be it a prohibited word or
    account details given to a caller who is not verified, the message
    check run on the text of the reply, in the same context, reports a
    failed check of severity critical or error. *)
Theorem message_check_is_at_least_as_strict (response : AssistantResponse.t)
    (ctx : ConversationContext.t) :
  LLMService._check_compliance response ctx <> [] ->
  exists c : ComplianceCheck.t,
    c ∈ ComplianceRequests.check_message_compliance
          (AssistantResponse.message_to_user response) ctx
    /\ ComplianceCheck.passed c = false
    /\ (ComplianceCheck.severity c = "critical"
        \/ ComplianceCheck.severity c = "error").
Proof.
  intros Hfound. rewrite message_checks.
  set (message := AssistantResponse.message_to_user response) in *.
  destruct (decide (filter (fun phrase =>
                              PyStr.contains phrase (PyStr.lower message) = true)
                           ComplianceRequests.prohibited_phrases = []))
    as [Hnone | Hsome].
  - (* no phrase: the violation is a disclosure *)
    assert (Hwords : forall w, w ∈ LLMService.prohibited_words ->
              PyStr.contains w (PyStr.lower message) = false).
    { intros w Hw. apply prohibited_words_are_phrases in Hw.
      apply filter_nil_iff in Hnone. rewrite Forall_forall in Hnone.
      exact (Hnone w Hw). }
    unfold LLMService._check_compliance in Hfound. fold message in Hfound.
    assert (Homap :
      omap (fun word =>
              if PyStr.contains word (PyStr.lower message)
              then Some ("Prohibited language detected: " +:+ word) else None)
           LLMService.prohibited_words = []).
    { apply elem_of_nil_inv. intros x Hx.
      apply list_elem_of_omap in Hx as (w & Hw & Hsome).
      rewrite (Hwords w Hw) in Hsome. discriminate Hsome. }
    rewrite Homap, app_nil_r in Hfound.
    destruct (ConversationContext.identity_verified ctx); [contradiction |].
    simpl negb in *. cbv iota in Hfound.
    destruct (bool_decide _) in Hfound; [| contradiction].
    destruct (PyStr.contains "balance" (PyStr.lower message)
              || PyStr.contains "$" message) eqn:Hdetails; [| contradiction].
    assert (Hkey :
      existsb (fun keyword => PyStr.contains keyword (PyStr.lower message))
              ["balance"; "amount"; "payment"; "$"] = true).
    { cbn [existsb]. apply orb_true_iff in Hdetails as [Hb | Hd].
      - rewrite Hb. reflexivity.
      - rewrite (contains_dollar_lower message Hd), !orb_true_r. reflexivity. }
    rewrite Hkey. simpl andb. cbv iota.
    eexists. split; [| split; [| right]].
    + apply elem_of_app. right. apply elem_of_app. left.
      apply list_elem_of_singleton. reflexivity.
    + reflexivity.
    + reflexivity.
  - rewrite bool_decide_eq_false_2 by exact Hsome.
    eexists. split; [| split; [| left]].
    + apply elem_of_app. left. apply list_elem_of_singleton. reflexivity.
    + reflexivity.
    + reflexivity.
Qed.

(** The reply with the word "sue". *)
Lemma message_check_is_at_least_as_strict_witness :
  exists c : ComplianceCheck.t,
    c ∈ ComplianceRequests.check_message_compliance
          (AssistantResponse.message_to_user Examples.threatening_proposal)
          Examples.verified_context
    /\ ComplianceCheck.passed c = false
    /\ (ComplianceCheck.severity c = "critical"
        \/ ComplianceCheck.severity c = "error").
Proof.
  apply (message_check_is_at_least_as_strict Examples.threatening_proposal
           Examples.verified_context).
  vm_compute. discriminate.
Defined.

(** X20. What the message check reports. The check of the prohibited
    language always comes first, passed or failed; the check of the
    identity and the check of the identification as a debt collector are
    reported only when they fail. So a message passes every reported
    check exactly when it holds none of the ten prohibited phrases, the
    caller is verified or the text names none of "balance", "amount",
    "payment" and "$", and the text holds "debt collector" or
    "collection", all in any letter case. *)
Theorem message_check_report (message : string) (ctx : ConversationContext.t) :
  let checks := ComplianceRequests.check_message_compliance message ctx in
  (exists (c : ComplianceCheck.t) (rest : list ComplianceCheck.t),
     checks = c :: rest
     /\ ComplianceCheck.check_name c = "prohibited_language"
     /\ (length rest <= 2)%nat
     /\ Forall (fun c' => ComplianceCheck.passed c' = false) rest)
  /\ (Forall (fun c => ComplianceCheck.passed c = true) checks
      <-> Forall (fun phrase => PyStr.contains phrase (PyStr.lower message) = false)
                 ComplianceRequests.prohibited_phrases
          /\ (ConversationContext.identity_verified ctx = true
              \/ Forall (fun keyword =>
                           PyStr.contains keyword (PyStr.lower message) = false)
                        ["balance"; "amount"; "payment"; "$"])
          /\ (PyStr.contains "debt collector" (PyStr.lower message) = true
              \/ PyStr.contains "collection" (PyStr.lower message) = true)).
Proof.
  intros checks. subst checks. rewrite message_checks.
  rewrite <- filter_nil_iff, <- existsb_false_iff.
  set (found := filter _ ComplianceRequests.prohibited_phrases).
  set (keys := existsb _ _).
  set (c1 := PyStr.contains "debt collector" _).
  set (c2 := PyStr.contains "collection" _).
  split.
  - eexists _, _. split; [reflexivity |].
    split; [destruct (bool_decide _); reflexivity |].
    destruct (negb _ && keys), (negb c1 && negb c2); simpl;
      split; try lia; repeat constructor.
  - destruct (decide (found = [])) as [Hnone | Hsome].
    + rewrite bool_decide_eq_true_2 by exact Hnone.
      destruct (ConversationContext.identity_verified ctx), keys, c1, c2; simpl;
        split;
        try (intros H; repeat split; auto; fail);
        try (intros _; repeat constructor; fail);
        try (intros H; inversion H as [| ? ? _ H1]; subst;
             inversion H1 as [| ? ? H2 H3]; subst; try discriminate H2;
             inversion H3 as [| ? ? H4 _]; subst; discriminate H4);
        try (intros (_ & [? | ?] & [? | ?]); discriminate).
    + rewrite bool_decide_eq_false_2 by exact Hsome. split.
      * intros H. inversion H as [| ? ? H1 _]. discriminate H1.
      * intros (Hnone & _). contradiction.
Qed.

(** ** The request handlers of the compliance service *)

Section OptedOutTurns.
Import ConversationService.
Context `{py : Python}.
Variable env : Env.
Variable compliance_service : ComplianceService.t.

(** A turn for the loan of a borrower who has opted out is answered, if
    it is answered, by the blocked response with the opt-out reason. *)
Lemma opted_out_turn (self : t) (clock : Clock) (uuid4 : string)
    (generator : string -> ConversationContext.t -> res AssistantResponse.t)
    (user_message : string) (loan_id : Z) (session_id : string)
    (channel : ConversationChannel.t) (db db' : Session)
    (response : ConversationResponse.t)
    (j : nat) (loan : Loan.t) (k : nat) (borrower : Borrower.t) (d : datetime) :
  first (fun l : Loan.t => Loan.id l =? loan_id) (loans (rows db)) = Some (j, loan) ->
  first (fun b : Borrower.t => Borrower.id b =? Loan.borrower_id loan)
        (borrowers (rows db)) = Some (k, borrower) ->
  Borrower.opt_out_date borrower = Some d ->
  process_message env compliance_service self clock uuid4 generator user_message
    loan_id session_id channel db = (db', Ok response) ->
  ConversationResponse.ok response = false
  /\ AssistantResponse.message_to_user (ConversationResponse.assistant response)
     = "Contact not allowed at this time: Borrower has opted out of communications"
  /\ durable db' = durable db
  /\ messages (rows db') = messages (rows db).
Proof.
  intros Hloan Hborrower Hopt. unfold process_message, process_message_try.
  intros H. unfold mbind, res_bind, mret, res_ret in H.
  destruct (_get_or_create_conversation clock uuid4 loan_id session_id channel db)
    as [[db1 [i conversation]] |] eqn:Hconv; [| discriminate H].
  cbn [bind] in H.
  destruct (get_or_create_effect clock uuid4 loan_id session_id channel db db1 i
              conversation Hconv) as (Hdurable & Hrows & Hstate & _).
  rewrite bool_decide_eq_false_2 in H by exact Hstate.
  assert (Hl : loans (rows db1) = loans (rows db)) by (rewrite Hrows; reflexivity).
  assert (Hb : borrowers (rows db1) = borrowers (rows db))
    by (rewrite Hrows; reflexivity).
  assert (Hm : messages (rows db1) = messages (rows db))
    by (rewrite Hrows; reflexivity).
  rewrite Hl, Hb, Hloan, Hborrower in H.
  unfold ComplianceService.check_contact_compliance in H.
  rewrite (opt_out_check_fails borrower d Hopt) in H. simpl in H.
  injection H as <- <-. simpl. auto.
Qed.

End OptedOutTurns.

Section OptOutRequest.
Import ComplianceRequests.

Lemma first_borrower_after_assignment (borrower_id : Z) (l : list Borrower.t)
    (k : nat) (b b' : Borrower.t) :
  first (fun x : Borrower.t => Borrower.id x =? borrower_id) l = Some (k, b) ->
  Borrower.id b' = Borrower.id b ->
  first (fun x : Borrower.t => Borrower.id x =? borrower_id) (<[k := b']> l)
  = Some (k, b').
Proof.
  unfold first. intros Hfound Hid.
  apply list_find_Some in Hfound as (Hk & Hb & Hbefore).
  apply list_find_Some. split; [| split].
  - apply list_lookup_insert_eq. eapply lookup_lt_Some. exact Hk.
  - rewrite Hid. exact Hb.
  - intros n y Hn Hlt. rewrite list_lookup_insert_ne in Hn by lia.
    exact (Hbefore n y Hn Hlt).
Qed.

(** What a successful opt-out request leaves behind. *)
Lemma opt_out_request_effect (clock : Clock) (borrower_id : Z)
    (conversation_id : string) (db db1 : Session) (result : OptOutResult.t) :
  handle_opt_out_request clock borrower_id conversation_id db = (db1, Ok result) ->
  exists (k : nat) (b : Borrower.t),
    first (fun x : Borrower.t => Borrower.id x =? borrower_id) (borrowers (rows db))
    = Some (k, b)
    /\ first (fun x : Borrower.t => Borrower.id x =? borrower_id)
             (borrowers (rows db1))
       = Some (k, Borrower.mk (Borrower.id b) (Borrower.ssn_last_four b)
                    (Some (utcnow clock)))
    /\ conversations (rows db1)
       = (fun conv : Conversation.t =>
            if is_open_for borrower_id conv
            then Conversation.set_state ConversationState.OPTED_OUT conv
            else conv) <$> conversations (rows db)
    /\ loans (rows db1) = loans (rows db)
    /\ durable db1 = rows db1.
Proof.
  unfold handle_opt_out_request. intros H.
  destruct (first _ (borrowers (rows db))) as [[k b] |] eqn:Hfound;
    [| injection H as _ H; discriminate H].
  injection H as <- _. exists k, b. split; [reflexivity |]. simpl.
  split; [| repeat split].
  apply (first_borrower_after_assignment borrower_id _ k b); [exact Hfound |].
  reflexivity.
Qed.

End OptOutRequest.

(** X21. An opt-out request is respected from then on. After
    [handle_opt_out_request] has returned for a borrower, the change is
    committed, every conversation of that borrower is closed or opted
    out, and no turn for a loan of that borrower gets a reply: whatever
    the session identifier, the channel, the time and the generator, a
    turn that returns gives the blocked response with the opt-out
    reason, records no message and commits nothing. *)
Theorem opt_out_request_is_respected `{py : Python}
    (clock : Clock) (borrower_id : Z) (conversation_id : string)
    (db db1 : Session) (result : OptOutResult.t) :
  ComplianceRequests.handle_opt_out_request clock borrower_id conversation_id db
  = (db1, Ok result) ->
  durable db1 = rows db1
  /\ Forall (fun c : Conversation.t =>
               Conversation.borrower_id c = borrower_id ->
               Conversation.state c
               ∈ [ConversationState.CLOSED; ConversationState.OPTED_OUT])
            (conversations (rows db1))
  /\ forall (env : Env) (compliance_service : ComplianceService.t)
            (self : ConversationService.t) (clock' : Clock) (uuid4 : string)
            (generator : string -> ConversationContext.t -> res AssistantResponse.t)
            (user_message : string) (loan_id : Z) (session_id : string)
            (channel : ConversationChannel.t) (j : nat) (loan : Loan.t)
            (db2 : Session) (response : ConversationResponse.t),
       first (fun l : Loan.t => Loan.id l =? loan_id) (loans (rows db1))
       = Some (j, loan) ->
       Loan.borrower_id loan = borrower_id ->
       ConversationService.process_message env compliance_service self clock'
         uuid4 generator user_message loan_id session_id channel db1
       = (db2, Ok response) ->
       ConversationResponse.ok response = false
       /\ AssistantResponse.message_to_user (ConversationResponse.assistant response)
          = "Contact not allowed at this time: Borrower has opted out of communications"
       /\ durable db2 = durable db1
       /\ messages (rows db2) = messages (rows db1).
Proof.
  intros H.
  destruct (opt_out_request_effect clock borrower_id conversation_id db db1 result H)
    as (k & b & _ & Hfound & Hconvs & _ & Hdurable).
  split; [exact Hdurable |]. split.
  - rewrite Hconvs. apply Forall_fmap, Forall_forall. intros c _. simpl.
    unfold ComplianceRequests.is_open_for.
    destruct (Conversation.borrower_id c =? borrower_id) eqn:Hb; simpl.
    + destruct (bool_decide (Conversation.state c ∈ _)) eqn:Hs; simpl.
      * intros _. apply bool_decide_eq_true in Hs. exact Hs.
      * intros _. apply list_elem_of_In. right. left. reflexivity.
    + intros Heq. apply Z.eqb_neq in Hb. contradiction.
  - intros env compliance_service self clock' uuid4 generator user_message loan_id
           session_id channel j loan db2 response Hloan Hof Hturn.
    rewrite <- Hof in Hfound.
    exact (opted_out_turn env compliance_service self clock' uuid4 generator
             user_message loan_id session_id channel db1 db2 response j loan k _
             (utcnow clock) Hloan Hfound eq_refl Hturn).
Qed.

(** The example borrower opts out on a Tuesday morning and writes again
    under a new session identifier that afternoon. *)
Lemma opt_out_request_is_respected_witness :
  exists (db1 db2 : Session) (response : ConversationResponse.t),
    fst (ComplianceRequests.handle_opt_out_request
           (Examples.clock_at Examples.tuesday_morning) 1 "s1" Examples.db)
    = db1
    /\ ConversationService.process_message (py := RefPython.ref_python) default_env
         ComplianceService.compliance_service
         ConversationService.conversation_service
         (Examples.clock_at (mk_datetime 2025 11 4 15 0 0 0)) "fresh-uuid"
         MoreExamples.clean_generator "hello" 1 "s9" ConversationChannel.CHAT db1
       = (db2, Ok response)
    /\ ConversationResponse.ok response = false
    /\ durable db2 = durable db1
    /\ Conversation.state <$> conversations (rows db1)
       = [ConversationState.OPTED_OUT].
Proof.
  destruct (ComplianceRequests.handle_opt_out_request
              (Examples.clock_at Examples.tuesday_morning) 1 "s1" Examples.db)
    as [db1 r] eqn:Hreq.
  destruct r as [result | e]; [| vm_compute in Hreq; discriminate Hreq].
  destruct (opt_out_request_is_respected (py := RefPython.ref_python) _ _ _ _ _ _ Hreq)
    as (_ & _ & Hturns).
  destruct (ConversationService.process_message (py := RefPython.ref_python)
              default_env ComplianceService.compliance_service
              ConversationService.conversation_service
              (Examples.clock_at (mk_datetime 2025 11 4 15 0 0 0)) "fresh-uuid"
              MoreExamples.clean_generator "hello" 1 "s9" ConversationChannel.CHAT
              db1) as [db2 r2] eqn:Hturn.
  assert (Hdb1 : db1 = fst (ComplianceRequests.handle_opt_out_request
                              (Examples.clock_at Examples.tuesday_morning) 1 "s1"
                              Examples.db)) by (rewrite Hreq; reflexivity).
  destruct r2 as [response | e];
    [| rewrite Hdb1 in Hturn; vm_compute in Hturn; discriminate Hturn].
  destruct (Hturns _ _ _ _ _ _ _ 1 _ _ 0%nat Examples.loan db2 response
              ltac:(rewrite Hdb1; reflexivity) eq_refl Hturn)
    as (Hok & _ & Hdurable & _).
  exists db1, db2, response. split; [reflexivity |]. split; [exact Hturn |].
  split; [exact Hok |]. split; [exact Hdurable |].
  rewrite Hdb1. reflexivity.
Defined.

Section DebtValidation.
Import ComplianceRequests.

Lemma paused_is_not_negotiation (clock : Clock) (borrower_id loan_id : Z)
    (c : Conversation.t) :
  is_negotiation_of borrower_id loan_id
    (if is_negotiation_of borrower_id loan_id c
     then Conversation.set_escalation "Debt validation requested" (utcnow clock)
            (Conversation.set_state ConversationState.ESCALATED c)
     else c) = false.
Proof.
  destruct (is_negotiation_of borrower_id loan_id c) eqn:E; [| exact E].
  unfold is_negotiation_of. simpl. apply andb_false_r.
Qed.

End DebtValidation.

(** X22. A debt validation request pauses the negotiations of the loan,
    and nothing else. After [handle_debt_validation_request] every
    conversation of the borrower and the loan that was in active
    negotiation is escalated with the reason "Debt validation
    requested", every other conversation, those that are initiated or
    in identity verification included, is as it was, and the change is
    committed; no active negotiation of the borrower and the loan is
    left, so a second request changes no conversation. *)
Theorem debt_validation_pauses_negotiations (clock clock' : Clock)
    (borrower_id loan_id : Z) (conversation_id conversation_id' : string)
    (db : Session) :
  let db1 :=
    fst (ComplianceRequests.handle_debt_validation_request clock borrower_id
           loan_id conversation_id db) in
  durable db1 = rows db1
  /\ length (conversations (rows db1)) = length (conversations (rows db))
  /\ (forall (n : nat) (c : Conversation.t),
        conversations (rows db) !! n = Some c ->
        conversations (rows db1) !! n
        = Some (if ComplianceRequests.is_negotiation_of borrower_id loan_id c
                then Conversation.set_escalation "Debt validation requested"
                       (utcnow clock)
                       (Conversation.set_state ConversationState.ESCALATED c)
                else c))
  /\ Forall (fun c => ComplianceRequests.is_negotiation_of borrower_id loan_id c
                      = false)
            (conversations (rows db1))
  /\ conversations
       (rows (fst (ComplianceRequests.handle_debt_validation_request clock'
                     borrower_id loan_id conversation_id' db1)))
     = conversations (rows db1).
Proof.
  intros db1. subst db1. unfold ComplianceRequests.handle_debt_validation_request.
  simpl.
  split; [reflexivity |]. split; [apply length_fmap |].
  split; [intros n c Hn; rewrite list_lookup_fmap, Hn; reflexivity |].
  assert (Hnone :
    Forall (fun c => ComplianceRequests.is_negotiation_of borrower_id loan_id c
                     = false)
      ((fun conv : Conversation.t =>
          if ComplianceRequests.is_negotiation_of borrower_id loan_id conv
          then Conversation.set_escalation "Debt validation requested"
                 (utcnow clock)
                 (Conversation.set_state ConversationState.ESCALATED conv)
          else conv) <$> conversations (rows db))).
  { apply Forall_fmap, Forall_forall. intros c _.
    apply paused_is_not_negotiation. }
  split; [exact Hnone |].
  rewrite <- list_fmap_compose.
  apply list_fmap_ext. intros n c _. simpl.
  rewrite (paused_is_not_negotiation clock borrower_id loan_id c). reflexivity.
Qed.

(** ** The state of the conversation after a turn *)

Section StateAfterTurn.
Import ConversationService.

Lemma update_state_fields (clock : Clock) (reply : AssistantResponse.t)
    (c : Conversation.t) :
  Conversation.state (_update_conversation_state clock reply c)
  = Turn.state_after reply (Conversation.state c)
  /\ Conversation.last_activity (_update_conversation_state clock reply c)
     = utcnow clock
  /\ Conversation.escalation_reason (_update_conversation_state clock reply c)
     = Conversation.escalation_reason c
  /\ Conversation.escalation_date (_update_conversation_state clock reply c)
     = Conversation.escalation_date c.
Proof.
  unfold _update_conversation_state, Turn.state_after.
  destruct (AssistantResponse.escalation reply); [repeat split |].
  destruct (bool_decide _); [repeat split |].
  destruct (bool_decide _); [repeat split |].
  destruct (bool_decide _); repeat split.
Qed.

End StateAfterTurn.

(** X23. The state in which a turn leaves its conversation is decided
    by the reply, whatever the state was. After a turn that the gate
    allows and that returns, the conversation is escalated if the reply
    escalates; otherwise it is in identity verification, in active
    negotiation or closed according to the action of the reply, and
    keeps its state for the other actions. In particular a conversation
    that was escalated, by a lock-out or by a request, is taken up
    again by the next message and returns to active negotiation as soon
    as a reply proposes a plan or collects a payment; its escalation
    reason and date stay as they were. *)
Theorem state_after_a_turn `{py : Python}
    (env : Env) (compliance_service : ComplianceService.t)
    (self : ConversationService.t) (clock : Clock) (uuid4 : string)
    (generator : string -> ConversationContext.t -> res AssistantResponse.t)
    (user_message : string) (loan_id : Z) (session_id : string)
    (channel : ConversationChannel.t) (db db1 db' : Session) (i : nat)
    (conversation : Conversation.t) (loan : Loan.t) (borrower : Borrower.t)
    (response : ConversationResponse.t) :
  Turn.gate_allows compliance_service clock uuid4 loan_id session_id channel
    db db1 i conversation loan borrower ->
  ConversationService.process_message env compliance_service self clock uuid4
    generator user_message loan_id session_id channel db
  = (db', Ok response) ->
  let reply := ConversationResponse.assistant response in
  reply = Turn.reply_of env clock generator user_message conversation db1
  /\ exists c' : Conversation.t,
       conversations (rows db') !! i = Some c'
       /\ Conversation.state c'
          = Turn.state_after reply (Conversation.state conversation)
       /\ Conversation.last_activity c' = utcnow clock
       /\ (AssistantResponse.escalation reply = false ->
           Conversation.escalation_reason c'
           = Conversation.escalation_reason conversation
           /\ Conversation.escalation_date c'
              = Conversation.escalation_date conversation).
Proof.
  intros (j & k & verdict & Hconv & Hloan & Hborrower & Hgate & Hallowed) Hturn reply.
  destruct (get_or_create_effect clock uuid4 loan_id session_id channel db db1 i
              conversation Hconv) as (_ & _ & Hstate & _).
  pose proof (get_or_create_index clock uuid4 loan_id session_id channel db db1 i
                conversation Hconv) as Hi.
  unfold ConversationService.process_message,
    ConversationService.process_message_try in Hturn.
  rewrite Hconv in Hturn. unfold mbind, res_bind, mret, res_ret in Hturn.
  cbn [bind] in Hturn.
  rewrite bool_decide_eq_false_2 in Hturn by exact Hstate.
  rewrite Hloan, Hborrower, Hgate in Hturn. cbn [bind] in Hturn.
  rewrite Hallowed in Hturn. simpl negb in Hturn. cbv iota in Hturn.
  fold (Turn.reply_of env clock generator user_message conversation db1) in Hturn.
  destruct (ConversationService._handle_assistant_action clock _ i conversation
              loan borrower _) as [[[db2 conversation2] response2] |] eqn:Hact;
    [| discriminate Hturn].
  cbn [bind] in Hturn. injection Hturn as <- <-.
  destruct (handle_action_effect clock _ i conversation loan borrower _ db2
              conversation2 response2 Hact)
    as (Hesc & _ & _ & _ & _ & _ & Hreply & _).
  subst reply. rewrite Hreply. split; [reflexivity |].
  set (r := Turn.reply_of env clock generator user_message conversation db1) in *.
  destruct (update_state_fields clock r conversation2) as (Hs & Hl & Hr & Hd).
  exists (ConversationService._update_conversation_state clock r conversation2).
  split.
  - simpl. apply list_lookup_insert_eq.
    destruct Hesc as [(_ & _ & Hl2) | (metadata & _ & _ & _ & Hl2)]; rewrite Hl2; simpl.
    + eapply lookup_lt_Some. exact Hi.
    + rewrite length_insert. eapply lookup_lt_Some. exact Hi.
  - rewrite Hs, Hl, Hr, Hd.
    destruct Hesc as [(Hflag & -> & _) | (metadata & Hflag & _ & -> & _)].
    + repeat split.
    + unfold Turn.state_after. rewrite Hflag. repeat split; discriminate.
Qed.

(** An escalated conversation, and a reply that collects a payment: the
    conversation is back in active negotiation. *)
Lemma state_after_a_turn_witness :
  exists (db' : Session) (response : ConversationResponse.t) (c' : Conversation.t),
    ConversationService.process_message (py := RefPython.ref_python) default_env
      ComplianceService.compliance_service ConversationService.conversation_service
      (Examples.clock_at Examples.tuesday_morning) "fresh-uuid"
      MoreExamples.collecting_generator "hello" 1 "s1" ConversationChannel.CHAT
      MoreExamples.escalated_db
    = (db', Ok response)
    /\ conversations (rows MoreExamples.escalated_db) !! 0%nat
       = Some MoreExamples.escalated_conversation
    /\ Conversation.state MoreExamples.escalated_conversation
       = ConversationState.ESCALATED
    /\ conversations (rows db') !! 0%nat = Some c'
    /\ Conversation.state c' = ConversationState.ACTIVE_NEGOTIATION
    /\ Conversation.escalation_reason c'
       = Some "Maximum verification attempts exceeded".
Proof.
  destruct (ConversationService.process_message (py := RefPython.ref_python)
              default_env ComplianceService.compliance_service
              ConversationService.conversation_service
              (Examples.clock_at Examples.tuesday_morning) "fresh-uuid"
              MoreExamples.collecting_generator "hello" 1 "s1"
              ConversationChannel.CHAT MoreExamples.escalated_db)
    as [db' r] eqn:Hturn.
  destruct r as [response | e]; [| vm_compute in Hturn; discriminate Hturn].
  destruct (state_after_a_turn (py := RefPython.ref_python) default_env
              ComplianceService.compliance_service
              ConversationService.conversation_service
              (Examples.clock_at Examples.tuesday_morning) "fresh-uuid"
              MoreExamples.collecting_generator "hello" 1 "s1"
              ConversationChannel.CHAT MoreExamples.escalated_db
              (store_conversation 0
                 (Conversation.set_last_activity Examples.tuesday_morning
                    MoreExamples.escalated_conversation)
                 MoreExamples.escalated_db)
              db' 0%nat
              (Conversation.set_last_activity Examples.tuesday_morning
                 MoreExamples.escalated_conversation)
              Examples.loan Examples.borrower response)
    as (Hreply & c' & Hi & Hstate & _ & Hkept).
  - exists 0%nat, 0%nat. eexists.
    split; [reflexivity |]. split; [reflexivity |]. split; [reflexivity |].
    split; [vm_compute; reflexivity | reflexivity].
  - exact Hturn.
  - rewrite Hreply in Hstate, Hkept.
    exists db', response, c'. split; [reflexivity |]. split; [reflexivity |].
    split; [reflexivity |]. split; [exact Hi |].
    split; [exact Hstate | exact (proj1 (Hkept eq_refl))].
Defined.

(** ** The policy query *)

(** X24. The policy query is picked by the first keyword that occurs.
    The general query is returned exactly when none of the seven
    keywords occurs in the message in any letter case; and a message
    that holds "payment plan" anywhere, in any mix of cases, gets the
    query of the payment plans whatever other keywords it holds, "stop"
    and "dispute" included. *)
Theorem policy_query_by_first_keyword (user_message : string) :
  (LLMQueries._extract_policy_query user_message = "general debt collection policy"
   <-> Forall (fun entry : string * string =>
                 PyStr.contains (fst entry) (PyStr.lower user_message) = false)
              LLMQueries.policy_keywords)
  /\ (forall before keyword after : string,
        PyStr.lower keyword = "payment plan" ->
        user_message = before +:+ keyword +:+ after ->
        LLMQueries._extract_policy_query user_message
        = "payment plan installment policy").
Proof.
  split.
  - unfold LLMQueries._extract_policy_query. cbv zeta.
    destruct (list_find _ LLMQueries.policy_keywords) as [[n [keyword query]] |]
      eqn:Hfind.
    + apply list_find_Some in Hfind as (Hn & Hc & _). simpl in Hc.
      split.
      * intros Hq. exfalso. subst query.
        unfold LLMQueries.policy_keywords in Hn.
        do 7 (destruct n as [| n]; [discriminate Hn |]). discriminate Hn.
      * intros Hall. exfalso. rewrite Forall_lookup in Hall.
        specialize (Hall n _ Hn). simpl in Hall. congruence.
    + split; [intros _ | reflexivity].
      apply list_find_None in Hfind.
      eapply Forall_impl; [exact Hfind |]. intros entry Hnot.
      simpl in Hnot. destruct (PyStr.contains _ _); [contradiction | reflexivity].
  - intros before keyword after Hkey ->.
    unfold LLMQueries._extract_policy_query, LLMQueries.policy_keywords.
    cbv zeta. cbn [list_find]. simpl fst.
    rewrite !lower_app, Hkey, contains_inside.
    rewrite decide_True by reflexivity. reflexivity.
Qed.

(** ** The masking of a value in the logs *)

Section Masking.
Import PIIMaskingProcessor.

Lemma string_length_app (a b : string) :
  String.length (a +:+ b) = (String.length a + String.length b)%nat.
Proof. induction a as [| c a IH]; simpl; [reflexivity | rewrite IH; reflexivity]. Qed.

Lemma string_length_substring (s : string) :
  forall n m : nat,
    String.length (String.substring n m s) = Nat.min m (String.length s - n).
Proof.
  induction s as [| c s IH]; intros n m.
  - destruct n, m; reflexivity.
  - destruct n as [| n]; [destruct m as [| m] |]; simpl.
    + reflexivity.
    + rewrite IH, Nat.sub_0_r. reflexivity.
    + apply IH.
Qed.

Lemma length_stars (n : nat) : String.length (stars n) = n.
Proof. induction n as [| n IH]; simpl; [reflexivity | rewrite IH; reflexivity]. Qed.

Lemma get_stars (n i : nat) :
  String.get i (stars n) = if (i <? n)%nat then Some "*"%char else None.
Proof.
  revert i. induction n as [| n IH]; intros i; [destruct i; reflexivity |].
  destruct i as [| i]; [reflexivity |]. simpl String.get. rewrite IH.
  reflexivity.
Qed.

Lemma get_beyond (s : string) :
  forall i : nat, (String.length s <= i)%nat -> String.get i s = None.
Proof.
  induction s as [| c s IH]; intros i Hi; [destruct i; reflexivity |].
  destruct i as [| i]; simpl in *; [lia | apply IH; lia].
Qed.

Lemma mask_value_length (value : string) :
  String.length (mask_value value) = String.length value.
Proof.
  unfold mask_value.
  destruct (String.length value <=? 4)%nat eqn:Hshort.
  - apply length_stars.
  - apply Nat.leb_gt in Hshort.
    rewrite !string_length_app, !string_length_substring, length_stars. lia.
Qed.

(** The characters of a masked value. *)
Lemma get_mask_value (value : string) (i : nat) :
  String.get i (mask_value value)
  = if (String.length value <=? 4)%nat then
      if (i <? String.length value)%nat then Some "*"%char else None
    else if (i <? 2)%nat then String.get i value
    else if (i <? String.length value - 2)%nat then Some "*"%char
    else String.get i value.
Proof.
  unfold mask_value.
  destruct (String.length value <=? 4)%nat eqn:Hshort; [apply get_stars |].
  apply Nat.leb_gt in Hshort.
  set (a := String.substring 0 2 value).
  set (st := stars (String.length value - 4)).
  set (b := String.substring (String.length value - 2) 2 value).
  assert (Ha : String.length a = 2%nat)
    by (unfold a; rewrite string_length_substring; lia).
  assert (Hst : String.length st = (String.length value - 4)%nat)
    by apply length_stars.
  destruct (i <? 2)%nat eqn:H2.
  - apply Nat.ltb_lt in H2.
    rewrite <- append_correct1 by lia.
    unfold a. rewrite substring_correct1 by lia. f_equal. lia.
  - apply Nat.ltb_ge in H2.
    replace i with ((i - 2) + String.length a)%nat at 1 by lia.
    rewrite <- append_correct2.
    destruct (i <? String.length value - 2)%nat eqn:Hmid.
    + apply Nat.ltb_lt in Hmid.
      rewrite <- append_correct1 by lia.
      unfold st. rewrite get_stars.
      rewrite (proj2 (Nat.ltb_lt _ _)) by lia. reflexivity.
    + apply Nat.ltb_ge in Hmid.
      replace (i - 2)%nat with ((i - (String.length value - 2)) + String.length st)%nat
        by lia.
      rewrite <- append_correct2. unfold b.
      destruct (Nat.lt_ge_cases i (String.length value)) as [Hin | Hout].
      * rewrite substring_correct1 by lia. f_equal. lia.
      * rewrite substring_correct2 by lia. symmetry. apply get_beyond. exact Hout.
Qed.

End Masking.

(** X25. What the masking of a value hides. A masked value has the
    length of the value; of a value of up to four characters every
    character is replaced by a star; of a longer one the first two and
    the last two characters are kept and every character between them
    is a star, so a value of five characters keeps four of them.
    Masking a masked value changes nothing. *)
Theorem mask_value_keeps_the_ends (value : string) :
  String.length (PIIMaskingProcessor.mask_value value) = String.length value
  /\ (forall i : nat,
        (i < String.length value)%nat ->
        String.get i (PIIMaskingProcessor.mask_value value)
        = if (4 <? String.length value)%nat
             && ((i <? 2)%nat || (String.length value - 2 <=? i)%nat)
          then String.get i value
          else Some "*"%char)
  /\ PIIMaskingProcessor.mask_value (PIIMaskingProcessor.mask_value value)
     = PIIMaskingProcessor.mask_value value.
Proof.
  split; [apply mask_value_length |]. split.
  - intros i Hi. rewrite get_mask_value.
    destruct (String.length value <=? 4)%nat eqn:Hshort.
    + apply Nat.leb_le in Hshort.
      rewrite (proj2 (Nat.ltb_lt _ _) Hi), (proj2 (Nat.ltb_ge _ _)) by lia.
      reflexivity.
    + apply Nat.leb_gt in Hshort.
      rewrite (proj2 (Nat.ltb_lt 4 _)) by lia. simpl andb.
      destruct (i <? 2)%nat; [reflexivity |]. simpl orb.
      destruct (i <? String.length value - 2)%nat eqn:Hmid.
      * apply Nat.ltb_lt in Hmid. rewrite (proj2 (Nat.leb_gt _ _)) by lia.
        reflexivity.
      * apply Nat.ltb_ge in Hmid. rewrite (proj2 (Nat.leb_le _ _)) by lia.
        reflexivity.
  - apply get_correct. intros i.
    rewrite (get_mask_value (PIIMaskingProcessor.mask_value value)).
    rewrite mask_value_length.
    destruct (String.length value <=? 4)%nat eqn:Hshort.
    + rewrite get_mask_value, Hshort. reflexivity.
    + destruct (i <? 2)%nat eqn:H2; [reflexivity |].
      destruct (i <? String.length value - 2)%nat eqn:Hmid; [| reflexivity].
      rewrite get_mask_value, Hshort, H2, Hmid. reflexivity.
Qed.

(** ** The chunking of a document *)

Section Chunking.
Import RAGService.

Lemma slice_take_drop {A : Type} (l : list A) (i c : Z) :
  0 <= i <= Z.of_nat (length l) -> 0 <= c ->
  slice l i (i + c) = take (Z.to_nat c) (drop (Z.to_nat i) l).
Proof.
  intros Hi Hc. unfold slice, clamp. cbv zeta.
  rewrite (proj2 (Z.ltb_ge i 0)), (proj2 (Z.ltb_ge (i + c) 0)) by lia.
  rewrite (Z.min_l i) by lia.
  destruct (Z.le_gt_cases (i + c) (Z.of_nat (length l))) as [Hin | Hout].
  - rewrite Z.min_l by lia. f_equal. lia.
  - rewrite Z.min_r by lia.
    rewrite !take_ge; [reflexivity | |]; rewrite length_drop; lia.
Qed.

Lemma chunk_loop_words (words : list string) (chunk_size : Z) (indices : list Z) :
  chunk_loop words chunk_size indices
  = String.concat " " <$> chunk_words_loop words chunk_size indices.
Proof.
  induction indices as [| i rest IH]; [reflexivity |].
  cbn [chunk_loop chunk_words_loop].
  destruct (Z.of_nat (length words) <=? i + chunk_size); [reflexivity |].
  rewrite IH. reflexivity.
Qed.

(** The chunks from the index [i] on put the words from [i] on together
    again. *)
Lemma chunk_words_from (words : list string) (c o : Z) (m : nat) :
  0 <= o < c ->
  forall i : Z,
    0 <= i < Z.of_nat (length words) ->
    Z.of_nat (length words) - i <= Z.of_nat m * (c - o) ->
    exists rest : list (list string),
      chunk_words_loop words c (range_from i (c - o) m)
      = take (Z.to_nat c) (drop (Z.to_nat i) words) :: rest
      /\ take (Z.to_nat c) (drop (Z.to_nat i) words)
         ++ concat (drop (Z.to_nat o) <$> rest)
         = drop (Z.to_nat i) words
      /\ Forall (fun ws : list string =>
                   (1 <= length ws)%nat /\ Z.of_nat (length ws) <= c)
                (take (Z.to_nat c) (drop (Z.to_nat i) words) :: rest).
Proof.
  intros Ho. induction m as [| m IH]; intros i Hi Hfuel; [lia |].
  cbn [range_from chunk_words_loop].
  rewrite slice_take_drop by lia.
  destruct (Z.of_nat (length words) <=? i + c) eqn:Hlast;
    [apply Z.leb_le in Hlast | apply Z.leb_gt in Hlast].
  - exists []. split; [reflexivity |]. split.
    + simpl. rewrite app_nil_r. apply take_ge. rewrite length_drop. lia.
    + repeat constructor; rewrite length_take, length_drop; lia.
  - destruct (IH (i + (c - o)) ltac:(lia) ltac:(lia)) as (rest & -> & Heq & Hall).
    eexists. split; [reflexivity |]. split.
    + cbn [fmap list_fmap concat].
      change (list_fmap _ _ (drop (Z.to_nat o)) rest)
        with (drop (Z.to_nat o) <$> rest).
      rewrite app_assoc, <- (app_assoc (take _ _)).
      rewrite <- drop_app_le
        by (rewrite length_take, length_drop; lia).
      rewrite Heq, drop_drop.
      replace (Z.to_nat (i + (c - o)) + Z.to_nat o)%nat
        with (Z.to_nat i + Z.to_nat c)%nat by lia.
      rewrite <- drop_drop. apply take_drop.
    + constructor; [| exact Hall].
      rewrite length_take, length_drop. lia.
Qed.

End Chunking.

(** X26. The chunks of a document. With an overlap that is not negative
    and below the chunk size, no word is lost and none is out of place:
    every chunk holds at least one word and at most [chunk_size], and
    the words of the first chunk followed by the words of every later
    chunk without its first [overlap] words are the words of the text,
    in order. With an overlap equal to the chunk size the chunking
    raises, and with a larger overlap it returns no chunk at all,
    whatever the text is. *)
Theorem chunks_cover_the_text (text : string) (chunk_size overlap : Z) :
  (0 <= overlap < chunk_size ->
   exists chunk_words : list (list string),
     RAGService._chunk_text text chunk_size overlap
     = Ok (String.concat " " <$> chunk_words)
     /\ RAGService.reassemble overlap chunk_words = RAGService.split text
     /\ Forall (fun ws : list string =>
                  (1 <= length ws)%nat /\ Z.of_nat (length ws) <= chunk_size)
               chunk_words)
  /\ (overlap = chunk_size ->
      RAGService._chunk_text text chunk_size overlap
      = Raise (ValueError "range() arg 3 must not be zero"))
  /\ (chunk_size < overlap ->
      RAGService._chunk_text text chunk_size overlap = Ok []).
Proof.
  unfold RAGService._chunk_text, RAGService.range. cbv zeta.
  split; [| split].
  - intros Ho.
    rewrite (proj2 (Z.eqb_neq _ 0)) by lia.
    unfold mbind, res_bind, mret, res_ret. cbn [bind].
    rewrite chunk_loop_words.
    set (words := RAGService.split text).
    unfold RAGService.range_len.
    rewrite (proj2 (Z.ltb_lt 0 (chunk_size - overlap))) by lia.
    destruct (0 <? Z.of_nat (length words)) eqn:Hwords;
      [apply Z.ltb_lt in Hwords | apply Z.ltb_ge in Hwords].
    + set (m := (Z.of_nat (length words) - 0 - 1) / (chunk_size - overlap) + 1).
      assert (Hm : Z.of_nat (length words) <= m * (chunk_size - overlap)).
      { subst m.
        pose proof (Z.div_mod (Z.of_nat (length words) - 0 - 1)
                      (chunk_size - overlap) ltac:(lia)) as Hdiv.
        pose proof (Z.mod_pos_bound (Z.of_nat (length words) - 0 - 1)
                      (chunk_size - overlap) ltac:(lia)) as Hmod.
        nia. }
      assert (Hm0 : 0 <= m).
      { subst m.
        pose proof (Z.div_pos (Z.of_nat (length words) - 0 - 1)
                      (chunk_size - overlap) ltac:(lia) ltac:(lia)). lia. }
      assert (Hfuel : Z.of_nat (length words) - 0
                      <= Z.of_nat (Z.to_nat m) * (chunk_size - overlap))
        by (rewrite Z2Nat.id by exact Hm0; lia).
      destruct (chunk_words_from words chunk_size overlap (Z.to_nat m) Ho 0
                  ltac:(lia) Hfuel) as (rest & Hloop & Heq & Hall).
      eexists. split; [rewrite Hloop; reflexivity |].
      split; [exact Heq | exact Hall].
    + exists []. simpl.
      assert (Hnil : words = []) by (destruct words; [reflexivity | simpl in *; lia]).
      rewrite Hnil. repeat split. constructor.
  - intros ->. rewrite Z.sub_diag. reflexivity.
  - intros Hneg.
    rewrite (proj2 (Z.eqb_neq _ 0)) by lia.
    unfold RAGService.range_len.
    rewrite (proj2 (Z.ltb_ge 0 (chunk_size - overlap))) by lia.
    rewrite (proj2 (Z.ltb_ge _ 0)) by lia.
    reflexivity.
Qed.

(** Seven words in chunks of three with an overlap of one. *)
Lemma chunks_cover_the_text_witness :
  exists chunk_words : list (list string),
    RAGService._chunk_text "a b c d e f g" 3 1
    = Ok (String.concat " " <$> chunk_words)
    /\ RAGService.reassemble 1 chunk_words = RAGService.split "a b c d e f g"
    /\ Forall (fun ws : list string =>
                 (1 <= length ws)%nat /\ Z.of_nat (length ws) <= 3)
              chunk_words.
Proof.
  apply (chunks_cover_the_text "a b c d e f g" 3 1). lia.
Defined.
